(** * Code Review Assistant: the review ingestion pipeline

    A shallow embedding of [backend/app/api.py], [backend/app/llm_analyzer.py]
    and [backend/app/database.py], and the properties of the ingestion and
    report-normalisation path proved over it.

    Python values are modelled as they are at run time (CPython 3.12 on a
    POSIX host): a [str] is a sequence of Unicode code points, an [int] is
    unbounded, a [float] is an IEEE 754 binary64 number, a [dict] keeps its
    keys in insertion order.  What the process does not own is a parameter of
    the model: the LLM service, the JSON decoder of the standard library, the
    text codec, [werkzeug]'s [secure_filename] and the Unicode case tables
    (class [Runtime]); a reference instance, written after the libraries'
    documented behaviour, makes every definition run on concrete inputs.
    Writing to the log and to the upload folder is taken to work, and is not
    modelled. *)

From Stdlib Require Import List ZArith NArith PeanoNat Lia Bool String Ascii.
From Stdlib Require Import SpecFloat DecimalString HexadecimalString.
From Stdlib Require Import Sorted Permutation.
Import ListNotations.

Set Implicit Arguments.

(** ** Strings: sequences of code points *)

Definition char := N.
Definition str := list char.

(** A literal of the source, as code points (the literals of the source are
    ASCII but for the emoji of the log lines, which are not modelled). *)
Definition py (s : string) : str := map N_of_ascii (list_ascii_of_string s).

Definition quote : char := 34%N.

Definition char_eqb (a b : char) : bool := N.eqb a b.

Fixpoint str_eqb (a b : str) : bool :=
  match a, b with
  | [], [] => true
  | x :: a', y :: b' => char_eqb x y && str_eqb a' b'
  | _, _ => false
  end.

(** [c in s] for a one-character needle. *)
Definition str_contains (c : char) (s : str) : bool := existsb (char_eqb c) s.

(** [str.isspace] on one code point: the characters [str.strip()] removes
    (bidirectional class WS, B or S, or category Zs). *)
Definition is_space (c : char) : bool :=
  ((9 <=? c) && (c <=? 13) || (28 <=? c) && (c <=? 32)
   || (c =? 133) || (c =? 160) || (c =? 5760)
   || (8192 <=? c) && (c <=? 8202)
   || (c =? 8232) || (c =? 8233) || (c =? 8239) || (c =? 8287)
   || (c =? 12288))%N.

Fixpoint str_lstrip_by (p : char -> bool) (s : str) : str :=
  match s with
  | [] => []
  | c :: t => if p c then str_lstrip_by p t else s
  end.

Definition str_rstrip_by (p : char -> bool) (s : str) : str :=
  rev (str_lstrip_by p (rev s)).

Definition str_strip_by (p : char -> bool) (s : str) : str :=
  str_rstrip_by p (str_lstrip_by p s).

(** [s.strip()] *)
Definition str_strip (s : str) : str := str_strip_by is_space s.

(** [s.startswith(c)] for a one-character prefix. *)
Definition str_startswith (c : char) (s : str) : bool :=
  match s with
  | [] => false
  | x :: _ => char_eqb x c
  end.

(** Truth value of a [str]: non-empty. *)
Definition str_truthy (s : str) : bool :=
  match s with [] => false | _ :: _ => true end.

(** [s.split(sep)] for a one-character separator: never an empty list. *)
Fixpoint str_split (sep : char) (s : str) : list str :=
  match s with
  | [] => [[]]
  | c :: t =>
      if char_eqb c sep then [] :: str_split sep t
      else match str_split sep t with
           | [] => [[c]]
           | piece :: pieces => (c :: piece) :: pieces
           end
  end.

(** [s.rsplit(sep, 1)]: split once, at the last separator. The result is
    [[s]] when [s] has no separator, [[before; after]] otherwise. *)
Fixpoint str_rsplit1 (sep : char) (s : str) : list str :=
  match s with
  | [] => [[]]
  | c :: t =>
      match str_rsplit1 sep t with
      | [before; after] => [c :: before; after]
      | _ => if char_eqb c sep then [[]; t] else [s]
      end
  end.

(** [sep.join(pieces)] *)
Fixpoint str_join (sep : str) (pieces : list str) : str :=
  match pieces with
  | [] => []
  | [p] => p
  | p :: rest => p ++ sep ++ str_join sep rest
  end.

(** ** Floats: IEEE 754 binary64, after the Standard Library's [SpecFloat] *)

Definition prec : Z := 53.
Definition emax : Z := 1024.
Definition float := spec_float.

(** The binary64 number nearest to [p / q] (ties to even). *)
Definition float_of_ratio (neg : bool) (p q : positive) : float :=
  let '(m, e, l) := SFdiv_core_binary prec emax (Zpos p) 0 (Zpos q) 0 in
  binary_round_aux prec emax neg m e l.

(** [float(n)] *)
Definition float_of_Z (n : Z) : float := binary_normalize prec emax n 0 false.

(** The correctly rounded quotient of two integers, the divisor not zero. *)
Definition float_of_quotient (a b : Z) : float :=
  match a, b with
  | Z0, _ => S754_zero (b <? 0)%Z
  | Zpos p, Zpos q => float_of_ratio false p q
  | Zpos p, Zneg q => float_of_ratio true p q
  | Zneg p, Zpos q => float_of_ratio true p q
  | Zneg p, Zneg q => float_of_ratio false p q
  | _, Z0 => S754_nan
  end.

Definition float_mul (x y : float) : float := SFmul prec emax x y.

(** [n / d] rounded to the nearest integer, ties to even ([d > 0]). *)
Definition div_half_even (n d : Z) : Z :=
  let q := (n / d)%Z in
  let r := (n mod d)%Z in
  match (2 * r ?= d)%Z with
  | Lt => q
  | Gt => (q + 1)%Z
  | Eq => if Z.even q then q else (q + 1)%Z
  end.

(** [round(x, 2)] on a [float]: the exact value of [x] is rounded to two
    decimals, ties to even, and the decimal is read back as a [float]. *)
Definition float_round2 (x : float) : float :=
  match x with
  | S754_finite s m e =>
      let hundredths :=
        match e with
        | Zneg k => div_half_even (100 * Zpos m) (Zpos (Pos.shiftl 1 (Npos k)))
        | _ => (100 * Zpos m * 2 ^ e)%Z
        end in
      match hundredths with
      | Zpos p => float_of_ratio s p 100
      | _ => S754_zero s
      end
  | _ => x
  end.

(** ** Python values *)

(** The values the pipeline handles: what [json.loads] returns, and the
    dictionaries and lists the code builds from them. A [dict] is the list of
    its items in insertion order, each key once. *)
#[warnings="-register-all"] Inductive value : Type :=
| VNone
| VBool (b : bool)
| VInt (z : Z)
| VFloat (f : float)
| VStr (s : str)
| VList (items : list value)
| VDict (items : list (str * value)).

Definition dict := list (str * value).

(** [d.get(k)], [None] of [option] standing for a missing key. *)
Fixpoint dict_get (k : str) (d : dict) : option value :=
  match d with
  | [] => None
  | (k', v) :: rest => if str_eqb k' k then Some v else dict_get k rest
  end.

(** [d.get(k, default)] *)
Definition dict_get_or (k : str) (default : value) (d : dict) : value :=
  match dict_get k d with
  | Some x => x
  | None => default
  end.

(** [d[k] = v]: the value of an existing key is replaced in place, a new key
    goes last. *)
Fixpoint dict_set (k : str) (v : value) (d : dict) : dict :=
  match d with
  | [] => [(k, v)]
  | (k', v') :: rest =>
      if str_eqb k' k then (k', v) :: rest else (k', v') :: dict_set k v rest
  end.

(** [type(v).__name__] *)
Definition type_name (v : value) : str :=
  match v with
  | VNone => py "NoneType"
  | VBool _ => py "bool"
  | VInt _ => py "int"
  | VFloat _ => py "float"
  | VStr _ => py "str"
  | VList _ => py "list"
  | VDict _ => py "dict"
  end.

(** ** Exceptions *)

Inductive exn_class :=
| JSONDecodeError | IndexError | AttributeError | TypeError | KeyError
| ZeroDivisionError | OverflowError | UnicodeEncodeError | ProgrammingError | ServiceError.

(** An exception: its class and [str(e)]. *)
Record exn := Exn { exn_class_of : exn_class; exn_str : str }.

Inductive result (A : Type) : Type :=
| Ok (a : A)
| Raise (e : exn).

Arguments Ok {A} a.
Arguments Raise {A} e.

Definition bind {A B : Type} (r : result A) (k : A -> result B) : result B :=
  match r with
  | Ok a => k a
  | Raise e => Raise e
  end.

Notation "x <- r ;; k" := (bind r (fun x => k))
  (at level 61, r at next level, right associativity).

(** [len(v)] *)
Definition py_len (v : value) : result Z :=
  match v with
  | VStr s => Ok (Z.of_nat (List.length s))
  | VList items => Ok (Z.of_nat (List.length items))
  | VDict items => Ok (Z.of_nat (List.length items))
  | _ => Raise (Exn TypeError
                  (py "object of type '" ++ type_name v ++ py "' has no len()"))
  end.

(** [v.get(k, default)]: only a [dict] has the method. *)
Definition py_get (v : value) (k : str) (default : value) : result value :=
  match v with
  | VDict d => Ok (dict_get_or k default d)
  | _ => Raise (Exn AttributeError
                  (py "'" ++ type_name v ++ py "' object has no attribute 'get'"))
  end.

(** [v[k]] on a [dict]. *)
Definition py_getitem (v : value) (k : str) : result value :=
  match v with
  | VDict d =>
      match dict_get k d with
      | Some x => Ok x
      | None => Raise (Exn KeyError (py "'" ++ k ++ py "'"))
      end
  | _ => Raise (Exn TypeError
                  (py "'" ++ type_name v ++ py "' object is not subscriptable"))
  end.

(** [v[k] = x] on a [dict]. *)
Definition py_setitem (v : value) (k : str) (x : value) : result value :=
  match v with
  | VDict d => Ok (VDict (dict_set k x d))
  | _ => Raise (Exn TypeError
                  (py "'" ++ type_name v
                      ++ py "' object does not support item assignment"))
  end.

(** [a / b] on two [int]s. The quotients the pipeline forms, of two line
    counts, are far inside the range of a [float]: the [OverflowError] of a
    quotient beyond it is not modelled. *)
Definition int_truediv (a b : Z) : result float :=
  if (b =? 0)%Z then Raise (Exn ZeroDivisionError (py "division by zero"))
  else Ok (float_of_quotient a b).

(** [pieces[1]] *)
Definition item1 (pieces : list str) : result str :=
  match pieces with
  | _ :: x :: _ => Ok x
  | _ => Raise (Exn IndexError (py "list index out of range"))
  end.

(** ** What the process does not own *)

(** One call of [self.client.chat.completions.create] followed by
    [response.choices[0].message.content]: an exception, or the content of the
    first choice, which the service may leave [None]. *)
Inductive completion :=
| Raised (e : exn)
| Content (text : option str).

Class Runtime := {
  (** [str.lower] on a text that is not pure ASCII *)
  unicode_lower : str -> str;
  (** [json.loads] *)
  json_loads : str -> result value;
  (** [werkzeug.utils.secure_filename] *)
  secure_filename : str -> str;
  (** the text read back from the saved upload:
      [open(path, 'r', encoding='utf-8', errors='ignore').read()] *)
  read_text : list N -> str;
  (** the [n]-th call the process makes to the LLM service, and its prompt *)
  chat_completion : nat -> str -> completion;
  (** the exception [sqlite3] raises, if any, when the value is bound to the
      [i]-th placeholder of a statement *)
  sqlite_bind_error : nat -> value -> option exn;
  (** what a column declared [INTEGER] keeps of a text stored in it: the
      number the text reads as, or the text itself when it reads as none *)
  sqlite_numeric_text : str -> value
}.

(** ** [api.py]: configuration and helpers *)

Definition dot : char := 46%N.
Definition newline : char := 10%N.
Definition hash : char := 35%N.

Definition ALLOWED_EXTENSIONS : list str :=
  map py ["py"; "js"; "java"; "cpp"; "c"; "h"; "hpp";
          "html"; "css"; "tsx"; "jsx"; "go"; "rs";
          "php"; "rb"; "swift"; "kt"; "cs"; "scala"]%string.

(** [x in ALLOWED_EXTENSIONS] *)
Definition str_in (x : str) (xs : list str) : bool := existsb (str_eqb x) xs.

Definition is_ascii (c : char) : bool := (c <? 128)%N.

Definition ascii_lower (c : char) : char :=
  if ((65 <=? c) && (c <=? 90))%N then (c + 32)%N else c.

Section Pipeline.

Context {RT : Runtime}.

(** [s.lower()] *)
Definition str_lower (s : str) : str :=
  if forallb is_ascii s then map ascii_lower s else unicode_lower s.

Definition allowed_file (filename : str) : bool :=
  str_contains dot filename
  && match str_rsplit1 dot filename with
     | _ :: ext :: _ => str_in (str_lower ext) ALLOWED_EXTENSIONS
     | _ => false
     end.

Definition ext_to_lang : list (str * str) :=
  map (fun kv => (py (fst kv), py (snd kv)))
    [("py", "Python"); ("js", "JavaScript"); ("jsx", "React");
     ("ts", "TypeScript"); ("tsx", "React TypeScript");
     ("java", "Java"); ("cpp", "C++"); ("c", "C");
     ("h", "C Header"); ("hpp", "C++ Header");
     ("go", "Go"); ("rs", "Rust"); ("php", "PHP");
     ("rb", "Ruby"); ("swift", "Swift"); ("kt", "Kotlin");
     ("cs", "C#"); ("scala", "Scala"); ("html", "HTML");
     ("css", "CSS")]%string.

Fixpoint lookup (k : str) (table : list (str * str)) : option str :=
  match table with
  | [] => None
  | (k', v) :: rest => if str_eqb k' k then Some v else lookup k rest
  end.

Definition detect_language (filename : str) : str :=
  let ext :=
    if str_contains dot filename then
      match str_rsplit1 dot filename with
      | _ :: e :: _ => str_lower e
      | _ => []
      end
    else [] in
  match lookup ext ext_to_lang with
  | Some lang => lang
  | None => py "Unknown"
  end.

(** A Python number that is an [int] or a [float]. *)
Inductive number :=
| Int (z : Z)
| Float (f : float).

Record code_metrics := {
  total_lines : nat;
  code_lines : nat;
  blank_lines : nat;
  comment_lines : nat;
  comment_ratio : number
}.

(** The three tests of the list comprehensions, on one line. *)
Definition is_code_line (line : str) : bool :=
  str_truthy (str_strip line) && negb (str_startswith hash (str_strip line)).

Definition is_blank_line (line : str) : bool :=
  negb (str_truthy (str_strip line)).

Definition is_comment_line (line : str) : bool :=
  str_startswith hash (str_strip line).

(** [round(x, 2)]: an [int] is returned as it is. *)
Definition round2 (x : number) : number :=
  match x with
  | Int z => Int z
  | Float f => Float (float_round2 f)
  end.

Definition calculate_code_metrics (code_content : str) : result code_metrics :=
  let lines := str_split newline code_content in
  let total := List.length lines in
  let code := List.length (filter is_code_line lines) in
  let blank := List.length (filter is_blank_line lines) in
  let comment := List.length (filter is_comment_line lines) in
  ratio <- (if 0 <? code
            then quotient <- int_truediv (Z.of_nat comment) (Z.of_nat code) ;;
                 Ok (Float (float_mul quotient (float_of_Z 100)))
            else Ok (Int 0)) ;;
  Ok {| total_lines := total;
        code_lines := code;
        blank_lines := blank;
        comment_lines := comment;
        comment_ratio := round2 ratio |}.

Definition value_of_number (x : number) : value :=
  match x with
  | Int z => VInt z
  | Float f => VFloat f
  end.

(** The dictionary [calculate_code_metrics] returns. *)
Definition metrics_dict (m : code_metrics) : value :=
  VDict [(py "total_lines", VInt (Z.of_nat (total_lines m)));
         (py "code_lines", VInt (Z.of_nat (code_lines m)));
         (py "blank_lines", VInt (Z.of_nat (blank_lines m)));
         (py "comment_lines", VInt (Z.of_nat (comment_lines m)));
         (py "comment_ratio", value_of_number (comment_ratio m))].


(** ** [llm_analyzer.py]: [CodeAnalyzer] *)

Definition lbrace : char := 123%N.
Definition rbrace : char := 125%N.

(** The tail [[\s\S]*\}] of the pattern, matched at the head of [s] as a
    backtracking matcher does: the star first takes one more character, and
    only when the rest cannot match is the closing brace tried here. The
    result is the text matched. *)
Fixpoint match_any_then_rbrace (s : str) : option str :=
  match s with
  | [] => None
  | c :: t =>
      match match_any_then_rbrace t with
      | Some m => Some (c :: m)
      | None => if char_eqb c rbrace then Some [c] else None
      end
  end.

(** [re.search(r'\{[\s\S]*\}', text)]: the start positions are tried from the
    left; the result is [json_match.group()]. *)
Fixpoint re_search_braces (text : str) : option str :=
  match text with
  | [] => None
  | c :: t =>
      if char_eqb c lbrace then
        match match_any_then_rbrace t with
        | Some m => Some (c :: m)
        | None => re_search_braces t
        end
      else re_search_braces t
  end.

(** A quoted word of the prompt. *)
Definition q (s : string) : str := quote :: py s ++ [quote].

(** The f-string [prompt] of [analyze_code]. *)
Definition prompt (code_content filename : str) : str :=
  str_join [newline]
    [ py "You are an expert code reviewer. Analyze the following code and provide a detailed review.";
      [];
      py "Filename: " ++ filename;
      [];
      py "Code:";
      code_content;
      py "Provide your review in the following JSON format:";
      py "{";
      py "    " ++ q "overall_quality_score" ++ py ": <number 0-100>,";
      py "    " ++ q "summary" ++ py ": " ++ q "<brief summary of code quality>" ++ py ",";
      py "    " ++ q "errors" ++ py ": [";
      py "        {" ++ q "type" ++ py ": " ++ q "<error type>" ++ py ", "
        ++ q "line" ++ py ": <line number or null>, "
        ++ q "description" ++ py ": " ++ q "<description>" ++ py ", "
        ++ q "severity" ++ py ": " ++ q "high|medium|low" ++ py "}";
      py "    ],";
      py "    " ++ q "warnings" ++ py ": [";
      py "        {" ++ q "type" ++ py ": " ++ q "<warning type>" ++ py ", "
        ++ q "line" ++ py ": <line number or null>, "
        ++ q "description" ++ py ": " ++ q "<description>" ++ py "}";
      py "    ],";
      py "    " ++ q "suggestions" ++ py ": [";
      py "        {" ++ q "category" ++ py ": " ++ q "<category>" ++ py ", "
        ++ q "description" ++ py ": " ++ q "<suggestion>" ++ py ", "
        ++ q "priority" ++ py ": " ++ q "high|medium|low" ++ py "}";
      py "    ],";
      py "    " ++ q "strengths" ++ py ": [" ++ q "<strength 1>" ++ py ", "
        ++ q "<strength 2>" ++ py "],";
      py "    " ++ q "readability_score" ++ py ": <number 0-100>,";
      py "    " ++ q "modularity_score" ++ py ": <number 0-100>,";
      py "    " ++ q "best_practices_score" ++ py ": <number 0-100>,";
      py "    " ++ q "security_concerns" ++ py ": [" ++ q "<concern 1>" ++ py ", "
        ++ q "<concern 2>" ++ py "],";
      py "    " ++ q "performance_notes" ++ py ": [" ++ q "<note 1>" ++ py ", "
        ++ q "<note 2>" ++ py "]";
      py "}";
      [];
      py "Be thorough and specific in your analysis. Focus on:";
      py "1. Code structure and organization";
      py "2. Readability and naming conventions";
      py "3. Potential bugs or errors";
      py "4. Security vulnerabilities";
      py "5. Performance improvements";
      py "6. Best practices adherence";
      py "7. Documentation quality";
      [] ].

(** The dictionary of the [except] branch, [msg] being [str(e)]. *)
Definition fallback_analysis (msg : str) : value :=
  VDict [(py "overall_quality_score", VInt 0);
         (py "summary", VStr (py "Error during analysis: " ++ msg));
         (py "errors", VList []);
         (py "warnings", VList []);
         (py "suggestions", VList []);
         (py "strengths", VList []);
         (py "readability_score", VInt 0);
         (py "modularity_score", VInt 0);
         (py "best_practices_score", VInt 0);
         (py "security_concerns", VList []);
         (py "performance_notes", VList [])].

(** Lines 70 to 79: what is done with the content of the reply inside the
    [try]. [re.search] refuses a content that is [None]. *)
Definition extract_analysis (content : option str) : result value :=
  match content with
  | None =>
      Raise (Exn TypeError
               (py "expected string or bytes-like object, got 'NoneType'"))
  | Some text =>
      match re_search_braces text with
      | Some span => json_loads span
      | None => json_loads text
      end
  end.

(** The body of the [try] for the [n]-th call to the service. *)
Definition analyze_attempt (n : nat) (code_content filename : str) : result value :=
  match chat_completion n (prompt code_content filename) with
  | Raised e => Raise e
  | Content content => extract_analysis content
  end.

(** [CodeAnalyzer.analyze_code], for the [n]-th call to the service. *)
Definition analyze_code (n : nat) (code_content filename : str) : value :=
  match analyze_attempt n code_content filename with
  | Ok analysis => analysis
  | Raise e => fallback_analysis (exn_str e)
  end.

(** [CodeAnalyzer.generate_report]. The items of the dictionary display are
    evaluated in the order they are written. *)
Definition generate_report (analysis : value) (filename : str) : result value :=
  overall <- py_get analysis (py "overall_quality_score") (VInt 0) ;;
  summary <- py_get analysis (py "summary") (VStr []) ;;
  readability <- py_get analysis (py "readability_score") (VInt 0) ;;
  modularity <- py_get analysis (py "modularity_score") (VInt 0) ;;
  best_practices <- py_get analysis (py "best_practices_score") (VInt 0) ;;
  errors <- py_get analysis (py "errors") (VList []) ;;
  warnings <- py_get analysis (py "warnings") (VList []) ;;
  suggestions <- py_get analysis (py "suggestions") (VList []) ;;
  strengths <- py_get analysis (py "strengths") (VList []) ;;
  security_concerns <- py_get analysis (py "security_concerns") (VList []) ;;
  performance_notes <- py_get analysis (py "performance_notes") (VList []) ;;
  errors' <- py_get analysis (py "errors") (VList []) ;;
  total_errors <- py_len errors' ;;
  warnings' <- py_get analysis (py "warnings") (VList []) ;;
  total_warnings <- py_len warnings' ;;
  suggestions' <- py_get analysis (py "suggestions") (VList []) ;;
  total_suggestions <- py_len suggestions' ;;
  Ok (VDict
        [(py "filename", VStr filename);
         (py "overall_score", overall);
         (py "summary", summary);
         (py "detailed_scores",
           VDict [(py "readability", readability);
                  (py "modularity", modularity);
                  (py "best_practices", best_practices)]);
         (py "errors", errors);
         (py "warnings", warnings);
         (py "suggestions", suggestions);
         (py "strengths", strengths);
         (py "security_concerns", security_concerns);
         (py "performance_notes", performance_notes);
         (py "metrics",
           VDict [(py "total_errors", VInt total_errors);
                  (py "total_warnings", VInt total_warnings);
                  (py "total_suggestions", VInt total_suggestions)])]).

(** ** [database.py] *)

(** A row of [code_reviews]. The [review_report] column holds
    [json.dumps(review_report)]; the row keeps the dictionary that text
    denotes. The [timestamp] column, filled by the database clock, is left
    out. *)
Record review_row := {
  row_id : Z;
  row_filename : str;
  row_file_type : str;
  row_file_size : Z;
  row_code_content : str;
  row_review_report : value;
  row_errors_found : value;
  row_warnings_found : value;
  row_suggestions_count : value;
  row_code_quality_score : value
}.

(** The table, oldest row first, and the largest [id] given so far
    ([AUTOINCREMENT]). *)
Record database := {
  rows : list review_row;
  last_rowid : Z
}.

(** The state a request runs in: the table and the number of calls made to
    the LLM service. *)
Record world := {
  db : database;
  llm_calls : nat
}.

(** Code that may raise and may change the state. The state reached when an
    exception is raised is kept: it is the state the handler runs in. *)
Definition M (A : Type) : Type := world -> result A * world.

Definition ret {A : Type} (a : A) : M A := fun w => (Ok a, w).

Definition lift {A : Type} (r : result A) : M A := fun w => (r, w).

Definition mbind {A B : Type} (m : M A) (k : A -> M B) : M B :=
  fun w =>
    match m w with
    | (Ok a, w') => k a w'
    | (Raise e, w') => (Raise e, w')
    end.

Notation "x <<- m ;; k" := (mbind m (fun x => k))
  (at level 61, m at next level, right associativity).

(** The first parameter [sqlite3] refuses, in the order of the placeholders. *)
Fixpoint bind_parameters (params : list (nat * value)) : result unit :=
  match params with
  | [] => Ok tt
  | (i, p) :: rest =>
      match sqlite_bind_error i p with
      | Some e => Raise e
      | None => bind_parameters rest
      end
  end.

(** What a column declared [INTEGER] keeps of a [float]: the integer it is
    equal to, when there is one strictly between the least and the greatest
    of 64 bits; [NULL] for a NaN, which is bound as [NULL]; otherwise the
    [float]. *)
Definition float_integer_column (f : float) : value :=
  let whole : option Z :=
    match f with
    | S754_zero _ => Some 0%Z
    | S754_finite neg m e =>
        let mantissa := if neg then Zneg m else Zpos m in
        match e with
        | Zneg k =>
            let unit := Zpos (Pos.shiftl 1 (Npos k)) in
            if (mantissa mod unit =? 0)%Z then Some (mantissa / unit)%Z else None
        | _ => Some (mantissa * 2 ^ e)%Z
        end
    | _ => None
    end in
  match f, whole with
  | S754_nan, _ => VNone
  | _, Some z =>
      if ((- 2 ^ 63 <? z) && (z <? 2 ^ 63 - 1))%Z then VInt z else VFloat f
  | _, None => VFloat f
  end.

(** What a column declared [INTEGER] keeps of a value bound to it (its
    affinity): an [int] as it is, a [bool] as [1] or [0], [None] as [NULL],
    a [float] and a [str] as the integer they stand for if they do. The
    values [sqlite3] refuses never reach a column. *)
Definition integer_column (v : value) : value :=
  match v with
  | VInt z => VInt z
  | VBool b => VInt (if b then 1 else 0)
  | VNone => VNone
  | VFloat f => float_integer_column f
  | VStr s => sqlite_numeric_text s
  | VList _ | VDict _ => v
  end.

(** The parameters of the [INSERT], each with its placeholder. The fifth,
    [json.dumps(review_report)], is an ASCII [str], which binds. *)
Definition insert_parameters (filename file_type : str) (file_size : Z)
    (code_content : str)
    (errors_found warnings_found suggestions_count quality_score : value)
    : list (nat * value) :=
  [(1, VStr filename); (2, VStr file_type); (3, VInt file_size);
   (4, VStr code_content); (6, errors_found); (7, warnings_found);
   (8, suggestions_count); (9, quality_score)].

(** [save_review]. Nothing is written when a parameter is refused. The
    three counters and the score go to columns declared [INTEGER]. *)
Definition save_review (filename file_type : str) (file_size : Z)
    (code_content : str) (review_report : value)
    (errors_found warnings_found suggestions_count quality_score : value)
    : M Z :=
  fun w =>
    match bind_parameters
            (insert_parameters filename file_type file_size code_content
               errors_found warnings_found suggestions_count quality_score) with
    | Raise e => (Raise e, w)
    | Ok _ =>
        let review_id := (last_rowid (db w) + 1)%Z in
        (Ok review_id,
         {| db := {| rows := rows (db w) ++
                       [{| row_id := review_id;
                           row_filename := filename;
                           row_file_type := file_type;
                           row_file_size := file_size;
                           row_code_content := code_content;
                           row_review_report := review_report;
                           row_errors_found := integer_column errors_found;
                           row_warnings_found := integer_column warnings_found;
                           row_suggestions_count :=
                             integer_column suggestions_count;
                           row_code_quality_score :=
                             integer_column quality_score |}];
                     last_rowid := review_id |};
            llm_calls := llm_calls w |})
    end.

(** [get_review_by_id] *)
Definition get_review_by_id (review_id : Z) (d : database) : option review_row :=
  find (fun r => Z.eqb (row_id r) review_id) (rows d).

(** ** [api.py]: the two ingestion endpoints *)

(** An uploaded file of the request: its name and its bytes. The upload
    folder is taken to work: saving, reading, sizing and removing the file
    do not fail. *)
Record upload := {
  up_filename : str;
  up_stream : list N
}.

(** The answers that carry status 400. The message of the third lists the
    allowed extensions in the order the set happens to iterate, which the
    model does not fix. *)
Inductive rejection :=
| NoFileProvided       (* "No file provided" *)
| NoFileSelected       (* "No file selected" *)
| FileTypeNotAllowed   (* "File type not allowed. Supported: ..." *)
| NoFilesProvided      (* "No files provided" *)
| NoFilesSelected.     (* "No files selected" *)

(** The answer of an endpoint: [jsonify(body), status]. *)
Inductive response :=
| Rejected (why : rejection)     (* 400 *)
| Completed (body : value)       (* 200 *)
| Failed (error : str).          (* 500, [{"error": str(e)}] *)

Definition status_code (r : response) : nat :=
  match r with
  | Rejected _ => 400
  | Completed _ => 200
  | Failed _ => 500
  end.

(** [analyzer.analyze_code], as a step of a request: one more call made. *)
Definition call_analyze_code (code_content filename : str) : M value :=
  fun w =>
    (Ok (analyze_code (llm_calls w) code_content filename),
     {| db := db w; llm_calls := S (llm_calls w) |}).

(** The [try] block of [review_code]. *)
Definition review_code_try (file : upload) : M value :=
  let filename := secure_filename (up_filename file) in
  let code_content := read_text (up_stream file) in
  let file_size := Z.of_nat (List.length (up_stream file)) in
  ext <<- lift (item1 (str_rsplit1 dot filename)) ;;
  let file_type := str_lower ext in
  let language := detect_language filename in
  measured <<- lift (calculate_code_metrics code_content) ;;
  let metrics := metrics_dict measured in
  analysis <<- call_analyze_code code_content filename ;;
  report <<- lift (generate_report analysis filename) ;;
  report <<- lift (py_setitem report (py "code_metrics") metrics) ;;
  report <<- lift (py_setitem report (py "language") (VStr language)) ;;
  counters <<- lift (py_getitem report (py "metrics")) ;;
  errors_found <<- lift (py_getitem counters (py "total_errors")) ;;
  counters <<- lift (py_getitem report (py "metrics")) ;;
  warnings_found <<- lift (py_getitem counters (py "total_warnings")) ;;
  counters <<- lift (py_getitem report (py "metrics")) ;;
  suggestions_count <<- lift (py_getitem counters (py "total_suggestions")) ;;
  quality_score <<- lift (py_getitem report (py "overall_score")) ;;
  review_id <<- save_review filename file_type file_size code_content report
                  errors_found warnings_found suggestions_count quality_score ;;
  ret (VDict [(py "success", VBool true);
              (py "review_id", VInt review_id);
              (py "report", report);
              (py "metrics", metrics);
              (py "language", VStr language)]).

(** [review_code]: [None] when the request has no part named [file]. *)
Definition review_code (file : option upload) (w : world) : response * world :=
  match file with
  | None => (Rejected NoFileProvided, w)
  | Some file =>
      if str_eqb (up_filename file) [] then (Rejected NoFileSelected, w)
      else if negb (allowed_file (up_filename file))
      then (Rejected FileTypeNotAllowed, w)
      else
        match review_code_try file w with
        | (Ok body, w') => (Completed body, w')
        | (Raise e, w') => (Failed (exn_str e), w')
        end
  end.

(** The [try] block of the loop of [batch_review]: the entry of [results]. *)
Definition batch_review_try (file : upload) : M value :=
  let filename := secure_filename (up_filename file) in
  let code_content := read_text (up_stream file) in
  let file_size := Z.of_nat (List.length (up_stream file)) in
  ext <<- lift (item1 (str_rsplit1 dot filename)) ;;
  let file_type := str_lower ext in
  let language := detect_language filename in
  analysis <<- call_analyze_code code_content filename ;;
  report <<- lift (generate_report analysis filename) ;;
  report <<- lift (py_setitem report (py "language") (VStr language)) ;;
  counters <<- lift (py_getitem report (py "metrics")) ;;
  errors_found <<- lift (py_getitem counters (py "total_errors")) ;;
  counters <<- lift (py_getitem report (py "metrics")) ;;
  warnings_found <<- lift (py_getitem counters (py "total_warnings")) ;;
  counters <<- lift (py_getitem report (py "metrics")) ;;
  suggestions_count <<- lift (py_getitem counters (py "total_suggestions")) ;;
  quality_score <<- lift (py_getitem report (py "overall_score")) ;;
  review_id <<- save_review filename file_type file_size code_content report
                  errors_found warnings_found suggestions_count quality_score ;;
  quality_score' <<- lift (py_getitem report (py "overall_score")) ;;
  ret (VDict [(py "filename", VStr filename);
              (py "review_id", VInt review_id);
              (py "quality_score", quality_score');
              (py "status", VStr (py "success"))]).

(** An entry of [errors]. *)
Definition error_entry (filename message : str) : value :=
  VDict [(py "filename", VStr filename); (py "error", VStr message)].

(** The lists [results] and [errors] and the state, while the loop runs. *)
Definition batch_state : Type := list value * list value * world.

(** One turn of the loop [for file in files]. A [FileStorage] is true when
    its filename is not empty. *)
Definition batch_step (st : batch_state) (file : upload) : batch_state :=
  let '(results, errors, w) := st in
  if str_truthy (up_filename file) && allowed_file (up_filename file) then
    match batch_review_try file w with
    | (Ok entry, w') => (results ++ [entry], errors, w')
    | (Raise e, w') =>
        (results, errors ++ [error_entry (up_filename file) (exn_str e)], w')
    end
  else
    (results,
     errors ++ [error_entry (up_filename file) (py "File type not allowed")],
     w).

Definition batch_loop (files : list upload) (st : batch_state) : batch_state :=
  fold_left batch_step files st.

(** [batch_review]: [None] when the request has no part named [files]. *)
Definition batch_review (files : option (list upload)) (w : world)
    : response * world :=
  match files with
  | None => (Rejected NoFilesProvided, w)
  | Some [] => (Rejected NoFilesSelected, w)
  | Some files =>
      let '(results, errors, w') := batch_loop files ([], [], w) in
      (Completed
         (VDict [(py "success", VBool true);
                 (py "results", VList results);
                 (py "errors", VList errors);
                 (py "total", VInt (Z.of_nat (List.length results)));
                 (py "failed", VInt (Z.of_nat (List.length errors)))]),
       w')
  end.

(** ** [database.py]: deleting *)

(** [delete_review_by_id], the identity being an [int]. The row is looked
    for, then deleted; the sequence of the table is not touched, so the
    identities given so far stay taken. *)
Definition delete_review_by_id (review_id : Z) : M bool :=
  fun w =>
    match sqlite_bind_error 1 (VInt review_id) with
    | Some e => (Raise e, w)
    | None =>
        match get_review_by_id review_id (db w) with
        | Some _ =>
            (Ok true,
             {| db := {| rows := filter (fun r => negb (Z.eqb (row_id r) review_id))
                                   (rows (db w));
                         last_rowid := last_rowid (db w) |};
                llm_calls := llm_calls w |})
        | None => (Ok false, w)
        end
    end.

(** [delete_all_reviews]: the rows go, and so does the entry of the table
    in [sqlite_sequence] (the double-quoted name in the statement is read as
    a string, as SQLite does by default). *)
Definition delete_all_reviews : M bool :=
  fun w =>
    (Ok true,
     {| db := {| rows := []; last_rowid := 0 |}; llm_calls := llm_calls w |}).

(** ** [api.py]: the endpoints that delete, list and search *)

(** [str(n)] for an [int]. *)
Definition str_of_int (n : Z) : str :=
  py (DecimalString.NilZero.string_of_int (Z.to_int n)).

(** The answer of these endpoints: [jsonify(body), status]. *)
Inductive answer :=
| Answer (status : nat) (body : value).

Definition answer_status (a : answer) : nat :=
  match a with Answer status _ => status end.

Definition answer_body (a : answer) : value :=
  match a with Answer _ body => body end.

(** [delete_review]: the route gives it a natural number. *)
Definition delete_review (review_id : N) (w : world) : answer * world :=
  match delete_review_by_id (Z.of_N review_id) w with
  | (Ok true, w') =>
      (Answer 200
         (VDict [(py "success", VBool true);
                 (py "message",
                   VStr (py "Review " ++ str_of_int (Z.of_N review_id)
                           ++ py " deleted successfully"))]),
       w')
  | (Ok false, w') =>
      (Answer 404 (VDict [(py "error", VStr (py "Review not found"))]), w')
  | (Raise e, w') =>
      (Answer 500 (VDict [(py "error", VStr (exn_str e))]), w')
  end.

(** [clear_all_reviews] *)
Definition clear_all_reviews (w : world) : answer * world :=
  match delete_all_reviews w with
  | (Ok _, w') =>
      (Answer 200
         (VDict [(py "success", VBool true);
                 (py "message", VStr (py "All reviews deleted successfully"))]),
       w')
  | (Raise e, w') =>
      (Answer 500 (VDict [(py "error", VStr (exn_str e))]), w')
  end.

(** A tuple of [get_all_reviews]: nine columns of a row. The score column
    holds what SQLite kept of the value it was given: [None], a number or a
    text. *)
Record listed_review := {
  l_id : Z;
  l_filename : str;
  l_file_type : str;
  l_file_size : Z;
  l_errors_found : Z;
  l_warnings_found : Z;
  l_suggestions_count : Z;
  l_quality_score : value;
  l_timestamp : str
}.

(** How a [float] compares with an [int]: exactly, and not at all when it is
    not a number. *)
Definition float_compare_int (f : float) (n : Z) : option comparison :=
  match f with
  | S754_nan => None
  | S754_infinity neg => Some (if neg then Lt else Gt)
  | S754_zero _ => Some (0 ?= n)%Z
  | S754_finite neg m e =>
      let mantissa := if neg then Zneg m else Zpos m in
      match e with
      | Zneg k => Some (mantissa ?= n * Zpos (Pos.shiftl 1 (Npos k)))%Z
      | _ => Some (mantissa * 2 ^ e ?= n)%Z
      end
  end.

(** [x ? n] for an [int] [n], where [?] is [<] or [>]. *)
Definition py_compare_int (x : value) (n : Z) : option (option comparison) :=
  match x with
  | VInt z => Some (Some (z ?= n)%Z)
  | VBool b => Some (Some ((if b then 1 else 0) ?= n)%Z)
  | VFloat f => Some (float_compare_int f n)
  | _ => None
  end.

(** [x < n] *)
Definition py_lt_int (x : value) (n : Z) : result bool :=
  match py_compare_int x n with
  | Some (Some Lt) => Ok true
  | Some _ => Ok false
  | None =>
      Raise (Exn TypeError
               (py "'<' not supported between instances of '" ++ type_name x
                   ++ py "' and 'int'"))
  end.

(** [x > n] *)
Definition py_gt_int (x : value) (n : Z) : result bool :=
  match py_compare_int x n with
  | Some (Some Gt) => Ok true
  | Some _ => Ok false
  | None =>
      Raise (Exn TypeError
               (py "'>' not supported between instances of '" ++ type_name x
                   ++ py "' and 'int'"))
  end.

(** The dictionary [review_dict] of [get_reviews]. *)
Definition review_dict (review : listed_review) : value :=
  VDict [(py "id", VInt (l_id review));
         (py "filename", VStr (l_filename review));
         (py "file_type", VStr (l_file_type review));
         (py "file_size", VInt (l_file_size review));
         (py "errors_found", VInt (l_errors_found review));
         (py "warnings_found", VInt (l_warnings_found review));
         (py "suggestions_count", VInt (l_suggestions_count review));
         (py "quality_score", l_quality_score review);
         (py "timestamp", VStr (l_timestamp review))].

(** The bound of a filter, when the request gives one that is true: a
    missing parameter, one that is not an integer and [0] set no bound. *)
Definition bound_of (parameter : option Z) : option Z :=
  match parameter with
  | Some n => if (n =? 0)%Z then None else Some n
  | None => None
  end.

(** The loop of [get_reviews] over the tuples, [reviews_list] holding the
    dictionaries kept so far. The [language] parameter is read and has no
    effect. *)
Fixpoint get_reviews_loop (min_score max_score : option Z) (language : option str)
    (reviews : list listed_review) (reviews_list : list value)
    : result (list value) :=
  match reviews with
  | [] => Ok reviews_list
  | review :: rest =>
      let d := review_dict review in
      too_low <- match bound_of min_score with
                 | Some lo => score <- py_getitem d (py "quality_score") ;;
                              py_lt_int score lo
                 | None => Ok false
                 end ;;
      if too_low then get_reviews_loop min_score max_score language rest reviews_list
      else
        too_high <- match bound_of max_score with
                    | Some hi => score <- py_getitem d (py "quality_score") ;;
                                 py_gt_int score hi
                    | None => Ok false
                    end ;;
        if too_high
        then get_reviews_loop min_score max_score language rest reviews_list
        else get_reviews_loop min_score max_score language rest
               (reviews_list ++ [d])
  end.

(** [items[:n]] *)
Definition slice_to {A : Type} (n : Z) (items : list A) : list A :=
  if (0 <=? n)%Z then firstn (Z.to_nat n) items
  else firstn (List.length items - Z.to_nat (- n)) items.

(** [get_reviews], given the tuples [get_all_reviews()] returned and the
    four parameters of the request ([None] for one that is missing or, for
    the first three, not an integer). *)
Definition get_reviews (limit min_score max_score : option Z)
    (language : option str) (reviews : list listed_review) : answer :=
  match get_reviews_loop min_score max_score language reviews [] with
  | Ok reviews_list =>
      let reviews_list :=
        match bound_of limit with
        | Some n => slice_to n reviews_list
        | None => reviews_list
        end in
      Answer 200
        (VDict [(py "success", VBool true);
                (py "total", VInt (Z.of_nat (List.length reviews_list)));
                (py "reviews", VList reviews_list)])
  | Raise e => Answer 500 (VDict [(py "error", VStr (exn_str e))])
  end.

(** [prefix] starts [s]. *)
Fixpoint has_prefix (prefix s : str) : bool :=
  match prefix, s with
  | [], _ => true
  | p :: prefix', c :: s' => char_eqb p c && has_prefix prefix' s'
  | _ :: _, [] => false
  end.

(** [needle in s] *)
Fixpoint str_in_str (needle s : str) : bool :=
  has_prefix needle s
  || match s with
     | [] => false
     | _ :: s' => str_in_str needle s'
     end.

(** The loop of [search_reviews]. *)
Fixpoint search_loop (query : str) (all_reviews : list listed_review)
    (results : list value) : list value :=
  match all_reviews with
  | [] => results
  | review :: rest =>
      if str_in_str (str_lower query) (str_lower (l_filename review)) then
        search_loop query rest
          (results ++
             [VDict [(py "id", VInt (l_id review));
                     (py "filename", VStr (l_filename review));
                     (py "quality_score", l_quality_score review);
                     (py "timestamp", VStr (l_timestamp review))]])
      else search_loop query rest results
  end.

(** [search_reviews] of [api.py], given the tuples [get_all_reviews()]
    returned and the parameter [q] of the request (empty when missing). *)
Definition search_reviews (query : str) (all_reviews : list listed_review) : answer :=
  if negb (str_truthy query) then
    Answer 400 (VDict [(py "error", VStr (py "Search query required"))])
  else
    let results := search_loop query all_reviews [] in
    Answer 200
      (VDict [(py "success", VBool true);
              (py "query", VStr query);
              (py "results", VList results);
              (py "count", VInt (Z.of_nat (List.length results)))]).

(** ** [api.py]: comparing two reviews *)

(** The truth value of a value. *)
Definition py_truthy (v : value) : bool :=
  match v with
  | VNone => false
  | VBool b => b
  | VInt z => negb (z =? 0)%Z
  | VFloat (S754_zero _) => false
  | VFloat _ => true
  | VStr s => str_truthy s
  | VList items => match items with [] => false | _ :: _ => true end
  | VDict items => match items with [] => false | _ :: _ => true end
  end.

(** [k in v] for a [str] [k]: a key of a [dict], an item of a [list], a part
    of a [str]; nothing else can be searched. *)
Definition py_contains (v : value) (k : str) : result bool :=
  match v with
  | VDict d => Ok (match dict_get k d with Some _ => true | None => false end)
  | VList items =>
      Ok (existsb (fun item => match item with
                               | VStr s => str_eqb s k
                               | _ => false
                               end) items)
  | VStr s => Ok (str_in_str k s)
  | _ => Raise (Exn TypeError
                  (py "argument of type '" ++ type_name v ++ py "' is not iterable"))
  end.

(** [v[k]] for a [str] [k], on any value. *)
Definition py_index (v : value) (k : str) : result value :=
  match v with
  | VDict d =>
      match dict_get k d with
      | Some x => Ok x
      | None => Raise (Exn KeyError (py "'" ++ k ++ py "'"))
      end
  | VList _ =>
      Raise (Exn TypeError (py "list indices must be integers or slices, not str"))
  | VStr _ => Raise (Exn TypeError (py "string indices must be integers, not 'str'"))
  | _ => Raise (Exn TypeError
                  (py "'" ++ type_name v ++ py "' object is not subscriptable"))
  end.

(** A value as a number: an [int] (a [bool] is one) or a [float]. *)
Definition as_number (v : value) : option number :=
  match v with
  | VInt z => Some (Int z)
  | VBool b => Some (Int (if b then 1 else 0))
  | VFloat f => Some (Float f)
  | _ => None
  end.

(** [float(n)] where an operation on a [float] takes an [int]. *)
Definition float_of_int (n : Z) : result float :=
  match float_of_Z n with
  | S754_infinity _ =>
      Raise (Exn OverflowError (py "int too large to convert to float"))
  | f => Ok f
  end.

(** [a - b] *)
Definition py_sub (a b : value) : result value :=
  match as_number a, as_number b with
  | Some (Int x), Some (Int y) => Ok (VInt (x - y))
  | Some (Int x), Some (Float g) =>
      f <- float_of_int x ;; Ok (VFloat (SFsub prec emax f g))
  | Some (Float f), Some (Int y) =>
      g <- float_of_int y ;; Ok (VFloat (SFsub prec emax f g))
  | Some (Float f), Some (Float g) => Ok (VFloat (SFsub prec emax f g))
  | _, _ =>
      Raise (Exn TypeError
               (py "unsupported operand type(s) for -: '" ++ type_name a
                   ++ py "' and '" ++ type_name b ++ py "'"))
  end.

(** [a < b] on [str]: by code points. *)
Fixpoint str_ltb (a b : str) : bool :=
  match a, b with
  | _, [] => false
  | [], _ :: _ => true
  | x :: a', y :: b' => (x <? y)%N || ((x =? y)%N && str_ltb a' b')
  end.

(** [a > b] on numbers and on texts. *)
Definition py_gt (a b : value) : result bool :=
  match as_number a, as_number b with
  | Some (Int x), Some (Int y) => Ok (y <? x)%Z
  | Some (Float f), Some (Int y) =>
      Ok (match float_compare_int f y with Some Gt => true | _ => false end)
  | Some (Int x), Some (Float g) =>
      Ok (match float_compare_int g x with Some Lt => true | _ => false end)
  | Some (Float f), Some (Float g) => Ok (SFltb g f)
  | _, _ =>
      match a, b with
      | VStr s, VStr t => Ok (str_ltb t s)
      | _, _ =>
          Raise (Exn TypeError
                   (py "'>' not supported between instances of '" ++ type_name a
                       ++ py "' and '" ++ type_name b ++ py "'"))
      end
  end.

(** The summary of a row in the comparison. *)
Definition compared (review : review_row) : value :=
  VDict [(py "id", VInt (row_id review));
         (py "filename", VStr (row_filename review));
         (py "quality_score", row_code_quality_score review);
         (py "errors", row_errors_found review);
         (py "warnings", row_warnings_found review);
         (py "suggestions", row_suggestions_count review)].

(** [compare_reviews], given the body [request.get_json()] returned.
    [get_review_by_id] is called with whatever the body holds under the two
    keys: the function is handed over as [select], for SQLite has its own
    way of comparing a value that is not an integer with the identities.
    The two stored reports are what [json.dumps] wrote of them:
    [json.loads] reads them back, and the endpoint does not use them. *)
Definition compare_reviews (select : value -> result (option review_row))
    (data : value) : answer :=
  let attempt : result answer :=
    has_first <- (if py_truthy data then py_contains data (py "review_id_1")
                  else Ok false) ;;
    has_both <- (if has_first then py_contains data (py "review_id_2")
                 else Ok false) ;;
    if negb has_both then
      Ok (Answer 400 (VDict [(py "error", VStr (py "Two review IDs required"))]))
    else
      id1 <- py_index data (py "review_id_1") ;;
      found1 <- select id1 ;;
      id2 <- py_index data (py "review_id_2") ;;
      found2 <- select id2 ;;
      match found1, found2 with
      | Some review1, Some review2 =>
          quality_score_diff <- py_sub (row_code_quality_score review2)
                                  (row_code_quality_score review1) ;;
          errors_diff <- py_sub (row_errors_found review2)
                           (row_errors_found review1) ;;
          warnings_diff <- py_sub (row_warnings_found review2)
                             (row_warnings_found review1) ;;
          suggestions_diff <- py_sub (row_suggestions_count review2)
                                (row_suggestions_count review1) ;;
          improvement <- py_gt (row_code_quality_score review2)
                           (row_code_quality_score review1) ;;
          Ok (Answer 200
                (VDict
                   [(py "success", VBool true);
                    (py "comparison",
                      VDict
                        [(py "review_1", compared review1);
                         (py "review_2", compared review2);
                         (py "differences",
                           VDict [(py "quality_score_diff", quality_score_diff);
                                  (py "errors_diff", errors_diff);
                                  (py "warnings_diff", warnings_diff);
                                  (py "suggestions_diff", suggestions_diff)]);
                         (py "improvement", VBool improvement)])]))
      | _, _ =>
          Ok (Answer 404
                (VDict [(py "error", VStr (py "One or both reviews not found"))]))
      end in
  match attempt with
  | Ok a => a
  | Raise e => Answer 500 (VDict [(py "error", VStr (exn_str e))])
  end.

(** ** [api.py]: the trend of the quality *)

Definition space : char := 32%N.

(** The entry of a day in [trends]. *)
Record day_totals := {
  t_count : Z;
  t_total_score : number;
  t_total_errors : Z
}.

(** [trends], a [dict] from the dates to these entries: its items in
    insertion order. *)
Fixpoint trends_get (date : str) (trends : list (str * day_totals))
    : option day_totals :=
  match trends with
  | [] => None
  | (k, data) :: rest => if str_eqb k date then Some data else trends_get date rest
  end.

Fixpoint trends_set (date : str) (data : day_totals)
    (trends : list (str * day_totals)) : list (str * day_totals) :=
  match trends with
  | [] => [(date, data)]
  | (k, data') :: rest =>
      if str_eqb k date then (k, data) :: rest
      else (k, data') :: trends_set date data rest
  end.

(** [review[8].split(' ')[0]] *)
Definition date_part (review : listed_review) : str :=
  match str_split space (l_timestamp review) with
  | date :: _ => date
  | [] => []
  end.

(** [total += v], [total] being a number. *)
Definition py_iadd (total : number) (v : value) : result number :=
  match total, as_number v with
  | Int x, Some (Int y) => Ok (Int (x + y))
  | Int x, Some (Float g) =>
      f <- float_of_int x ;; Ok (Float (SFadd prec emax f g))
  | Float f, Some (Int y) =>
      g <- float_of_int y ;; Ok (Float (SFadd prec emax f g))
  | Float f, Some (Float g) => Ok (Float (SFadd prec emax f g))
  | _, None =>
      Raise (Exn TypeError
               (py "unsupported operand type(s) for +=: '"
                   ++ (match total with Int _ => py "int" | Float _ => py "float" end)
                   ++ py "' and '" ++ type_name v ++ py "'"))
  end.

(** The body of the grouping loop. *)
Definition trends_step (trends : list (str * day_totals)) (review : listed_review)
    : result (list (str * day_totals)) :=
  let date := date_part review in
  let trends :=
    match trends_get date trends with
    | None =>
        trends_set date
          {| t_count := 0; t_total_score := Int 0; t_total_errors := 0 |} trends
    | Some _ => trends
    end in
  match trends_get date trends with
  | Some data =>
      total_score <- py_iadd (t_total_score data) (l_quality_score review) ;;
      Ok (trends_set date
            {| t_count := t_count data + 1;
               t_total_score := total_score;
               t_total_errors := t_total_errors data + l_errors_found review |}
            trends)
  | None => Raise (Exn KeyError (py "'" ++ date ++ py "'"))
  end.

Fixpoint trends_loop (reviews : list listed_review)
    (trends : list (str * day_totals)) : result (list (str * day_totals)) :=
  match reviews with
  | [] => Ok trends
  | review :: rest =>
      trends <- trends_step trends review ;;
      trends_loop rest trends
  end.

(** [sorted(trends.items())]: the keys of a [dict] differ, so the items come
    in the order of their dates; an item goes behind those that are not
    greater. *)
Fixpoint insert_item (item : str * day_totals) (items : list (str * day_totals))
    : list (str * day_totals) :=
  match items with
  | [] => [item]
  | other :: rest =>
      if str_ltb (fst item) (fst other) then item :: other :: rest
      else other :: insert_item item rest
  end.

Definition sorted_items (items : list (str * day_totals))
    : list (str * day_totals) :=
  fold_left (fun done item => insert_item item done) items [].

(** [round(data["total_score"] / data["count"], 2)] *)
Definition average_quality (data : day_totals) : result float :=
  match t_total_score data with
  | Int z =>
      quotient <- int_truediv z (t_count data) ;;
      Ok (float_round2 quotient)
  | Float f =>
      g <- float_of_int (t_count data) ;;
      match g with
      | S754_zero _ => Raise (Exn ZeroDivisionError (py "float division by zero"))
      | _ => Ok (float_round2 (SFdiv prec emax f g))
      end
  end.

Fixpoint trend_data_loop (items : list (str * day_totals)) : result (list value) :=
  match items with
  | [] => Ok []
  | (date, data) :: rest =>
      average <- average_quality data ;;
      trend_data <- trend_data_loop rest ;;
      Ok (VDict [(py "date", VStr date);
                 (py "reviews_count", VInt (t_count data));
                 (py "average_quality", VFloat average);
                 (py "total_errors", VInt (t_total_errors data))] :: trend_data)
  end.

(** [get_trends], given the parameter [days] of the request ([None] when it
    is missing or not an integer). The dates of the period are computed from
    the clock and [get_reviews_by_date_range] selects by them: the two
    together are handed over as [fetch], which gives the tuples of the last
    [days] days or the exception of the date arithmetic. *)
Definition get_trends (fetch : Z -> result (list listed_review))
    (days : option Z) : answer :=
  let days := match days with Some n => n | None => 7%Z end in
  let attempt : result answer :=
    reviews <- fetch days ;;
    trends <- trends_loop reviews [] ;;
    trend_data <- trend_data_loop (sorted_items trends) ;;
    Ok (Answer 200
          (VDict [(py "success", VBool true);
                  (py "period", VStr (py "Last " ++ str_of_int days ++ py " days"));
                  (py "trends", VList trend_data)])) in
  match attempt with
  | Ok a => a
  | Raise e => Answer 500 (VDict [(py "error", VStr (exn_str e))])
  end.

(** ** Vocabulary of the statements *)

(** The extraction as the specification words it: when the brace span does
    not parse, the whole reply is parsed next. Only the statements compare
    [extract_analysis] with it. *)
Definition extract_with_second_attempt (content : option str) : result value :=
  match content with
  | None =>
      Raise (Exn TypeError
               (py "expected string or bytes-like object, got 'NoneType'"))
  | Some text =>
      match re_search_braces text with
      | Some span =>
          match json_loads span with
          | Ok analysis => Ok analysis
          | Raise _ => json_loads text
          end
      | None => json_loads text
      end
  end.

(** The values [len] accepts. *)
Definition has_len (v : value) : bool :=
  match v with
  | VStr _ | VList _ | VDict _ => true
  | _ => false
  end.

(** The key is missing from the payload, or holds a value [len] accepts. *)
Definition sized_or_absent (k : str) (d : dict) : bool :=
  match dict_get k d with
  | None => true
  | Some v => has_len v
  end.

(** [report[k1][k2]...] *)
Fixpoint field_at (v : value) (keys : list string) : result value :=
  match keys with
  | [] => Ok v
  | k :: rest => inner <- py_getitem v (py k) ;; field_at inner rest
  end.

(** [len(report[k1][k2]...)] *)
Definition len_at (v : value) (keys : list string) : result Z :=
  items <- field_at v keys ;; py_len items.

(** [n] is the number of elements of what is listed: of the items of a
    list, of the characters of a text, of the entries of a dictionary. *)
Definition counts (n : Z) (listed : value) : Prop :=
  match listed with
  | VList items => n = Z.of_nat (List.length items)
  | VStr s => n = Z.of_nat (List.length s)
  | VDict entries => n = Z.of_nat (List.length entries)
  | _ => False
  end.

(** Where each key of the analysis goes in the report, and the default that
    stands for it when it is missing. *)
Definition report_sources : list (string * list string * value) :=
  [("overall_quality_score", ["overall_score"], VInt 0);
   ("summary", ["summary"], VStr []);
   ("readability_score", ["detailed_scores"; "readability"], VInt 0);
   ("modularity_score", ["detailed_scores"; "modularity"], VInt 0);
   ("best_practices_score", ["detailed_scores"; "best_practices"], VInt 0);
   ("errors", ["errors"], VList []);
   ("warnings", ["warnings"], VList []);
   ("suggestions", ["suggestions"], VList []);
   ("strengths", ["strengths"], VList []);
   ("security_concerns", ["security_concerns"], VList []);
   ("performance_notes", ["performance_notes"], VList [])]%string.

(** The three counters of the report and the key of the list each one
    counts, in the report as in the analysis. *)
Definition report_counters : list (list string * string) :=
  [(["metrics"; "total_errors"], "errors");
   (["metrics"; "total_warnings"], "warnings");
   (["metrics"; "total_suggestions"], "suggestions")]%string.

(** A turn of the batch loop that adds to [errors]: the message of the entry
    and the state the loop goes on in. *)
Definition batch_failure (file : upload) (w : world) : option (str * world) :=
  if str_truthy (up_filename file) && allowed_file (up_filename file) then
    match batch_review_try file w with
    | (Raise e, w') => Some (exn_str e, w')
    | (Ok _, _) => None
    end
  else Some (py "File type not allowed", w).

(** [filename.rsplit('.', 1)[1].lower()] where the name has a dot. *)
Definition file_type_of (filename : str) : str :=
  match str_rsplit1 dot filename with
  | _ :: ext :: _ => str_lower ext
  | _ => []
  end.

(** The name the upload is saved under, and the text read back from it. *)
Definition saved_name (file : upload) : str := secure_filename (up_filename file).

Definition saved_text (file : upload) : str := read_text (up_stream file).

(** The database takes the row of a degraded review of the upload: its
    three counters and its score are 0. *)
Definition stores_degraded (file : upload) : Prop :=
  bind_parameters
    (insert_parameters (saved_name file) (file_type_of (saved_name file))
       (Z.of_nat (List.length (up_stream file))) (saved_text file)
       (VInt 0) (VInt 0) (VInt 0) (VInt 0)) = Ok tt.

(** The [review_report] column of the newest row. *)
Definition newest_report (w : world) : option value :=
  match rev (rows (db w)) with
  | r :: _ => Some (row_review_report r)
  | [] => None
  end.

(** The identities of the table, oldest row first. *)
Definition ids (d : database) : list Z := map row_id (rows d).

(** The table as inserting and deleting leave it: the identities grow along
    the table, start at 1 and none is above the largest given so far. *)
Definition db_ordered (d : database) : Prop :=
  StronglySorted Z.lt (ids d)
  /\ Forall (fun i => (1 <= i <= last_rowid d)%Z) (ids d)
  /\ (0 <= last_rowid d)%Z.

(** The number of newline characters of a text. *)
Definition newlines (text : str) : nat :=
  List.length (filter (char_eqb newline) text).

(** The keys of a report, in the order [generate_report] writes them. *)
Definition report_keys : list str :=
  map py ["filename"; "overall_score"; "summary"; "detailed_scores"; "errors";
          "warnings"; "suggestions"; "strengths"; "security_concerns";
          "performance_notes"; "metrics"]%string.

(** The score of a tuple is an [int] between the two bounds, a bound that is
    not set leaving its side open. *)
Definition score_within (lo hi : option Z) (review : listed_review) : bool :=
  match l_quality_score review with
  | VInt z =>
      match lo with Some n => (n <=? z)%Z | None => true end
      && match hi with Some n => (z <=? n)%Z | None => true end
  | _ => false
  end.

(** The entry of [results] names the row: its identity, its filename and
    its score, which the row holds as its column keeps it (an integer score
    as it is). *)
Definition names_row (entry : value) (row : review_row) : Prop :=
  field_at entry ["review_id"%string] = Ok (VInt (row_id row))
  /\ field_at entry ["filename"%string] = Ok (VStr (row_filename row))
  /\ (exists score,
        field_at entry ["quality_score"%string] = Ok score
        /\ row_code_quality_score row = integer_column score)
  /\ field_at entry ["status"%string] = Ok (VStr (py "success")).

(** The identities [start], [start + 1], ... in a row. *)
Fixpoint consecutive_from (start : Z) (identities : list Z) : Prop :=
  match identities with
  | [] => True
  | i :: rest => i = start /\ consecutive_from (start + 1) rest
  end.

(** The entry [search_reviews] writes for a tuple. *)
Definition search_entry (review : listed_review) : value :=
  VDict [(py "id", VInt (l_id review));
         (py "filename", VStr (l_filename review));
         (py "quality_score", l_quality_score review);
         (py "timestamp", VStr (l_timestamp review))].

(** The filename of the tuple holds the query, letter case apart. *)
Definition filename_matches (query : str) (review : listed_review) : bool :=
  str_in_str (str_lower query) (str_lower (l_filename review)).

(** The score column of a tuple holds an [int]. *)
Definition int_score (review : listed_review) : Prop :=
  exists z, l_quality_score review = VInt z.

(** The body of a request that names the reviews [a] and [b]. *)
Definition asks_for (data a b : value) : Prop :=
  exists d, data = VDict d
            /\ dict_get (py "review_id_1") d = Some a
            /\ dict_get (py "review_id_2") d = Some b.

(** The four numbers of a row that are compared. *)
Definition int_columns (review : review_row) (quality errors warnings suggestions : Z)
    : Prop :=
  row_code_quality_score review = VInt quality
  /\ row_errors_found review = VInt errors
  /\ row_warnings_found review = VInt warnings
  /\ row_suggestions_count review = VInt suggestions.

(** The answer [200] of a comparison. *)
Definition compared_answer (review1 review2 : review_row)
    (quality errors warnings suggestions : Z) (improvement : bool) : answer :=
  Answer 200
    (VDict
       [(py "success", VBool true);
        (py "comparison",
          VDict
            [(py "review_1", compared review1);
             (py "review_2", compared review2);
             (py "differences",
               VDict [(py "quality_score_diff", VInt quality);
                      (py "errors_diff", VInt errors);
                      (py "warnings_diff", VInt warnings);
                      (py "suggestions_diff", VInt suggestions)]);
             (py "improvement", VBool improvement)])]).

(** The reviews of a day, and what a trend says of them. *)
Definition on_day (date : str) (review : listed_review) : bool :=
  str_eqb (date_part review) date.

Definition score_total (reviews : list listed_review) : Z :=
  fold_right (fun review total =>
                match l_quality_score review with
                | VInt z => (z + total)%Z
                | _ => total
                end) 0%Z reviews.

Definition errors_total (reviews : list listed_review) : Z :=
  fold_right (fun review total => (l_errors_found review + total)%Z) 0%Z reviews.

Definition trend_entry (date : str) (reviews : list listed_review) : value :=
  let n := Z.of_nat (List.length reviews) in
  VDict [(py "date", VStr date);
         (py "reviews_count", VInt n);
         (py "average_quality",
           VFloat (float_round2 (float_of_quotient (score_total reviews) n)));
         (py "total_errors", VInt (errors_total reviews))].

Definition trends_answer (days : Z) (dates : list str)
    (reviews : list listed_review) : answer :=
  Answer 200
    (VDict [(py "success", VBool true);
            (py "period", VStr (py "Last " ++ str_of_int days ++ py " days"));
            (py "trends",
              VList (map (fun date => trend_entry date (filter (on_day date) reviews))
                       dates))]).

Definition str_lt (a b : str) : Prop := str_ltb a b = true.

(** What the grouping loop holds of the reviews it has seen. *)
Definition totals_of (reviews : list listed_review) : day_totals :=
  {| t_count := Z.of_nat (List.length reviews);
     t_total_score := Int (score_total reviews);
     t_total_errors := errors_total reviews |}.

Definition grouped (seen : list listed_review) (trends : list (str * day_totals))
    : Prop :=
  NoDup (map fst trends)
  /\ forall date,
       trends_get date trends
       = match filter (on_day date) seen with
         | [] => None
         | found => Some (totals_of found)
         end.

Definition by_date (a b : str * day_totals) : Prop := str_lt (fst a) (fst b).

End Pipeline.

(** ** A reference runtime

    The libraries' side of the model, written out so that the pipeline runs
    on concrete requests. *)

Definition decimal (n : nat) : str :=
  py (DecimalString.NilZero.string_of_uint (Nat.to_uint n)).

Fixpoint starts_with (prefix s : str) : bool :=
  match prefix, s with
  | [], _ => true
  | p :: prefix', c :: s' => char_eqb p c && starts_with prefix' s'
  | _ :: _, [] => false
  end.

(** [json.loads] on a [str], after the scanner and decoder of CPython's
    [_json] module with their default settings. The interpreter's limits on
    nesting depth and on the digits of an [int] are not modelled. *)
Module Json.

(** The outcome of scanning a term: the term, the text left and its index, or
    the message and index of a [JSONDecodeError]. *)
Inductive scan (A : Type) : Type :=
| Scanned (a : A) (rest : str) (pos : nat)
| Bad (msg : str) (pos : nat).

Arguments Scanned {A} a rest pos.
Arguments Bad {A} msg pos.

Definition is_ws (c : char) : bool :=
  ((c =? 32) || (c =? 9) || (c =? 10) || (c =? 13))%N.

Fixpoint skip_ws (s : str) (pos : nat) : str * nat :=
  match s with
  | c :: t => if is_ws c then skip_ws t (S pos) else (s, pos)
  | [] => ([], pos)
  end.

Definition is_digit (c : char) : bool := ((48 <=? c) && (c <=? 57))%N.

Fixpoint take_digits (s : str) : str * str :=
  match s with
  | c :: t =>
      if is_digit c then let '(ds, rest) := take_digits t in (c :: ds, rest)
      else ([], s)
  | [] => ([], [])
  end.

Definition hex_digit (c : char) : option N :=
  if is_digit c then Some (c - 48)%N
  else if ((97 <=? c) && (c <=? 102))%N then Some (c - 87)%N
  else if ((65 <=? c) && (c <=? 70))%N then Some (c - 55)%N
  else None.

(** The four hexadecimal digits of a [\uXXXX] escape. *)
Definition hex4 (s : str) : option (N * str) :=
  match s with
  | a :: b :: c :: d :: rest =>
      match hex_digit a, hex_digit b, hex_digit c, hex_digit d with
      | Some x, Some y, Some z, Some w =>
          Some ((((x * 16 + y) * 16 + z) * 16 + w)%N, rest)
      | _, _, _, _ => None
      end
  | _ => None
  end.

Definition backslash : char := 92%N.
Definition letter_u : char := 117%N.

Definition unescape (c : char) : option char :=
  if (c =? 34)%N then Some 34%N
  else if (c =? 92)%N then Some 92%N
  else if (c =? 47)%N then Some 47%N
  else if (c =? 98)%N then Some 8%N
  else if (c =? 102)%N then Some 12%N
  else if (c =? 110)%N then Some 10%N
  else if (c =? 114)%N then Some 13%N
  else if (c =? 116)%N then Some 9%N
  else None.

Definition unterminated : str := py "Unterminated string starting at".
Definition invalid_u : str := py "Invalid \uXXXX escape".

(** [scanstring]: [s] is the text after the opening quote, at index [pos];
    the quote is at [begin]; [acc] holds the characters read, last first. *)
Fixpoint scanstring (fuel : nat) (s : str) (pos begin : nat) (acc : str)
    : scan str :=
  match fuel with
  | O => Bad unterminated begin
  | S fuel' =>
      match s with
      | [] => Bad unterminated begin
      | c :: t =>
          if char_eqb c quote then Scanned (rev acc) t (S pos)
          else if char_eqb c backslash then
            match t with
            | [] => Bad unterminated begin
            | e :: t' =>
                if char_eqb e letter_u then
                  match hex4 t' with
                  | None => Bad invalid_u (S pos)
                  | Some (u, rest) =>
                      let alone := scanstring fuel' rest (pos + 6) begin (u :: acc) in
                      if ((55296 <=? u) && (u <=? 56319))%N then
                        match rest with
                        | b :: v :: rest' =>
                            if char_eqb b backslash && char_eqb v letter_u
                               && (4 <=? List.length rest') then
                              match hex4 rest' with
                              | None => Bad invalid_u (pos + 7)
                              | Some (u2, rest'') =>
                                  if ((56320 <=? u2) && (u2 <=? 57343))%N then
                                    scanstring fuel' rest'' (pos + 12) begin
                                      ((65536 + (u - 55296) * 1024 + (u2 - 56320))%N
                                         :: acc)
                                  else alone
                              end
                            else alone
                        | _ => alone
                        end
                      else alone
                  end
                else
                  match unescape e with
                  | Some x => scanstring fuel' t' (pos + 2) begin (x :: acc)
                  | None => Bad (py "Invalid \escape") pos
                  end
            end
          else if (c <=? 31)%N then Bad (py "Invalid control character at") pos
          else scanstring fuel' t (S pos) begin (c :: acc)
      end
  end.

Definition digits_value (ds : str) : Z :=
  fold_left (fun acc d => (acc * 10 + Z.of_N (d - 48))%Z) ds 0%Z.

(** [float(text)] for the decimal [digits * 10 ^ exponent]. *)
Definition float_of_decimal (neg : bool) (digits exponent : Z) : float :=
  match digits with
  | Zpos d =>
      match exponent with
      | Zneg e => float_of_ratio neg d (Pos.pow 10 e)
      | Z0 => float_of_ratio neg d 1
      | Zpos e => float_of_ratio neg (d * Pos.pow 10 e) 1
      end
  | _ => S754_zero neg
  end.

Definition expecting_value : str := py "Expecting value".

(** [_match_number]: an optional sign, then [0] or a digit string that does
    not start with [0]; a fraction needs a digit after its point, an exponent
    a digit after its optional sign, and is otherwise left unread. *)
Definition scan_number (s : str) (pos : nat) : scan value :=
  let '(neg, s1) :=
    match s with
    | c :: t => if (c =? 45)%N then (true, t) else (false, s)
    | [] => (false, s)
    end in
  match s1 with
  | [] => Bad expecting_value pos
  | c :: t =>
      if is_digit c then
        let '(int_digits, s2) :=
          if (c =? 48)%N then ([c], t)
          else let '(ds, rest) := take_digits t in (c :: ds, rest) in
        let '(frac_digits, s3) :=
          match s2 with
          | p :: d :: _ =>
              if (p =? 46)%N && is_digit d then take_digits (tl s2) else ([], s2)
          | _ => ([], s2)
          end in
        let '(exp_part, s4) :=
          match s3 with
          | e :: after_e =>
              if ((e =? 101) || (e =? 69))%N then
                let '(exp_neg, after_sign) :=
                  match after_e with
                  | sg :: t' =>
                      if (sg =? 45)%N then (true, t')
                      else if (sg =? 43)%N then (false, t')
                      else (false, after_e)
                  | [] => (false, after_e)
                  end in
                match take_digits after_sign with
                | ([], _) => (None, s3)
                | (ds, rest) =>
                    (Some (if exp_neg then (- digits_value ds)%Z
                           else digits_value ds), rest)
                end
              else (None, s3)
          | [] => (None, s3)
          end in
        let pos' := pos + (List.length s - List.length s4) in
        match frac_digits, exp_part with
        | [], None =>
            Scanned (VInt (if neg then (- digits_value int_digits)%Z
                           else digits_value int_digits)) s4 pos'
        | _, _ =>
            let exponent :=
              (match exp_part with Some x => x | None => 0 end
               - Z.of_nat (List.length frac_digits))%Z in
            Scanned (VFloat (float_of_decimal neg
                               (digits_value (int_digits ++ frac_digits))
                               exponent)) s4 pos'
        end
      else Bad expecting_value pos
  end.

(** [scan_once] with the loops of [_parse_object] and [_parse_array]. The
    items of an object are stored as [dict] assignment does. *)
Fixpoint scan_once (fuel : nat) (s : str) (pos : nat) {struct fuel} : scan value :=
  match fuel with
  | O => Bad expecting_value pos
  | S fuel' =>
      match s with
      | [] => Bad expecting_value pos
      | c :: t =>
          if char_eqb c quote then
            match scanstring (List.length t) t (S pos) pos [] with
            | Scanned text rest p => Scanned (VStr text) rest p
            | Bad m p => Bad m p
            end
          else if char_eqb c lbrace then
            let '(s1, p1) := skip_ws t (S pos) in
            match s1 with
            | c1 :: t1 =>
                if char_eqb c1 rbrace then Scanned (VDict []) t1 (S p1)
                else object_items fuel' s1 p1 []
            | [] => object_items fuel' s1 p1 []
            end
          else if (c =? 91)%N then
            let '(s1, p1) := skip_ws t (S pos) in
            match s1 with
            | c1 :: t1 =>
                if (c1 =? 93)%N then Scanned (VList []) t1 (S p1)
                else array_items fuel' s1 p1 []
            | [] => array_items fuel' s1 p1 []
            end
          else if starts_with (py "null") s then Scanned VNone (skipn 4 s) (pos + 4)
          else if starts_with (py "true") s then
            Scanned (VBool true) (skipn 4 s) (pos + 4)
          else if starts_with (py "false") s then
            Scanned (VBool false) (skipn 5 s) (pos + 5)
          else if starts_with (py "NaN") s then
            Scanned (VFloat S754_nan) (skipn 3 s) (pos + 3)
          else if starts_with (py "Infinity") s then
            Scanned (VFloat (S754_infinity false)) (skipn 8 s) (pos + 8)
          else if starts_with (py "-Infinity") s then
            Scanned (VFloat (S754_infinity true)) (skipn 9 s) (pos + 9)
          else scan_number s pos
      end
  end

with object_items (fuel : nat) (s : str) (pos : nat) (acc : dict) {struct fuel}
    : scan value :=
  match fuel with
  | O => Bad expecting_value pos
  | S fuel' =>
      match s with
      | c :: t =>
          if char_eqb c quote then
            match scanstring (List.length t) t (S pos) pos [] with
            | Bad m p => Bad m p
            | Scanned key s1 p1 =>
                let '(s2, p2) := skip_ws s1 p1 in
                match s2 with
                | c2 :: t2 =>
                    if (c2 =? 58)%N then
                      let '(s3, p3) := skip_ws t2 (S p2) in
                      match scan_once fuel' s3 p3 with
                      | Bad m p => Bad m p
                      | Scanned v s4 p4 =>
                          let '(s5, p5) := skip_ws s4 p4 in
                          match s5 with
                          | c5 :: t5 =>
                              if char_eqb c5 rbrace then
                                Scanned (VDict (dict_set key v acc)) t5 (S p5)
                              else if (c5 =? 44)%N then
                                let '(s6, p6) := skip_ws t5 (S p5) in
                                object_items fuel' s6 p6 (dict_set key v acc)
                              else Bad (py "Expecting ',' delimiter") p5
                          | [] => Bad (py "Expecting ',' delimiter") p5
                          end
                      end
                    else Bad (py "Expecting ':' delimiter") p2
                | [] => Bad (py "Expecting ':' delimiter") p2
                end
            end
          else Bad (py "Expecting property name enclosed in double quotes") pos
      | [] => Bad (py "Expecting property name enclosed in double quotes") pos
      end
  end

with array_items (fuel : nat) (s : str) (pos : nat) (acc : list value)
    {struct fuel} : scan value :=
  match fuel with
  | O => Bad expecting_value pos
  | S fuel' =>
      match scan_once fuel' s pos with
      | Bad m p => Bad m p
      | Scanned v s1 p1 =>
          let '(s2, p2) := skip_ws s1 p1 in
          match s2 with
          | c :: t =>
              if (c =? 93)%N then Scanned (VList (rev (v :: acc))) t (S p2)
              else if (c =? 44)%N then
                let '(s3, p3) := skip_ws t (S p2) in
                array_items fuel' s3 p3 (v :: acc)
              else Bad (py "Expecting ',' delimiter") p2
          | [] => Bad (py "Expecting ',' delimiter") p2
          end
      end
  end.

Fixpoint until_newline (s : str) : str :=
  match s with
  | [] => []
  | c :: t => if char_eqb c newline then [] else c :: until_newline t
  end.

(** [str(e)] of [JSONDecodeError(msg, doc, pos)] *)
Definition error_text (msg doc : str) (pos : nat) : str :=
  let before := firstn pos doc in
  let lineno := S (List.length (filter (char_eqb newline) before)) in
  let colno :=
    if str_contains newline before
    then S (List.length (until_newline (rev before)))
    else S pos in
  msg ++ py ": line " ++ decimal lineno ++ py " column " ++ decimal colno
      ++ py " (char " ++ decimal pos ++ py ")".

Definition loads (s : str) : result value :=
  if starts_with [65279%N] s then
    Raise (Exn JSONDecodeError
             (error_text (py "Unexpected UTF-8 BOM (decode using utf-8-sig)") s 0))
  else
    let '(s0, p0) := skip_ws s 0 in
    match scan_once (S (List.length s)) s0 p0 with
    | Bad m p => Raise (Exn JSONDecodeError (error_text m s p))
    | Scanned v rest p =>
        match skip_ws rest p with
        | ([], _) => Ok v
        | (_ :: _, p') =>
            Raise (Exn JSONDecodeError (error_text (py "Extra data") s p'))
        end
    end.

End Json.

(** [werkzeug.utils.secure_filename] on a POSIX host. The name is first
    normalised (NFKD) and its non-ASCII characters dropped; the reference
    drops them without normalising, which is the same on an ASCII name. *)
Module Werkzeug.

Definition slash : char := 47%N.

(** [text.split()]: the words between runs of white space. *)
Fixpoint words (s : str) (current : str) : list str :=
  match s with
  | [] => match current with [] => [] | _ => [rev current] end
  | c :: t =>
      if is_space c then
        match current with
        | [] => words t []
        | _ => rev current :: words t []
        end
      else words t (c :: current)
  end.

(** The characters [[A-Za-z0-9_.-]] the name keeps. *)
Definition is_safe (c : char) : bool :=
  ((65 <=? c) && (c <=? 90) || (97 <=? c) && (c <=? 122)
   || (48 <=? c) && (c <=? 57) || (c =? 95) || (c =? 46) || (c =? 45))%N.

Definition is_dot_or_underscore (c : char) : bool := ((c =? 46) || (c =? 95))%N.

Definition secure_filename (filename : str) : str :=
  let ascii := filter is_ascii filename in
  let spaced := map (fun c => if char_eqb c slash then 32%N else c) ascii in
  let joined := str_join (py "_") (words spaced []) in
  str_strip_by is_dot_or_underscore (filter is_safe joined).

End Werkzeug.

(** The text of an ASCII upload as a file opened in text mode gives it: the
    line endings [\r\n] and [\r] are read as [\n]. Bytes above 127, which the
    codec decodes or ignores, are dropped by the reference. *)
Fixpoint read_ascii (bytes : list N) : str :=
  match bytes with
  | [] => []
  | b :: rest =>
      if (b =? 13)%N then
        match rest with
        | b' :: rest' =>
            if (b' =? 10)%N then newline :: read_ascii rest'
            else newline :: read_ascii rest
        | [] => [newline]
        end
      else if is_ascii b then b :: read_ascii rest
      else read_ascii rest
  end.

(** What [sqlite3] does with a parameter: [None], numbers and texts are
    bound; an [int] must fit in 64 bits, a [str] must encode to UTF-8, and
    other types are not supported. *)
Module Sqlite.

Definition is_surrogate (c : char) : bool := ((55296 <=? c) && (c <=? 57343))%N.

Fixpoint index_of_surrogate (s : str) (i : nat) : option (nat * str) :=
  match s with
  | [] => None
  | c :: t => if is_surrogate c then Some (i, s) else index_of_surrogate t (S i)
  end.

Fixpoint leading_surrogates (s : str) : nat :=
  match s with
  | c :: t => if is_surrogate c then S (leading_surrogates t) else 0
  | [] => 0
  end.

Definition hex (c : char) : str :=
  py (HexadecimalString.NilZero.string_of_uint (N.to_hex_uint c)).

Definition bind_error (i : nat) (v : value) : option exn :=
  match v with
  | VList _ | VDict _ =>
      Some (Exn ProgrammingError
              (py "Error binding parameter " ++ decimal i ++ py ": type '"
                  ++ type_name v ++ py "' is not supported"))
  | VInt z =>
      if ((- 2 ^ 63 <=? z) && (z <? 2 ^ 63))%Z then None
      else Some (Exn OverflowError
                   (py "Python int too large to convert to SQLite INTEGER"))
  | VStr s =>
      match index_of_surrogate s 0 with
      | None => None
      | Some (start, from) =>
          let n := leading_surrogates from in
          Some (Exn UnicodeEncodeError
                  (py "'utf-8' codec can't encode "
                   ++ (if n =? 1
                       then py "character '\u" ++ hex (hd 0%N from)
                              ++ py "' in position " ++ decimal start
                       else py "characters in position " ++ decimal start
                              ++ py "-" ++ decimal (start + n - 1))
                   ++ py ": surrogates not allowed"))
      end
  | _ => None
  end.

Fixpoint digits_value (s : str) (so_far : Z) : option Z :=
  match s with
  | [] => Some so_far
  | c :: t =>
      if ((48 <=? c) && (c <=? 57))%N
      then digits_value t (10 * so_far + Z.of_N (c - 48))%Z
      else None
  end.

(** A text that is an integer of 64 bits in decimal digits, with or without
    a minus sign, is kept as that integer. SQLite reads more texts as
    numbers (reals, numbers between spaces, integers too large, which become
    reals); the scenarios store none of them, and they are kept as texts
    here. *)
Definition numeric_text (s : str) : value :=
  let read :=
    match s with
    | [] => None
    | c :: t =>
        if (c =? 45)%N
        then match t with
             | [] => None
             | _ :: _ => option_map Z.opp (digits_value t 0)
             end
        else digits_value s 0
    end in
  match read with
  | Some z => if ((- 2 ^ 63 <=? z) && (z <? 2 ^ 63))%Z then VInt z else VStr s
  | None => VStr s
  end.

End Sqlite.

(** The runtime around a given LLM service. [str.lower] is the reference's
    on texts whose letters are ASCII. *)
Definition reference_runtime (service : nat -> str -> completion) : Runtime :=
  {| unicode_lower := map ascii_lower;
     json_loads := Json.loads;
     secure_filename := Werkzeug.secure_filename;
     read_text := read_ascii;
     chat_completion := service;
     sqlite_bind_error := Sqlite.bind_error;
     sqlite_numeric_text := Sqlite.numeric_text |}.

(** A service that is down: every call raises. *)
Definition service_down : nat -> str -> completion :=
  fun _ _ => Raised (Exn ServiceError (py "Connection error.")).

(** A service that answers every call with the same text. *)
Definition service_saying (text : str) : nat -> str -> completion :=
  fun _ _ => Content (Some text).

Definition empty_world : world :=
  {| db := {| rows := []; last_rowid := 0 |}; llm_calls := 0 |}.

(** ** The inputs of the scenarios *)

(** The text [def hello():\n    print("hi")\n\n# comment\n]. *)
Definition hello_text : str :=
  str_join [newline]
    [py "def hello():"; py "    print(" ++ q "hi" ++ py ")"; []; py "# comment"; []].

Definition upload_of (name text : string) : upload :=
  {| up_filename := py name; up_stream := py text |}.

(** A Python file of one line. *)
Definition one_liner : upload := upload_of "a.py" "x = 1
".

(** A batch of three files, the second with an extension that is not
    allowed. *)
Definition three_files : list upload :=
  [upload_of "one.py" "x = 1"; upload_of "notes.txt" "hello";
   upload_of "two.js" "let y = 2;"].

(** The object [{"overall_quality_score": 80, "summary": "fine"}] without
    its braces: a review that leaves out every list and sub-score. *)
Definition partial_payload : str :=
  q "overall_quality_score" ++ py ": 80, " ++ q "summary" ++ py ": " ++ q "fine".

(** A reply that wraps the object in prose. *)
Definition partial_reply : str :=
  py "Here is my review: " ++ lbrace :: partial_payload ++ rbrace
     :: py " Hope it helps.".

(** The reply ["{x}"], quotes included: a JSON string, whose brace span
    [{x}] is not JSON. *)
Definition quoted_braces : str := q "{x}".

Definition connection_error : exn := Exn ServiceError (py "Connection error.").

(** An analysis with two errors, one warning and no suggestion, which also
    gives counts of its own: 99 everywhere. *)
Definition two_errors : list value := [VStr (py "unused import"); VStr (py "bare except")].

Definition one_warning : list value := [VStr (py "long line")].

Definition miscounted_analysis : value :=
  VDict [(py "errors", VList two_errors);
         (py "warnings", VList one_warning);
         (py "suggestions", VList []);
         (py "total_errors", VInt 99);
         (py "metrics",
           VDict [(py "total_errors", VInt 99);
                  (py "total_warnings", VInt 99);
                  (py "total_suggestions", VInt 99)])].

(** An upload whose whole name is an extension. *)
Definition dot_py : upload := upload_of ".py" "x = 1".

(** A reply whose score is a text: [{"overall_quality_score": "85"}]. *)
Definition text_score_reply : str :=
  lbrace :: q "overall_quality_score" ++ py ": " ++ q "85" ++ [rbrace].

(** A reply that is JSON but not an object. *)
Definition array_reply : str := py "[1, 2]".

(** A tuple of the listing with the given identity, filename and score. *)
Definition listed_of (id : Z) (name : string) (score : value) : listed_review :=
  {| l_id := id; l_filename := py name; l_file_type := py "py";
     l_file_size := 10; l_errors_found := 0; l_warnings_found := 0;
     l_suggestions_count := 0; l_quality_score := score;
     l_timestamp := py "2024-01-01 10:00:00" |}.

(** Three tuples with integer scores, newest first. *)
Definition scored_reviews : list listed_review :=
  [listed_of 3 "App.py" (VInt 90); listed_of 2 "util.py" (VInt 40);
   listed_of 1 "app_test.py" (VInt 70)].

(** The state after [a.py] was ingested while the service was down. *)
Definition one_review_world : world :=
  {| db := {| rows := [{| row_id := 1;
                          row_filename := py "a.py";
                          row_file_type := py "py";
                          row_file_size := 6;
                          row_code_content := py "x = 1";
                          row_review_report := VDict [];
                          row_errors_found := VInt 0;
                          row_warnings_found := VInt 0;
                          row_suggestions_count := VInt 0;
                          row_code_quality_score := VInt 0 |}];
              last_rowid := 1 |};
     llm_calls := 1 |}.

(** Three stored reviews; the third was stored without a score. *)
Definition stored_review (id : Z) (name : string) (score : value)
    (errors warnings suggestions : Z) : review_row :=
  {| row_id := id;
     row_filename := py name;
     row_file_type := py "py";
     row_file_size := 6;
     row_code_content := py "x = 1";
     row_review_report := VDict [];
     row_errors_found := VInt errors;
     row_warnings_found := VInt warnings;
     row_suggestions_count := VInt suggestions;
     row_code_quality_score := score |}.

Definition first_draft : review_row := stored_review 1 "a.py" (VInt 40) 3 2 1.
Definition second_draft : review_row := stored_review 2 "a.py" (VInt 90) 0 1 4.
Definition unscored : review_row := stored_review 3 "b.py" VNone 0 0 0.

Definition three_reviews : database :=
  {| rows := [first_draft; second_draft; unscored]; last_rowid := 3 |}.

(** The lookup of the scenarios: [get_review_by_id] for an identity that is
    an integer, as those the scenarios name. SQLite also finds rows for some
    values that are not integers (the text ['1'], the float [1.0]); the
    scenarios use none, and this lookup finds nothing for them. *)
Definition select_in (d : database) (review_id : value) : result (option review_row) :=
  match review_id with
  | VInt n => Ok (get_review_by_id n d)
  | _ => Ok None
  end.

Definition compare_body (first second : Z) : value :=
  VDict [(py "review_id_1", VInt first); (py "review_id_2", VInt second)].

(** Three tuples of two days, newest first. *)
Definition dated_of (id : Z) (timestamp : string) (score errors : Z) : listed_review :=
  {| l_id := id; l_filename := py "a.py"; l_file_type := py "py";
     l_file_size := 10; l_errors_found := errors; l_warnings_found := 0;
     l_suggestions_count := 0; l_quality_score := VInt score;
     l_timestamp := py timestamp |}.

Definition dated_reviews : list listed_review :=
  [dated_of 3 "2024-01-02 09:00:00" 90 1;
   dated_of 2 "2024-01-02 08:00:00" 71 0;
   dated_of 1 "2024-01-01 10:00:00" 40 2].

(** * Properties *)

Section Metrics.

Lemma one_bucket (line : str) :
  (is_code_line line = true /\ is_blank_line line = false /\ is_comment_line line = false)
  \/ (is_code_line line = false /\ is_blank_line line = true /\ is_comment_line line = false)
  \/ (is_code_line line = false /\ is_blank_line line = false /\ is_comment_line line = true).
Proof.
  unfold is_code_line, is_blank_line, is_comment_line.
  destruct (str_strip line) as [|c rest]; cbn.
  - right; left; auto.
  - destruct (char_eqb c hash); auto.
Qed.

Lemma buckets_add_up (lines : list str) :
  List.length lines =
  List.length (filter is_code_line lines)
  + List.length (filter is_blank_line lines)
  + List.length (filter is_comment_line lines).
Proof.
  induction lines as [|line lines IH]; [reflexivity|].
  cbn [filter].
  destruct (one_bucket line) as [(-> & -> & ->)|[(-> & -> & ->)|(-> & -> & ->)]];
    cbn [List.length]; lia.
Qed.

Lemma truediv_defined (a b : Z) :
  b <> 0%Z -> int_truediv a b = Ok (float_of_quotient a b).
Proof.
  intros Hb. unfold int_truediv.
  destruct (Z.eqb_spec b 0); [contradiction|reflexivity].
Qed.

(** What [calculate_code_metrics] returns, in one equation: the guard keeps
    the division away from a zero divisor. *)
Lemma calculate_code_metrics_eq (text : str) :
  let lines := str_split newline text in
  let code := List.length (filter is_code_line lines) in
  let comment := List.length (filter is_comment_line lines) in
  calculate_code_metrics text =
  Ok {| total_lines := List.length lines;
        code_lines := code;
        blank_lines := List.length (filter is_blank_line lines);
        comment_lines := comment;
        comment_ratio :=
          if 0 <? code
          then Float (float_round2
                        (float_mul (float_of_quotient (Z.of_nat comment) (Z.of_nat code))
                                   (float_of_Z 100)))
          else Int 0 |}.
Proof.
  cbv zeta. unfold calculate_code_metrics.
  destruct (Nat.ltb_spec 0 (List.length (filter is_code_line (str_split newline text))))
    as [Hpos|Hzero].
  - rewrite truediv_defined by lia. reflexivity.
  - reflexivity.
Qed.

(** C4. Every line that splitting on newlines produces falls in exactly one
    of the three buckets, the three counts are not negative, and
    [total_lines] is their sum. *)
Theorem metrics_partition (text : str) :
  exists m,
    calculate_code_metrics text = Ok m
    /\ total_lines m = code_lines m + blank_lines m + comment_lines m
    /\ (0 <= Z.of_nat (code_lines m) /\ 0 <= Z.of_nat (blank_lines m)
        /\ 0 <= Z.of_nat (comment_lines m))%Z
    /\ code_lines m = List.length (filter is_code_line (str_split newline text))
    /\ blank_lines m = List.length (filter is_blank_line (str_split newline text))
    /\ comment_lines m = List.length (filter is_comment_line (str_split newline text))
    /\ forall line, In line (str_split newline text) ->
         (is_code_line line = true /\ is_blank_line line = false
          /\ is_comment_line line = false)
         \/ (is_code_line line = false /\ is_blank_line line = true
             /\ is_comment_line line = false)
         \/ (is_code_line line = false /\ is_blank_line line = false
             /\ is_comment_line line = true).
Proof.
  eexists. split; [apply calculate_code_metrics_eq|].
  cbn [total_lines code_lines blank_lines comment_lines].
  split; [apply buckets_add_up|].
  split; [repeat split; apply Nat2Z.is_nonneg|].
  repeat split; auto using one_bucket.
Qed.

(** C3, as the scenario states it, does not hold: the text ends with a
    newline, so the split has a fifth, empty piece, counted as a line and as
    a blank line. *)
Lemma hello_metrics_not_as_stated :
  calculate_code_metrics hello_text <>
  Ok {| total_lines := 4; code_lines := 2; blank_lines := 1;
        comment_lines := 1; comment_ratio := Float (float_of_Z 50) |}.
Proof. vm_compute. intros H. discriminate H. Qed.

(** C3, amended. On the text [def hello():\n    print("hi")\n\n# comment\n]
    the metrics are total_lines 5, blank_lines 2, comment_lines 1,
    code_lines 2 and comment_ratio 50.0. *)
Theorem hello_metrics :
  calculate_code_metrics hello_text =
  Ok {| total_lines := 5; code_lines := 2; blank_lines := 2;
        comment_lines := 1; comment_ratio := Float (float_of_Z 50) |}.
Proof. vm_compute. reflexivity. Qed.

(** C9, as stated, does not hold on the empty text: its split is one empty
    piece, so total_lines and blank_lines are 1, not 0. *)
Lemma empty_text_counts_not_all_zero :
  calculate_code_metrics [] <>
  Ok {| total_lines := 0; code_lines := 0; blank_lines := 0;
        comment_lines := 0; comment_ratio := Int 0 |}.
Proof. vm_compute. intros H. discriminate H. Qed.

(** C9, amended. [calculate_code_metrics] returns on every text: the
    division is guarded, so comment_ratio is the integer 0 whenever
    code_lines is 0, whatever comment_lines is, and is
    round(comment_lines / code_lines * 100, 2) when code_lines is positive.
    On the empty text total_lines and blank_lines are 1, code_lines and
    comment_lines are 0 and the ratio is 0. *)
Theorem metrics_never_fail (text : str) :
  exists m,
    calculate_code_metrics text = Ok m
    /\ (code_lines m = 0 -> comment_ratio m = Int 0)
    /\ (0 < code_lines m ->
        comment_ratio m =
        Float (float_round2
                 (float_mul
                    (float_of_quotient (Z.of_nat (comment_lines m))
                                       (Z.of_nat (code_lines m)))
                    (float_of_Z 100)))
        /\ int_truediv (Z.of_nat (comment_lines m)) (Z.of_nat (code_lines m))
           = Ok (float_of_quotient (Z.of_nat (comment_lines m))
                                   (Z.of_nat (code_lines m))))
    /\ (text = [] ->
        m = {| total_lines := 1; code_lines := 0; blank_lines := 1;
               comment_lines := 0; comment_ratio := Int 0 |}).
Proof.
  eexists. split; [apply calculate_code_metrics_eq|].
  cbn [code_lines comment_lines comment_ratio].
  split; [|split].
  - intros ->. reflexivity.
  - intros Hpos. split.
    + destruct (Nat.ltb_spec 0
                  (List.length (filter is_code_line (str_split newline text))));
        [reflexivity|lia].
    + apply truediv_defined. lia.
  - intros ->. reflexivity.
Qed.

(** A text of comments only: the ratio is 0 though comment_lines is not. *)
Example comments_only_ratio :
  calculate_code_metrics (py "# a") =
  Ok {| total_lines := 1; code_lines := 0; blank_lines := 0;
        comment_lines := 1; comment_ratio := Int 0 |}.
Proof. vm_compute. reflexivity. Qed.

End Metrics.

Section Extension.

Context {RT : Runtime}.

Lemma char_eqb_eq (a b : char) : char_eqb a b = true <-> a = b.
Proof. apply N.eqb_eq. Qed.

Lemma str_eqb_eq (a b : str) : str_eqb a b = true <-> a = b.
Proof.
  revert b. induction a as [|x a IH]; intros [|y b]; cbn; split;
    try congruence; try discriminate.
  - intros H. apply andb_true_iff in H as [Hx Ha].
    apply char_eqb_eq in Hx. apply IH in Ha. congruence.
  - intros H. injection H as -> ->.
    apply andb_true_iff. split; [apply char_eqb_eq | apply IH]; reflexivity.
Qed.

Lemma rsplit1_no_sep (sep : char) (s : str) :
  str_contains sep s = false -> str_rsplit1 sep s = [s].
Proof.
  unfold str_contains.
  induction s as [|c s IH]; [reflexivity|].
  cbn [existsb str_rsplit1]. intros H. apply orb_false_iff in H as [Hc Hs].
  rewrite (IH Hs).
  unfold char_eqb in *. rewrite N.eqb_sym, Hc. reflexivity.
Qed.

(** [rsplit('.', 1)] cuts at the last separator. *)
Lemma rsplit1_last (sep : char) (before after : str) :
  str_contains sep after = false ->
  str_rsplit1 sep (before ++ sep :: after) = [before; after].
Proof.
  intros H. induction before as [|c before IH]; cbn.
  - rewrite (rsplit1_no_sep _ _ H).
    unfold char_eqb. rewrite N.eqb_refl. reflexivity.
  - rewrite IH. reflexivity.
Qed.

Lemma contains_app (c : char) (a b : str) :
  str_contains c (a ++ b) = str_contains c a || str_contains c b.
Proof. apply existsb_app. Qed.

Lemma lower_keeps_dots (s : str) :
  str_contains dot (map ascii_lower s) = false -> str_contains dot s = false.
Proof.
  unfold str_contains.
  induction s as [|c s IH]; [reflexivity|].
  cbn [map existsb]. intros H. apply orb_false_iff in H as [Hc Hs].
  rewrite (IH Hs), orb_false_r.
  destruct (char_eqb dot c) eqn:E; [|reflexivity].
  apply char_eqb_eq in E. subst c. discriminate Hc.
Qed.

Lemma allowed_extension_has_no_dot (ext : str) :
  str_in ext ALLOWED_EXTENSIONS = true -> str_contains dot ext = false.
Proof.
  unfold str_in. intros H. apply existsb_exists in H as (x & Hin & Heq).
  apply str_eqb_eq in Heq. subst x.
  repeat (destruct Hin as [<-|Hin]; [reflexivity|]).
  destruct Hin.
Qed.

Lemma lower_ascii (s : str) :
  forallb is_ascii s = true -> str_lower s = map ascii_lower s.
Proof. intros H. unfold str_lower. rewrite H. reflexivity. Qed.

Lemma not_allowed_without_dot (filename : str) :
  str_contains dot filename = false -> allowed_file filename = false.
Proof. intros H. unfold allowed_file. rewrite H. reflexivity. Qed.

(** C10. A filename with no '.' is refused by [allowed_file], so the single
    endpoint rejects the upload as a file type that is not allowed and the
    batch loop records it as such, both leaving the state as it was; and the
    test ignores the case of the extension: a name whose extension becomes an
    allowed one when its ASCII letters are lowered is accepted. *)
Theorem extension_check :
  (forall (file : upload) (w : world),
      str_contains dot (up_filename file) = false ->
      allowed_file (up_filename file) = false
      /\ (up_filename file <> [] ->
          review_code (Some file) w = (Rejected FileTypeNotAllowed, w))
      /\ (forall results errors,
             batch_step (results, errors, w) file =
             (results,
              errors ++ [error_entry (up_filename file) (py "File type not allowed")],
              w)))
  /\ (forall stem ext : str,
        forallb is_ascii ext = true ->
        str_in (map ascii_lower ext) ALLOWED_EXTENSIONS = true ->
        allowed_file (stem ++ dot :: ext) = true).
Proof.
  split.
  - intros file w Hdot.
    pose proof (not_allowed_without_dot _ Hdot) as Hno.
    split; [exact Hno|]. split.
    + intros Hname. unfold review_code.
      destruct (str_eqb (up_filename file) []) eqn:E.
      * apply str_eqb_eq in E. contradiction.
      * rewrite Hno. reflexivity.
    + intros results errors. unfold batch_step.
      rewrite Hno, andb_false_r. reflexivity.
  - intros stem ext Hascii Hin.
    pose proof (lower_keeps_dots _ (allowed_extension_has_no_dot _ Hin)) as Hext.
    unfold allowed_file.
    rewrite (rsplit1_last _ stem ext Hext), contains_app.
    cbn [str_contains existsb]. unfold char_eqb at 1. rewrite N.eqb_refl.
    rewrite (lower_ascii _ Hascii), Hin.
    rewrite orb_true_r. reflexivity.
Qed.

End Extension.

Section Report.

Lemma str_eqb_refl (a : str) : str_eqb a a = true.
Proof. apply str_eqb_eq. reflexivity. Qed.

Lemma dict_get_set_same (k : str) (v : value) (d : dict) :
  dict_get k (dict_set k v d) = Some v.
Proof.
  induction d as [|[k' v'] d IH]; cbn [dict_set dict_get].
  - rewrite str_eqb_refl. reflexivity.
  - destruct (str_eqb k' k) eqn:E; cbn [dict_get]; rewrite E; [reflexivity|exact IH].
Qed.

Lemma dict_get_set_other (k k' : str) (v : value) (d : dict) (found : option value) :
  dict_get k d = found -> k <> k' -> dict_get k (dict_set k' v d) = found.
Proof.
  intros <- Hk. induction d as [|[k0 v0] d IH]; cbn [dict_set dict_get].
  - destruct (str_eqb k' k) eqn:E; [|reflexivity].
    apply str_eqb_eq in E. congruence.
  - destruct (str_eqb k0 k') eqn:E; cbn [dict_get].
    + apply str_eqb_eq in E. subst k0.
      destruct (str_eqb k' k) eqn:E'; [|reflexivity].
      apply str_eqb_eq in E'. congruence.
    + destruct (str_eqb k0 k); [reflexivity|exact IH].
Qed.

(** The report of a dictionary, once the three lengths are known. *)
Lemma generate_report_dict (d : dict) (filename : str) :
  generate_report (VDict d) filename =
  (total_errors <- py_len (dict_get_or (py "errors") (VList []) d) ;;
   total_warnings <- py_len (dict_get_or (py "warnings") (VList []) d) ;;
   total_suggestions <- py_len (dict_get_or (py "suggestions") (VList []) d) ;;
   Ok (VDict
         [(py "filename", VStr filename);
          (py "overall_score", dict_get_or (py "overall_quality_score") (VInt 0) d);
          (py "summary", dict_get_or (py "summary") (VStr []) d);
          (py "detailed_scores",
            VDict [(py "readability", dict_get_or (py "readability_score") (VInt 0) d);
                   (py "modularity", dict_get_or (py "modularity_score") (VInt 0) d);
                   (py "best_practices",
                     dict_get_or (py "best_practices_score") (VInt 0) d)]);
          (py "errors", dict_get_or (py "errors") (VList []) d);
          (py "warnings", dict_get_or (py "warnings") (VList []) d);
          (py "suggestions", dict_get_or (py "suggestions") (VList []) d);
          (py "strengths", dict_get_or (py "strengths") (VList []) d);
          (py "security_concerns", dict_get_or (py "security_concerns") (VList []) d);
          (py "performance_notes", dict_get_or (py "performance_notes") (VList []) d);
          (py "metrics",
            VDict [(py "total_errors", VInt total_errors);
                   (py "total_warnings", VInt total_warnings);
                   (py "total_suggestions", VInt total_suggestions)])])).
Proof. reflexivity. Qed.

(** Only a dictionary has a report. *)
Lemma generate_report_needs_dict (analysis : value) (filename : str) (report : value) :
  generate_report analysis filename = Ok report -> exists d, analysis = VDict d.
Proof.
  destruct analysis; try (intros H; discriminate H).
  intros _. eexists. reflexivity.
Qed.

Lemma len_of_sized (k : str) (d : dict) :
  sized_or_absent k d = true ->
  exists n, py_len (dict_get_or k (VList []) d) = Ok n
            /\ (dict_get k d = None -> n = 0%Z).
Proof.
  unfold sized_or_absent, dict_get_or.
  destruct (dict_get k d) as [v|].
  - intros Hv. destruct v; try discriminate Hv; cbn; eexists; split;
      try reflexivity; intros H; discriminate H.
  - intros _. exists 0%Z. split; reflexivity.
Qed.

(** What a report holds, field by field. *)
Lemma generate_report_fields (d : dict) (filename : str) (report : value) :
  generate_report (VDict d) filename = Ok report ->
  (forall key keys default,
      In (key, keys, default) report_sources ->
      field_at report keys = Ok (dict_get_or (py key) default d))
  /\ (forall counter counted,
         In (counter, counted) report_counters ->
         exists n, field_at report counter = Ok (VInt n)
                   /\ len_at report [counted] = Ok n).
Proof.
  rewrite generate_report_dict.
  destruct (py_len (dict_get_or (py "errors") (VList []) d)) as [ne|] eqn:He;
    [|intros H; discriminate H].
  destruct (py_len (dict_get_or (py "warnings") (VList []) d)) as [nw|] eqn:Hw;
    [|intros H; discriminate H].
  destruct (py_len (dict_get_or (py "suggestions") (VList []) d)) as [ns|] eqn:Hs;
    [|intros H; discriminate H].
  cbn [bind]. intros H. injection H as <-.
  split.
  - intros key keys default Hin.
    repeat (destruct Hin as [Heq|Hin]; [injection Heq as <- <- <-; reflexivity|]).
    destruct Hin.
  - intros counter counted Hin.
    destruct Hin as [Heq|[Heq|[Heq|[]]]]; injection Heq as <- <-.
    + exists ne. split; [reflexivity|exact He].
    + exists nw. split; [reflexivity|exact Hw].
    + exists ns. split; [reflexivity|exact Hs].
Qed.

(** A report is returned when the three lists are missing or have a length. *)
Lemma generate_report_returns (d : dict) (filename : str) :
  sized_or_absent (py "errors") d = true ->
  sized_or_absent (py "warnings") d = true ->
  sized_or_absent (py "suggestions") d = true ->
  exists report, generate_report (VDict d) filename = Ok report.
Proof.
  intros He Hw Hs.
  destruct (len_of_sized _ _ He) as (ne & Hne & _).
  destruct (len_of_sized _ _ Hw) as (nw & Hnw & _).
  destruct (len_of_sized _ _ Hs) as (ns & Hns & _).
  rewrite generate_report_dict, Hne, Hnw, Hns. cbn [bind].
  eexists. reflexivity.
Qed.

Lemma py_len_counts (listed : value) (n : Z) :
  py_len listed = Ok n -> counts n listed.
Proof.
  destruct listed; cbn [py_len counts]; intros H;
    try discriminate H; injection H as <-; reflexivity.
Qed.

(** C5. Whatever the analysis holds, in a report that [generate_report]
    returns each counter of [metrics] is the number of elements of the list
    beside it, and that list is the one of the analysis (or empty when the
    analysis has none): no count is read from the analysis. A report is
    returned whenever the three lists are missing or have a length, as in
    the fallback, whose lists are empty and whose counters are 0; and an
    analysis that lists two errors and one warning while giving 99 as its
    own counts gets the counters 2, 1 and 0. *)
Theorem report_counters_recomputed :
  (forall (analysis : value) (filename : str) (report : value),
      generate_report analysis filename = Ok report ->
      forall counter counted,
        In (counter, counted) report_counters ->
        exists n listed,
          field_at report counter = Ok (VInt n)
          /\ field_at report [counted] = Ok listed
          /\ py_get analysis (py counted) (VList []) = Ok listed
          /\ counts n listed
          /\ len_at report [counted] = Ok n
          /\ (items <- py_get analysis (py counted) (VList []) ;;
              py_len items) = Ok n)
  /\ (forall (d : dict) (filename : str),
         sized_or_absent (py "errors") d = true ->
         sized_or_absent (py "warnings") d = true ->
         sized_or_absent (py "suggestions") d = true ->
         exists report, generate_report (VDict d) filename = Ok report)
  /\ (forall (msg filename : str),
         exists report,
           generate_report (fallback_analysis msg) filename = Ok report
           /\ forall counter counted,
               In (counter, counted) report_counters ->
               field_at report counter = Ok (VInt 0)
               /\ field_at report [counted] = Ok (VList [])
               /\ len_at report [counted] = Ok 0%Z)
  /\ (forall (filename : str),
         exists report,
           generate_report miscounted_analysis filename = Ok report
           /\ field_at report ["errors"%string] = Ok (VList two_errors)
           /\ field_at report ["metrics"; "total_errors"]%string = Ok (VInt 2)
           /\ field_at report ["warnings"%string] = Ok (VList one_warning)
           /\ field_at report ["metrics"; "total_warnings"]%string = Ok (VInt 1)
           /\ field_at report ["suggestions"%string] = Ok (VList [])
           /\ field_at report ["metrics"; "total_suggestions"]%string
              = Ok (VInt 0)).
Proof.
  split; [|split; [|split]].
  - intros analysis filename report H counter counted Hin.
    destruct (generate_report_needs_dict _ _ H) as [d ->].
    destruct (generate_report_fields _ _ H) as [Hfields Hcounters].
    destruct (Hcounters _ _ Hin) as (n & Hn & Hlen).
    exists n, (dict_get_or (py counted) (VList []) d).
    assert (Hlisted : field_at report [counted]
                      = Ok (dict_get_or (py counted) (VList []) d)).
    { destruct Hin as [Heq|[Heq|[Heq|[]]]]; injection Heq as <- <-.
      - apply (Hfields "errors"%string ["errors"%string] (VList [])). cbn; tauto.
      - apply (Hfields "warnings"%string ["warnings"%string] (VList [])).
        cbn; tauto.
      - apply (Hfields "suggestions"%string ["suggestions"%string] (VList [])).
        cbn; tauto. }
    assert (Hcount : py_len (dict_get_or (py counted) (VList []) d) = Ok n).
    { revert Hlen. unfold len_at. rewrite Hlisted. trivial. }
    split; [exact Hn|]. split; [exact Hlisted|]. split; [reflexivity|].
    split; [apply py_len_counts; exact Hcount|]. split; [exact Hlen|].
    exact Hcount.
  - apply generate_report_returns.
  - intros msg filename. eexists. split; [reflexivity|].
    intros counter counted Hin.
    destruct Hin as [Heq|[Heq|[Heq|[]]]]; injection Heq as <- <-;
      (split; [reflexivity|split; reflexivity]).
  - intros filename. eexists. split; [reflexivity|].
    repeat split; reflexivity.
Qed.

End Report.

Section Analyzer.

Context {RT : Runtime}.

Lemma no_rbrace_no_match (s : str) :
  str_contains rbrace s = false -> match_any_then_rbrace s = None.
Proof.
  unfold str_contains.
  induction s as [|c s IH]; [reflexivity|].
  cbn [existsb match_any_then_rbrace]. intros H.
  apply orb_false_iff in H as [Hc Hs].
  rewrite (IH Hs). unfold char_eqb in *. rewrite N.eqb_sym, Hc. reflexivity.
Qed.

(** The greedy star stops at the last closing brace. *)
Lemma match_to_last_rbrace (mid post : str) :
  str_contains rbrace post = false ->
  match_any_then_rbrace (mid ++ rbrace :: post) = Some (mid ++ [rbrace]).
Proof.
  intros Hpost. induction mid as [|c mid IH]; cbn [app match_any_then_rbrace].
  - rewrite (no_rbrace_no_match _ Hpost).
    unfold char_eqb. rewrite N.eqb_refl. reflexivity.
  - rewrite IH. reflexivity.
Qed.

Lemma match_gives_rbrace (s m : str) :
  match_any_then_rbrace s = Some m ->
  exists mid post, s = mid ++ rbrace :: post /\ m = mid ++ [rbrace].
Proof.
  revert m. induction s as [|c s IH]; intros m; cbn [match_any_then_rbrace].
  - discriminate.
  - destruct (match_any_then_rbrace s) as [m'|].
    + intros H. injection H as <-.
      destruct (IH _ eq_refl) as (mid & post & -> & ->).
      exists (c :: mid), post. split; reflexivity.
    + destruct (char_eqb c rbrace) eqn:E; [|discriminate].
      intros H. injection H as <-. apply N.eqb_eq in E. subst c.
      exists [], s. split; reflexivity.
Qed.

(** The search starts at the first opening brace. *)
Lemma search_from_first_lbrace (pre mid post : str) :
  str_contains lbrace pre = false ->
  str_contains rbrace post = false ->
  re_search_braces (pre ++ lbrace :: mid ++ rbrace :: post)
  = Some (lbrace :: mid ++ [rbrace]).
Proof.
  unfold str_contains at 1. intros Hpre Hpost.
  induction pre as [|c pre IH]; cbn [app re_search_braces].
  - unfold char_eqb at 1. rewrite N.eqb_refl.
    rewrite (match_to_last_rbrace mid post Hpost). reflexivity.
  - cbn [existsb] in Hpre. apply orb_false_iff in Hpre as [Hc Hpre].
    unfold char_eqb in *. rewrite N.eqb_sym, Hc. apply IH, Hpre.
Qed.

Lemma search_gives_span (text m : str) :
  re_search_braces text = Some m ->
  exists pre mid post, text = pre ++ lbrace :: mid ++ rbrace :: post.
Proof.
  induction text as [|c text IH]; cbn [re_search_braces]; [discriminate|].
  destruct (char_eqb c lbrace) eqn:E.
  - destruct (match_any_then_rbrace text) as [m'|] eqn:Hm.
    + intros _. apply N.eqb_eq in E. subst c.
      destruct (match_gives_rbrace _ Hm) as (mid & post & -> & _).
      exists [], mid, post. reflexivity.
    + intros H. destruct (IH H) as (pre & mid & post & ->).
      exists (c :: pre), mid, post. reflexivity.
  - intros H. destruct (IH H) as (pre & mid & post & ->).
    exists (c :: pre), mid, post. reflexivity.
Qed.

Lemma analyze_code_of_content (n : nat) (code_content filename : str)
    (content : option str) :
  chat_completion n (prompt code_content filename) = Content content ->
  analyze_code n code_content filename =
  match extract_analysis content with
  | Ok analysis => analysis
  | Raise e => fallback_analysis (exn_str e)
  end.
Proof. intros H. unfold analyze_code, analyze_attempt. rewrite H. reflexivity. Qed.

(** C2, amended. When the reply has an opening brace followed somewhere by a
    closing one, only the span from the first opening brace to the last
    closing brace is parsed: its value is the analysis, and when it does not
    parse the fallback review is returned, the reply itself not being parsed.
    The whole reply is parsed only when it has no such span. *)
Theorem brace_span_parsed_alone (n : nat) (code_content filename text : str) :
  chat_completion n (prompt code_content filename) = Content (Some text) ->
  (forall pre mid post : str,
      text = pre ++ lbrace :: mid ++ rbrace :: post ->
      str_contains lbrace pre = false ->
      str_contains rbrace post = false ->
      analyze_code n code_content filename =
      match json_loads (lbrace :: mid ++ [rbrace]) with
      | Ok analysis => analysis
      | Raise e => fallback_analysis (exn_str e)
      end)
  /\ ((forall pre mid post : str, text <> pre ++ lbrace :: mid ++ rbrace :: post) ->
      analyze_code n code_content filename =
      match json_loads text with
      | Ok analysis => analysis
      | Raise e => fallback_analysis (exn_str e)
      end).
Proof.
  intros Hreply. rewrite (analyze_code_of_content _ _ _ Hreply).
  unfold extract_analysis. split.
  - intros pre mid post -> Hpre Hpost.
    rewrite (search_from_first_lbrace pre mid post Hpre Hpost). reflexivity.
  - intros Hnone. destruct (re_search_braces text) as [m|] eqn:Hm; [|reflexivity].
    destruct (search_gives_span _ Hm) as (pre & mid & post & Heq).
    destruct (Hnone _ _ _ Heq).
Qed.

(** C8. When the reply decodes to a JSON object, the object is the analysis
    as it is, and when its errors, warnings and suggestions are missing or
    have a length, the report is built: each field of the report is the value
    of its key in the object or, the key missing, its own default (0 for a
    score, the empty string for the summary, the empty list for a list), and
    the counter of a missing list is 0. *)
Theorem missing_keys_defaulted (n : nat) (code_content filename : str) (d : dict) :
  analyze_attempt n code_content filename = Ok (VDict d) ->
  sized_or_absent (py "errors") d = true ->
  sized_or_absent (py "warnings") d = true ->
  sized_or_absent (py "suggestions") d = true ->
  analyze_code n code_content filename = VDict d
  /\ exists report,
       generate_report (analyze_code n code_content filename) filename = Ok report
       /\ (forall key keys default,
              In (key, keys, default) report_sources ->
              field_at report keys = Ok (dict_get_or (py key) default d)
              /\ (dict_get (py key) d = None -> field_at report keys = Ok default))
       /\ (forall counter counted,
              In (counter, counted) report_counters ->
              dict_get (py counted) d = None ->
              field_at report [counted] = Ok (VList [])
              /\ field_at report counter = Ok (VInt 0)).
Proof.
  intros Hattempt He Hw Hs.
  assert (Hcode : analyze_code n code_content filename = VDict d)
    by (unfold analyze_code; rewrite Hattempt; reflexivity).
  split; [exact Hcode|]. rewrite Hcode.
  destruct (generate_report_returns d filename He Hw Hs) as [report Hreport].
  exists report. split; [exact Hreport|].
  destruct (generate_report_fields _ _ Hreport) as [Hfields Hcounters].
  split.
  - intros key keys default Hin. split; [apply Hfields, Hin|].
    intros Hmissing. rewrite (Hfields _ _ _ Hin).
    unfold dict_get_or. rewrite Hmissing. reflexivity.
  - intros counter counted Hin Hmissing.
    destruct (Hcounters _ _ Hin) as (k & Hk & Hlen).
    assert (Hfield : field_at report [counted] = Ok (VList [])).
    { destruct Hin as [Heq|[Heq|[Heq|[]]]]; injection Heq as <- <-.
      - rewrite (Hfields "errors"%string ["errors"%string] (VList []))
          by (cbn; tauto).
        unfold dict_get_or. rewrite Hmissing. reflexivity.
      - rewrite (Hfields "warnings"%string ["warnings"%string] (VList []))
          by (cbn; tauto).
        unfold dict_get_or. rewrite Hmissing. reflexivity.
      - rewrite (Hfields "suggestions"%string ["suggestions"%string] (VList []))
          by (cbn; tauto).
        unfold dict_get_or. rewrite Hmissing. reflexivity. }
    split; [exact Hfield|].
    unfold len_at in Hlen. rewrite Hfield in Hlen. cbn in Hlen.
    injection Hlen as <-. exact Hk.
Qed.

End Analyzer.

Section Ingestion.

Context {RT : Runtime}.

Lemma rsplit1_of_dotted (s : str) :
  str_contains dot s = true ->
  exists before after, str_rsplit1 dot s = [before; after].
Proof.
  unfold str_contains.
  induction s as [|c s IH]; cbn [existsb str_rsplit1]; [discriminate|].
  destruct (existsb (char_eqb dot) s) eqn:Hs.
  - intros _. destruct (IH eq_refl) as (before & after & ->).
    exists (c :: before), after. reflexivity.
  - rewrite orb_false_r. intros Hc.
    rewrite (rsplit1_no_sep dot s Hs).
    unfold char_eqb in *. rewrite N.eqb_sym, Hc.
    exists [], s. reflexivity.
Qed.

Lemma allowed_name_not_empty (filename : str) :
  allowed_file filename = true -> str_eqb filename [] = false.
Proof.
  destruct filename; [discriminate|reflexivity].
Qed.

(** A row whose [id] is above those of the table is found behind them. *)
Lemma find_after_older (older : list review_row) (row : review_row) (last : Z) :
  Forall (fun r => (row_id r <= last)%Z) older ->
  (row_id row =? last + 1)%Z = true ->
  find (fun r => (row_id r =? last + 1)%Z) (older ++ [row]) = Some row.
Proof.
  intros Holder Hrow. induction Holder as [|r older Hr _ IH]; cbn [app find].
  - rewrite Hrow. reflexivity.
  - destruct (Z.eqb_spec (row_id r) (last + 1)); [lia|exact IH].
Qed.

Lemma analyze_code_of_raise (n : nat) (code_content filename : str) (e : exn) :
  chat_completion n (prompt code_content filename) = Raised e ->
  analyze_code n code_content filename = fallback_analysis (exn_str e).
Proof. intros H. unfold analyze_code, analyze_attempt. rewrite H. reflexivity. Qed.

(** C1. When the call to the LLM service raises, [analyze_code] returns the
    fallback review (the four scores 0, every list empty, the summary telling
    the failure) and raises nothing; the single-file ingestion then answers
    200 with the identity of a new row, which holds the degraded report. The
    upload is one that reaches the call (its name is allowed and keeps its
    dot once secured) and whose row the database takes. *)
Theorem llm_failure_absorbed (file : upload) (w : world) (e : exn) :
  allowed_file (up_filename file) = true ->
  str_contains dot (saved_name file) = true ->
  chat_completion (llm_calls w) (prompt (saved_text file) (saved_name file))
    = Raised e ->
  stores_degraded file ->
  let analysis := analyze_code (llm_calls w) (saved_text file) (saved_name file) in
  let review_id := (last_rowid (db w) + 1)%Z in
  analysis = fallback_analysis (exn_str e)
  /\ (forall key keys default,
         In (key, keys, default) report_sources -> key <> "summary"%string ->
         field_at analysis [key] = Ok default)
  /\ field_at analysis ["summary"%string]
     = Ok (VStr (py "Error during analysis: " ++ exn_str e))
  /\ exists body report row w',
       review_code (Some file) w = (Completed body, w')
       /\ field_at body ["success"%string] = Ok (VBool true)
       /\ field_at body ["review_id"%string] = Ok (VInt review_id)
       /\ field_at body ["report"%string] = Ok report
       /\ db w' = {| rows := rows (db w) ++ [row]; last_rowid := review_id |}
       /\ row_id row = review_id
       /\ row_filename row = saved_name file
       /\ row_code_content row = saved_text file
       /\ row_review_report row = report
       /\ row_code_quality_score row = VInt 0
       /\ row_errors_found row = VInt 0
       /\ row_warnings_found row = VInt 0
       /\ row_suggestions_count row = VInt 0
       /\ (forall key keys default,
              In (key, keys, default) report_sources -> key <> "summary"%string ->
              field_at report keys = Ok default)
       /\ field_at report ["summary"%string]
          = Ok (VStr (py "Error during analysis: " ++ exn_str e))
       /\ (Forall (fun r => (row_id r <= last_rowid (db w))%Z) (rows (db w)) ->
           get_review_by_id review_id (db w') = Some row).
Proof.
  intros Hallowed Hdot Hraise Hstore. cbv zeta.
  pose proof (analyze_code_of_raise _ _ _ Hraise) as Hfb.
  rewrite Hfb.
  split; [reflexivity|].
  split.
  { intros key keys default Hin Hkey.
    repeat (destruct Hin as [Heq|Hin];
            [injection Heq as <- <- <-; first [reflexivity | contradiction]|]).
    destruct Hin. }
  split; [reflexivity|].
  destruct (rsplit1_of_dotted _ Hdot) as (before & after & Hsplit).
  unfold stores_degraded, file_type_of in Hstore. rewrite Hsplit in Hstore.
  unfold review_code.
  rewrite (allowed_name_not_empty _ Hallowed), Hallowed. cbn [negb].
  unfold review_code_try, mbind, lift, call_analyze_code, save_review.
  fold (saved_name file). fold (saved_text file).
  rewrite Hsplit. cbn [item1].
  rewrite calculate_code_metrics_eq. cbv zeta.
  rewrite Hfb.
  cbn -[bind_parameters prompt saved_name saved_text Z.add] in Hstore |- *.
  rewrite Hstore.
  do 4 eexists.
  split; [reflexivity|].
  do 3 (split; [reflexivity|]).
  split; [cbn [db]; reflexivity|].
  do 8 (split; [reflexivity|]).
  split.
  { intros key keys default Hin Hkey.
    repeat (destruct Hin as [Heq|Hin];
            [injection Heq as <- <- <-; first [reflexivity | contradiction]|]).
    destruct Hin. }
  split; [reflexivity|].
  intros Hfresh. unfold get_review_by_id. cbn [db rows].
  apply find_after_older; [exact Hfresh|].
  cbn [row_id]. apply Z.eqb_refl.
Qed.

End Ingestion.

Section Batch.

Context {RT : Runtime}.

(** Destructs the result the next step of a [try] block depends on. *)
Ltac next_step :=
  match goal with
  | |- context [match ?r with Ok _ => _ | Raise _ => _ end] =>
      destruct r eqn:?; cbn beta iota
  end.

(** A turn of the loop appends to the two lists it is given. *)
Lemma batch_step_appends (file : upload) (w w' : world)
    (results errors added failed : list value) :
  batch_step ([], [], w) file = (added, failed, w') ->
  batch_step (results, errors, w) file = (results ++ added, errors ++ failed, w').
Proof.
  unfold batch_step.
  destruct (str_truthy (up_filename file) && allowed_file (up_filename file)).
  - destruct (batch_review_try file w) as [[entry|e] w0];
      intros H; injection H as <- <- <-; rewrite ?app_nil_r; reflexivity.
  - intros H; injection H as <- <- <-; rewrite ?app_nil_r; reflexivity.
Qed.

(** A turn of the loop adds one entry, to [results] or to [errors]. *)
Lemma batch_step_adds_one (file : upload) (w w' : world)
    (added failed : list value) :
  batch_step ([], [], w) file = (added, failed, w') ->
  List.length added + List.length failed = 1.
Proof.
  unfold batch_step.
  destruct (str_truthy (up_filename file) && allowed_file (up_filename file)).
  - destruct (batch_review_try file w) as [[entry|e] w0];
      intros H; injection H as <- <- <-; reflexivity.
  - intros H; injection H as <- <- <-; reflexivity.
Qed.

Lemma batch_loop_cons (file : upload) (files : list upload) (st : batch_state) :
  batch_loop (file :: files) st = batch_loop files (batch_step st file).
Proof. reflexivity. Qed.

Lemma batch_loop_appends (files : list upload) :
  forall (w w' : world) (results errors added failed : list value),
    batch_loop files ([], [], w) = (added, failed, w') ->
    batch_loop files (results, errors, w)
    = (results ++ added, errors ++ failed, w').
Proof.
  induction files as [|file files IH]; intros w w' results errors added failed.
  - cbn. intros H; injection H as <- <- <-. rewrite !app_nil_r. reflexivity.
  - unfold batch_loop in *. cbn [fold_left].
    destruct (batch_step ([], [], w) file) as [[a1 f1] w1] eqn:Hstep.
    rewrite (@batch_step_appends _ _ _ results errors _ _ Hstep).
    destruct (fold_left batch_step files ([], [], w1)) as [[a2 f2] w2] eqn:Hrest.
    rewrite (IH _ _ a1 f1 _ _ Hrest).
    intros H; injection H as <- <- <-.
    rewrite (IH _ _ (results ++ a1) (errors ++ f1) _ _ Hrest).
    rewrite !app_assoc. reflexivity.
Qed.

(** The loop over two runs of files is the loop over the first, then the
    loop over the second in the state the first leaves. *)
Lemma batch_loop_app (first second : list upload) (w w1 w2 : world)
    (r1 e1 r2 e2 : list value) :
  batch_loop first ([], [], w) = (r1, e1, w1) ->
  batch_loop second ([], [], w1) = (r2, e2, w2) ->
  batch_loop (first ++ second) ([], [], w) = (r1 ++ r2, e1 ++ e2, w2).
Proof.
  intros H1 H2. unfold batch_loop in *. rewrite fold_left_app, H1.
  apply (@batch_loop_appends second _ _ r1 e1 _ _ H2).
Qed.

Lemma batch_loop_counts (files : list upload) :
  forall (w w' : world) (results errors : list value),
    batch_loop files ([], [], w) = (results, errors, w') ->
    List.length results + List.length errors = List.length files.
Proof.
  induction files as [|file files IH]; intros w w' results errors.
  - cbn. intros H; injection H as <- <- <-. reflexivity.
  - rewrite batch_loop_cons.
    destruct (batch_step ([], [], w) file) as [[a1 f1] w1] eqn:Hstep.
    destruct (batch_loop files ([], [], w1)) as [[a2 f2] w2] eqn:Hrest.
    rewrite (@batch_loop_appends files _ _ a1 f1 _ _ Hrest).
    intros H; injection H as <- <- <-.
    pose proof (@batch_step_adds_one _ _ _ _ _ Hstep).
    pose proof (IH _ _ _ _ Hrest).
    rewrite !length_app. cbn [List.length]. lia.
Qed.

(** An entry of [errors] holds the filename and the message, and nothing
    else. *)
Lemma error_entry_fields (filename message : str) :
  field_at (error_entry filename message) ["filename"%string] = Ok (VStr filename)
  /\ field_at (error_entry filename message) ["error"%string] = Ok (VStr message)
  /\ py_len (error_entry filename message) = Ok 2%Z.
Proof. split; [reflexivity|]. split; reflexivity. Qed.

(** A failing turn adds its entry to [errors] and nothing to [results]. *)
Lemma batch_failure_step (file : upload) (w w' : world) (msg : str) :
  batch_failure file w = Some (msg, w') ->
  batch_step ([], [], w) file = ([], [error_entry (up_filename file) msg], w').
Proof.
  unfold batch_failure, batch_step.
  destruct (str_truthy (up_filename file) && allowed_file (up_filename file)).
  - destruct (batch_review_try file w) as [[entry|e] w0]; [discriminate|].
    intros H; injection H as <- <-. reflexivity.
  - intros H; injection H as <- <-. reflexivity.
Qed.

(** An exception leaves the table as it was: nothing raises once the row is
    written. *)
Lemma batch_try_raise_keeps_db (file : upload) (w w' : world) (e : exn) :
  batch_review_try file w = (Raise e, w') -> db w' = db w.
Proof.
  unfold batch_review_try, mbind, lift, ret, call_analyze_code, save_review.
  cbn beta iota.
  repeat (next_step;
          [|intros H; injection H as _ <-; reflexivity]).
  discriminate.
Qed.

Lemma batch_failure_keeps_db (file : upload) (w w' : world) (msg : str) :
  batch_failure file w = Some (msg, w') -> db w' = db w.
Proof.
  unfold batch_failure.
  destruct (str_truthy (up_filename file) && allowed_file (up_filename file)).
  - destruct (batch_review_try file w) as [[entry|e] w0] eqn:Htry; [discriminate|].
    intros H; injection H as _ <-. apply (@batch_try_raise_keeps_db _ _ _ _ Htry).
  - intros H; injection H as _ <-. reflexivity.
Qed.

(** What [generate_report] returns is a dictionary of eleven keys, none of
    them [code_metrics] or [language]. *)
Lemma generate_report_keys (analysis : value) (filename : str) (report : value) :
  generate_report analysis filename = Ok report ->
  exists items,
    report = VDict items
    /\ dict_get (py "code_metrics") items = None
    /\ dict_get (py "language") items = None
    /\ List.length items = 11.
Proof.
  intros H. destruct (generate_report_needs_dict _ _ H) as [d ->].
  rewrite generate_report_dict in H.
  do 3 (match type of H with
        | context [py_len ?v] => destruct (py_len v); [|discriminate H]
        end; cbn [bind] in H).
  injection H as <-. eexists. split; [reflexivity|].
  repeat split; reflexivity.
Qed.

Lemma newest_of_appended (older : list review_row) (row : review_row)
    (last : Z) (calls : nat) :
  newest_report {| db := {| rows := older ++ [row]; last_rowid := last |};
                   llm_calls := calls |}
  = Some (row_review_report row).
Proof. unfold newest_report. cbn [db rows]. rewrite rev_unit. reflexivity. Qed.

(** The report a turn of the batch loop stores has no [code_metrics]. *)
Lemma batch_try_stores_no_metrics (file : upload) (w w' : world) (entry : value) :
  batch_review_try file w = (Ok entry, w') ->
  exists report,
    newest_report w' = Some report
    /\ field_at report ["language"%string]
       = Ok (VStr (detect_language (saved_name file)))
    /\ field_at report ["code_metrics"%string]
       = Raise (Exn KeyError (py "'code_metrics'")).
Proof.
  unfold batch_review_try, mbind, lift, ret, call_analyze_code, save_review.
  fold (saved_name file). fold (saved_text file). cbn beta iota.
  destruct (item1 _) as [ext|]; [|discriminate].
  destruct (generate_report _ _) as [report0|] eqn:Hgen; [|discriminate].
  destruct (generate_report_keys _ _ Hgen)
    as (items & -> & Hmetrics & Hlanguage & _).
  cbn [py_setitem].
  repeat (next_step; [|discriminate]).
  intros H. injection H as _ <-.
  eexists. split; [apply newest_of_appended|].
  cbn [row_review_report field_at py_getitem bind].
  split.
  - rewrite dict_get_set_same. reflexivity.
  - rewrite (@dict_get_set_other (py "code_metrics") (py "language") _ items None
               Hmetrics) by discriminate.
    reflexivity.
Qed.

(** The report the single endpoint stores has them. *)
Lemma review_try_stores_metrics (file : upload) (w w' : world) (body : value) :
  review_code_try file w = (Ok body, w') ->
  exists report m,
    newest_report w' = Some report
    /\ calculate_code_metrics (saved_text file) = Ok m
    /\ field_at report ["code_metrics"%string] = Ok (metrics_dict m).
Proof.
  unfold review_code_try, mbind, lift, ret, call_analyze_code, save_review.
  fold (saved_name file). fold (saved_text file). cbn beta iota.
  destruct (item1 _) as [ext|]; [|discriminate].
  destruct (calculate_code_metrics (saved_text file)) as [m|]; [|discriminate].
  destruct (generate_report _ _) as [report0|] eqn:Hgen; [|discriminate].
  destruct (generate_report_keys _ _ Hgen)
    as (items & -> & Hmetrics & Hlanguage & _).
  cbn [py_setitem].
  repeat (next_step; [|discriminate]).
  intros H. injection H as _ <-.
  exists (VDict (dict_set (py "language")
                   (VStr (detect_language (saved_name file)))
                   (dict_set (py "code_metrics") (metrics_dict m) items))), m.
  split; [apply newest_of_appended|]. split; [reflexivity|].
  cbn [field_at py_getitem bind].
  rewrite (@dict_get_set_other (py "code_metrics") (py "language") _ _
             (Some (metrics_dict m))
             (dict_get_set_same (py "code_metrics") (metrics_dict m) items))
    by discriminate.
  reflexivity.
Qed.

(** C7. A file the loop cannot ingest, because its name is not allowed or
    because its [try] block raises, adds one entry to [errors], whose two
    keys hold the filename of the upload and the message, and nothing to
    [results] or to the table; the
    loop goes on with the files behind it, and the call answers 200 with the
    entries of the other files around that one. When the name is not allowed
    the state is untouched, so the results, the other errors and the final
    state are those of the batch without the file. *)
Theorem batch_failure_isolated (pre post : list upload) (bad : upload)
    (w w1 w1' w2 : world) (r1 e1 r2 e2 : list value) (msg : str) :
  batch_loop pre ([], [], w) = (r1, e1, w1) ->
  batch_failure bad w1 = Some (msg, w1') ->
  batch_loop post ([], [], w1') = (r2, e2, w2) ->
  let results := r1 ++ r2 in
  let failure := error_entry (up_filename bad) msg in
  let errors := e1 ++ failure :: e2 in
  batch_review (Some (pre ++ bad :: post)) w
  = (Completed
       (VDict [(py "success", VBool true);
               (py "results", VList results);
               (py "errors", VList errors);
               (py "total", VInt (Z.of_nat (List.length results)));
               (py "failed", VInt (Z.of_nat (List.length errors)))]),
     w2)
  /\ field_at failure ["filename"%string] = Ok (VStr (up_filename bad))
  /\ field_at failure ["error"%string] = Ok (VStr msg)
  /\ py_len failure = Ok 2%Z
  /\ List.length results + List.length errors = S (List.length pre + List.length post)
  /\ db w1' = db w1
  /\ (str_truthy (up_filename bad) && allowed_file (up_filename bad) = false ->
      msg = py "File type not allowed"
      /\ w1' = w1
      /\ batch_loop (pre ++ post) ([], [], w) = (r1 ++ r2, e1 ++ e2, w2))
  /\ (forall e w', batch_review_try bad w1 = (Raise e, w') ->
      str_truthy (up_filename bad) && allowed_file (up_filename bad) = true ->
      msg = exn_str e /\ w1' = w').
Proof.
  intros Hpre Hbad Hpost. cbv zeta.
  pose proof (@batch_failure_step _ _ _ _ Hbad) as Hstep.
  assert (Hloop : batch_loop (pre ++ bad :: post) ([], [], w)
                  = (r1 ++ r2, e1 ++ error_entry (up_filename bad) msg :: e2, w2)).
  { apply (@batch_loop_app pre (bad :: post) w w1 w2 r1 e1 r2
             (error_entry (up_filename bad) msg :: e2) Hpre).
    rewrite batch_loop_cons, Hstep.
    apply (@batch_loop_appends post w1' w2 [] [error_entry (up_filename bad) msg]
             r2 e2 Hpost). }
  destruct (error_entry_fields (up_filename bad) msg) as (Hname & Hmsg & Hkeys).
  split; [|split; [exact Hname|split; [exact Hmsg|split; [exact Hkeys|]]]];
    [|split; [|split; [|split]]].
  - unfold batch_review. rewrite Hloop.
    destruct pre; reflexivity.
  - rewrite (@batch_loop_counts _ _ _ _ _ Hloop), length_app.
    cbn [List.length]. lia.
  - apply (@batch_failure_keeps_db _ _ _ _ Hbad).
  - intros Hno. unfold batch_failure in Hbad. rewrite Hno in Hbad.
    injection Hbad as <- <-.
    split; [reflexivity|]. split; [reflexivity|].
    apply (@batch_loop_app pre post w w1 w2 r1 e1 r2 e2 Hpre Hpost).
  - intros e w' Htry Hyes. unfold batch_failure in Hbad.
    rewrite Hyes, Htry in Hbad. injection Hbad as <- <-. split; reflexivity.
Qed.

End Batch.

(** ** The scenarios, run on the reference runtime *)

(** C1 at work: the service is down, and the upload [a.py] is stored as
    review 1 with the degraded report. *)
Lemma llm_failure_absorbed_witness :
  exists body report row w',
    review_code (RT := reference_runtime service_down) (Some one_liner) empty_world
    = (Completed body, w')
    /\ field_at body ["review_id"%string] = Ok (VInt 1)
    /\ field_at body ["report"%string] = Ok report
    /\ rows (db w') = [row]
    /\ row_id row = 1%Z
    /\ row_review_report row = report
    /\ field_at report ["overall_score"%string] = Ok (VInt 0)
    /\ field_at report ["errors"%string] = Ok (VList [])
    /\ field_at report ["summary"%string]
       = Ok (VStr (py "Error during analysis: Connection error.")).
Proof.
  destruct (@llm_failure_absorbed (reference_runtime service_down) one_liner
              empty_world connection_error eq_refl eq_refl eq_refl eq_refl)
    as (_ & _ & _ & body & report & row & w' & Hrun & _ & Hid & Hreport & Hdb
        & Hrow & _ & _ & Hstored & _ & _ & _ & _ & Hfields & Hsummary & _).
  exists body, report, row, w'.
  split; [exact Hrun|]. split; [exact Hid|]. split; [exact Hreport|].
  split; [rewrite Hdb; reflexivity|]. split; [exact Hrow|].
  split; [exact Hstored|].
  split; [apply (Hfields "overall_quality_score"%string); [cbn; tauto|discriminate]|].
  split; [apply (Hfields "errors"%string); [cbn; tauto|discriminate]|].
  exact Hsummary.
Defined.

(** C2, as stated, does not hold on the reply ["{x}"]: its span [{x}] does
    not parse and the reply is not parsed next, though it is a JSON string;
    the analysis is the fallback review. *)
Lemma second_attempt_not_made :
  extract_analysis (RT := reference_runtime (service_saying quoted_braces))
    (Some quoted_braces)
  <> extract_with_second_attempt
       (RT := reference_runtime (service_saying quoted_braces))
       (Some quoted_braces).
Proof. vm_compute. intros H. discriminate H. Qed.

(** What the two extractions give on that reply. *)
Example quoted_braces_extractions :
  extract_with_second_attempt
    (RT := reference_runtime (service_saying quoted_braces)) (Some quoted_braces)
  = Ok (VStr (py "{x}"))
  /\ analyze_code (RT := reference_runtime (service_saying quoted_braces)) 0
       (py "x = 1") (py "a.py")
     = fallback_analysis
         (py "Expecting property name enclosed in double quotes: line 1 column 2 (char 1)").
Proof. split; vm_compute; reflexivity. Qed.

Lemma no_lbrace_no_span (text : str) :
  str_contains lbrace text = false ->
  forall pre mid post : str, text <> pre ++ lbrace :: mid ++ rbrace :: post.
Proof.
  intros H pre mid post ->. rewrite contains_app in H.
  apply orb_false_iff in H as [_ H]. discriminate H.
Qed.

(** C2 at work: the object inside the prose is the analysis, and a reply
    without braces is parsed whole. *)
Lemma brace_span_parsed_alone_witness :
  analyze_code (RT := reference_runtime (service_saying partial_reply)) 0
    (py "x = 1") (py "a.py")
  = VDict [(py "overall_quality_score", VInt 80); (py "summary", VStr (py "fine"))]
  /\ analyze_code (RT := reference_runtime (service_saying (py "42"))) 0
       (py "x = 1") (py "a.py")
     = VInt 42.
Proof.
  split.
  - rewrite (proj1 (@brace_span_parsed_alone
                      (reference_runtime (service_saying partial_reply)) 0
                      (py "x = 1") (py "a.py") partial_reply eq_refl)
               (py "Here is my review: ") partial_payload (py " Hope it helps.")
               eq_refl eq_refl eq_refl).
    vm_compute. reflexivity.
  - rewrite (proj2 (@brace_span_parsed_alone
                      (reference_runtime (service_saying (py "42"))) 0
                      (py "x = 1") (py "a.py") (py "42") eq_refl)
               (@no_lbrace_no_span (py "42") eq_refl)).
    vm_compute. reflexivity.
Defined.

(** C8 at work: the object of [partial_reply] has no [errors] key and no
    sub-score; the report has an empty list, a counter 0 and scores 0 for
    them, and the score the object gives. *)
Lemma missing_keys_defaulted_witness :
  exists report,
    generate_report
      (analyze_code (RT := reference_runtime (service_saying partial_reply)) 0
         (py "x = 1") (py "a.py"))
      (py "a.py")
    = Ok report
    /\ field_at report ["errors"%string] = Ok (VList [])
    /\ field_at report ["metrics"; "total_errors"]%string = Ok (VInt 0)
    /\ field_at report ["detailed_scores"; "readability"]%string = Ok (VInt 0)
    /\ field_at report ["overall_score"%string] = Ok (VInt 80).
Proof.
  destruct (@missing_keys_defaulted
              (reference_runtime (service_saying partial_reply)) 0
              (py "x = 1") (py "a.py")
              [(py "overall_quality_score", VInt 80); (py "summary", VStr (py "fine"))]
              eq_refl eq_refl eq_refl eq_refl)
    as (_ & report & Hreport & Hsources & Hcounters).
  exists report. split; [exact Hreport|].
  assert (Hin : In (["metrics"; "total_errors"], "errors")%string report_counters)
    by (cbn; tauto).
  destruct (Hcounters _ _ Hin eq_refl) as [Herrors Hcounter].
  split; [exact Herrors|]. split; [exact Hcounter|].
  split.
  - refine (proj2 (Hsources "readability_score"%string
                     ["detailed_scores"; "readability"]%string (VInt 0) _) eq_refl).
    cbn; tauto.
  - refine (proj1 (Hsources "overall_quality_score"%string
                     ["overall_score"%string] (VInt 0) _)).
    cbn; tauto.
Defined.

(** C7 at work: of the three files the second is refused; the other two are
    stored as reviews 1 and 2, as they are when uploaded without it. *)
Lemma batch_failure_isolated_witness :
  exists first third failure w',
    batch_review (RT := reference_runtime (service_saying partial_reply))
      (Some three_files) empty_world
    = (Completed
         (VDict [(py "success", VBool true);
                 (py "results", VList [first; third]);
                 (py "errors", VList [failure]);
                 (py "total", VInt 2);
                 (py "failed", VInt 1)]),
       w')
    /\ field_at failure ["filename"%string] = Ok (VStr (py "notes.txt"))
    /\ field_at failure ["error"%string] = Ok (VStr (py "File type not allowed"))
    /\ py_len failure = Ok 2%Z
    /\ field_at first ["filename"%string] = Ok (VStr (py "one.py"))
    /\ field_at first ["review_id"%string] = Ok (VInt 1)
    /\ field_at third ["filename"%string] = Ok (VStr (py "two.js"))
    /\ field_at third ["review_id"%string] = Ok (VInt 2)
    /\ List.length (rows (db w')) = 2
    /\ batch_loop (RT := reference_runtime (service_saying partial_reply))
         [upload_of "one.py" "x = 1"; upload_of "two.js" "let y = 2;"]
         ([], [], empty_world)
       = ([first; third], [], w').
Proof.
  pose (rt := reference_runtime (service_saying partial_reply)).
  pose (one := upload_of "one.py" "x = 1").
  pose (two := upload_of "two.js" "let y = 2;").
  pose (notes := upload_of "notes.txt" "hello").
  let st1 := eval vm_compute in (batch_loop (RT := rt) [one] ([], [], empty_world)) in
  lazymatch st1 with
  | (?r1, ?e1, ?w1) =>
      let st2 := eval vm_compute in (batch_loop (RT := rt) [two] ([], [], w1)) in
      lazymatch st2 with
      | (?r2, ?e2, ?w2) =>
          assert (H1 : batch_loop (RT := rt) [one] ([], [], empty_world) = (r1, e1, w1))
            by (vm_compute; reflexivity);
          assert (H2 : batch_failure (RT := rt) notes w1
                       = Some (py "File type not allowed", w1))
            by (vm_compute; reflexivity);
          assert (H3 : batch_loop (RT := rt) [two] ([], [], w1) = (r2, e2, w2))
            by (vm_compute; reflexivity);
          pose proof (@batch_failure_isolated rt [one] [two] notes empty_world
                        w1 w1 w2 r1 e1 r2 e2 (py "File type not allowed")
                        H1 H2 H3) as H
      end
  end.
  cbv zeta in H.
  destruct H as (Hrun & Hname & Hmsg & Hkeys & _ & _ & Hwithout & _).
  destruct (Hwithout eq_refl) as (_ & _ & Hloop).
  do 4 eexists.
  split; [exact Hrun|].
  split; [exact Hname|]. split; [exact Hmsg|]. split; [exact Hkeys|].
  do 5 (split; [reflexivity|]).
  exact Hloop.
Defined.

(** C6 on a batch of one Python file. Uploaded alone, the file is stored
    with its [code_metrics] and its [language]; uploaded in a batch, it is
    stored with its [language] only: the stored report has no [code_metrics]
    key. *)
Theorem batch_report_lacks_code_metrics :
  (exists body w' report,
      review_code (RT := reference_runtime (service_saying partial_reply))
        (Some one_liner) empty_world = (Completed body, w')
      /\ newest_report w' = Some report
      /\ field_at report ["language"%string] = Ok (VStr (py "Python"))
      /\ field_at report ["code_metrics"; "total_lines"]%string = Ok (VInt 2))
  /\ (exists body w' report,
         batch_review (RT := reference_runtime (service_saying partial_reply))
           (Some [one_liner]) empty_world = (Completed body, w')
         /\ field_at body ["total"%string] = Ok (VInt 1)
         /\ field_at body ["failed"%string] = Ok (VInt 0)
         /\ newest_report w' = Some report
         /\ field_at report ["language"%string] = Ok (VStr (py "Python"))
         /\ field_at report ["code_metrics"%string]
            = Raise (Exn KeyError (py "'code_metrics'"))).
Proof.
  split.
  - do 3 eexists. split; [vm_compute; reflexivity|].
    split; [vm_compute; reflexivity|]. split; vm_compute; reflexivity.
  - do 3 eexists. split; [vm_compute; reflexivity|].
    split; [vm_compute; reflexivity|]. split; [vm_compute; reflexivity|].
    split; [vm_compute; reflexivity|]. split; vm_compute; reflexivity.
Qed.

(** C10 at work: [Makefile] is refused by both endpoints, [main.PY] and
    [Main.Scala] are accepted. *)
Lemma extension_check_witness :
  review_code (RT := reference_runtime service_down)
    (Some (upload_of "Makefile" "all:")) empty_world
  = (Rejected FileTypeNotAllowed, empty_world)
  /\ batch_step (RT := reference_runtime service_down) ([], [], empty_world)
       (upload_of "Makefile" "all:")
     = ([], [error_entry (py "Makefile") (py "File type not allowed")], empty_world)
  /\ allowed_file (RT := reference_runtime service_down) (py "main.PY") = true
  /\ allowed_file (RT := reference_runtime service_down) (py "Main.Scala") = true.
Proof.
  destruct (@extension_check (reference_runtime service_down)) as [Hnodot Hcase].
  destruct (Hnodot (upload_of "Makefile" "all:") empty_world eq_refl)
    as (_ & Hsingle & Hbatch).
  split; [apply Hsingle; discriminate|].
  split; [apply (Hbatch [] [])|].
  split.
  - apply (Hcase (py "main") (py "PY")); reflexivity.
  - apply (Hcase (py "Main") (py "Scala")); reflexivity.
Defined.

(** * Further properties of the code *)

Section MoreMetrics.

Lemma split_not_empty (sep : char) (s : str) : str_split sep s <> [].
Proof.
  destruct s as [|c s]; cbn [str_split]; [discriminate|].
  destruct (char_eqb c sep); [discriminate|].
  destruct (str_split sep s); discriminate.
Qed.

Lemma split_length (sep : char) (s : str) :
  List.length (str_split sep s) = S (List.length (filter (char_eqb sep) s)).
Proof.
  induction s as [|c s IH]; [reflexivity|].
  cbn [str_split filter].
  replace (char_eqb sep c) with (char_eqb c sep) by apply N.eqb_sym.
  destruct (char_eqb c sep).
  - cbn [List.length]. rewrite IH. reflexivity.
  - destruct (str_split sep s) as [|piece pieces] eqn:E.
    + destruct (split_not_empty _ _ E).
    + cbn [List.length] in *. exact IH.
Qed.

(** The pieces of a text that ends with the separator end with an empty
    piece. *)
Lemma split_trailing (sep : char) (s : str) :
  str_split sep (s ++ [sep]) = str_split sep s ++ [[]].
Proof.
  induction s as [|c s IH]; cbn [app str_split].
  - unfold char_eqb. rewrite N.eqb_refl. reflexivity.
  - rewrite IH. destruct (char_eqb c sep); [reflexivity|].
    destruct (str_split sep s) as [|piece pieces] eqn:E; [|reflexivity].
    destruct (split_not_empty _ _ E).
Qed.

(** X1. [total_lines] is one more than the number of newline characters of
    the text, so it is never 0; and a text that is empty or ends with a
    newline has a last line that is blank, so its [blank_lines] is not 0. *)
Theorem total_lines_counts_newlines (text : str) :
  exists m,
    calculate_code_metrics text = Ok m
    /\ total_lines m = S (newlines text)
    /\ (forall body, text = body ++ [newline] ->
        1 <= blank_lines m /\ total_lines m = S (S (newlines body)))
    /\ (text = [] -> blank_lines m = 1 /\ total_lines m = 1).
Proof.
  eexists. split; [apply calculate_code_metrics_eq|].
  cbn [total_lines blank_lines].
  split; [apply split_length|]. split.
  - intros body ->. rewrite split_trailing. split.
    + rewrite filter_app, length_app. cbn. lia.
    + rewrite length_app, split_length. unfold newlines. cbn. lia.
  - intros ->. split; reflexivity.
Qed.

End MoreMetrics.

Section MoreHelpers.

Context {RT : Runtime}.

Lemma allowed_extension_has_language (ext : str) :
  str_in ext ALLOWED_EXTENSIONS = true ->
  exists lang, lookup ext ext_to_lang = Some lang /\ lang <> py "Unknown".
Proof.
  unfold str_in. intros H. apply existsb_exists in H as (x & Hin & Heq).
  apply str_eqb_eq in Heq. subst x.
  repeat (destruct Hin as [<-|Hin];
          [eexists; split; [reflexivity|discriminate]|]).
  destruct Hin.
Qed.

(** X2. Every filename [allowed_file] accepts has a language of the table:
    [detect_language] never answers "Unknown" for it, and the language is
    the one listed for its lower-cased extension, which is an allowed one. *)
Theorem allowed_file_has_language (filename : str) :
  allowed_file filename = true ->
  detect_language filename <> py "Unknown"
  /\ lookup (file_type_of filename) ext_to_lang = Some (detect_language filename)
  /\ str_in (file_type_of filename) ALLOWED_EXTENSIONS = true.
Proof.
  unfold allowed_file, detect_language, file_type_of.
  intros H. apply andb_true_iff in H as [Hdot Hext]. rewrite Hdot.
  destruct (str_rsplit1 dot filename) as [|before [|ext rest]];
    try discriminate Hext.
  destruct (allowed_extension_has_language _ Hext) as (lang & -> & Hlang).
  repeat split; assumption.
Qed.

Lemma no_dot_no_language (filename : str) :
  str_contains dot filename = false -> detect_language filename = py "Unknown".
Proof. intros H. unfold detect_language. rewrite H. reflexivity. Qed.

(** X3. A report has the same eleven keys, in the same order, whatever the
    analysis holds, and its filename is the one given; the keys of the
    analysis outside the eleven it reads never reach the report: two
    analyses that agree on those give the same report. *)
Theorem report_reads_eleven_keys :
  (forall (analysis : value) (filename : str) (report : value),
      generate_report analysis filename = Ok report ->
      exists items,
        report = VDict items
        /\ map fst items = report_keys
        /\ field_at report ["filename"%string] = Ok (VStr filename))
  /\ (forall (d1 d2 : dict) (filename : str),
         (forall key keys default,
             In (key, keys, default) report_sources ->
             dict_get (py key) d1 = dict_get (py key) d2) ->
         generate_report (VDict d1) filename = generate_report (VDict d2) filename).
Proof.
  split.
  - intros analysis filename report H.
    destruct (generate_report_needs_dict _ _ H) as [d ->].
    rewrite generate_report_dict in H.
    do 3 (match type of H with
          | context [py_len ?v] => destruct (py_len v); [|discriminate H]
          end; cbn [bind] in H).
    injection H as <-. eexists. split; [reflexivity|]. split; reflexivity.
  - intros d1 d2 filename Hsame.
    rewrite !generate_report_dict. unfold dict_get_or.
    rewrite (Hsame "overall_quality_score" ["overall_score"] (VInt 0))%string
      by (cbn; tauto).
    rewrite (Hsame "summary" ["summary"] (VStr []))%string by (cbn; tauto).
    rewrite (Hsame "readability_score" ["detailed_scores"; "readability"] (VInt 0))%string
      by (cbn; tauto).
    rewrite (Hsame "modularity_score" ["detailed_scores"; "modularity"] (VInt 0))%string
      by (cbn; tauto).
    rewrite (Hsame "best_practices_score" ["detailed_scores"; "best_practices"]
               (VInt 0))%string by (cbn; tauto).
    rewrite (Hsame "errors" ["errors"] (VList []))%string by (cbn; tauto).
    rewrite (Hsame "warnings" ["warnings"] (VList []))%string by (cbn; tauto).
    rewrite (Hsame "suggestions" ["suggestions"] (VList []))%string by (cbn; tauto).
    rewrite (Hsame "strengths" ["strengths"] (VList []))%string by (cbn; tauto).
    rewrite (Hsame "security_concerns" ["security_concerns"] (VList []))%string
      by (cbn; tauto).
    rewrite (Hsame "performance_notes" ["performance_notes"] (VList []))%string
      by (cbn; tauto).
    reflexivity.
Qed.

End MoreHelpers.

Section MoreStorage.

Context {RT : Runtime}.

Lemma sorted_snoc (l : list Z) (x : Z) :
  StronglySorted Z.lt l -> Forall (fun i => (i < x)%Z) l ->
  StronglySorted Z.lt (l ++ [x]).
Proof.
  intros Hsorted Hbelow. induction Hsorted as [|a l Hl IH Ha]; cbn [app].
  - constructor; constructor.
  - inversion Hbelow as [|? ? Hax Hlx]; subst.
    constructor; [apply IH, Hlx|].
    apply Forall_app. split; [exact Ha|]. constructor; [exact Hax|constructor].
Qed.

(** Appending a row under the next identity keeps the table ordered. *)
Lemma ordered_after_insert (older : list review_row) (row : review_row) (last : Z) :
  db_ordered {| rows := older; last_rowid := last |} ->
  row_id row = (last + 1)%Z ->
  db_ordered {| rows := older ++ [row]; last_rowid := (last + 1)%Z |}.
Proof.
  unfold db_ordered, ids. cbn [rows last_rowid].
  intros (Hsorted & Hrange & Hlast) Hid.
  rewrite map_app. cbn [map]. rewrite Hid. split; [|split].
  - apply sorted_snoc; [exact Hsorted|].
    eapply Forall_impl; [|exact Hrange]. cbv beta. intros; lia.
  - apply Forall_app. split.
    + eapply Forall_impl; [|exact Hrange]. cbv beta. intros; lia.
    + constructor; [lia|constructor].
  - lia.
Qed.

Lemma sorted_filter (keep : review_row -> bool) (older : list review_row) :
  StronglySorted Z.lt (map row_id older) ->
  StronglySorted Z.lt (map row_id (filter keep older)).
Proof.
  induction older as [|r older IH]; cbn [map filter]; [trivial|].
  intros H. inversion H as [|? ? Hrest Hr]; subst.
  destruct (keep r); cbn [map]; [|apply IH, Hrest].
  constructor; [apply IH, Hrest|].
  apply Forall_forall. intros i Hi. apply in_map_iff in Hi as (r' & <- & Hin).
  apply filter_In in Hin as [Hin _].
  rewrite Forall_forall in Hr. apply Hr, in_map, Hin.
Qed.

Lemma range_filter (keep : review_row -> bool) (older : list review_row) (last : Z) :
  Forall (fun i => (1 <= i <= last)%Z) (map row_id older) ->
  Forall (fun i => (1 <= i <= last)%Z) (map row_id (filter keep older)).
Proof.
  rewrite !Forall_forall. intros H i Hi.
  apply in_map_iff in Hi as (r & <- & Hin).
  apply filter_In in Hin as [Hin _]. apply H, in_map, Hin.
Qed.

(** Looking up an identity above those of the table finds nothing. *)
Lemma find_above (older : list review_row) (last review_id : Z) :
  Forall (fun i => (1 <= i <= last)%Z) (map row_id older) ->
  (last < review_id)%Z ->
  find (fun r => (row_id r =? review_id)%Z) older = None.
Proof.
  induction older as [|r older IH]; cbn [map find]; [reflexivity|].
  intros H Habove. inversion H as [|? ? Hr Hrest]; subst.
  destruct (Z.eqb_spec (row_id r) review_id); [lia|]. apply IH; assumption.
Qed.

Lemma find_snoc_other (older : list review_row) (row : review_row) (j : Z) :
  row_id row <> j ->
  find (fun r => (row_id r =? j)%Z) (older ++ [row])
  = find (fun r => (row_id r =? j)%Z) older.
Proof.
  intros Hj. induction older as [|r older IH]; cbn [app find].
  - destruct (Z.eqb_spec (row_id row) j); [contradiction|reflexivity].
  - destruct (row_id r =? j)%Z; [reflexivity|exact IH].
Qed.

Lemma find_filter_other (older : list review_row) (review_id j : Z) :
  j <> review_id ->
  find (fun r => (row_id r =? j)%Z)
    (filter (fun r => negb (row_id r =? review_id)%Z) older)
  = find (fun r => (row_id r =? j)%Z) older.
Proof.
  intros Hj. induction older as [|r older IH]; cbn [filter find]; [reflexivity|].
  destruct (Z.eqb_spec (row_id r) review_id) as [Hr|Hr]; cbn [negb find].
  - destruct (Z.eqb_spec (row_id r) j); [lia|exact IH].
  - destruct (row_id r =? j)%Z; [reflexivity|exact IH].
Qed.

Lemma find_filter_same (older : list review_row) (review_id : Z) :
  find (fun r => (row_id r =? review_id)%Z)
    (filter (fun r => negb (row_id r =? review_id)%Z) older)
  = None.
Proof.
  induction older as [|r older IH]; cbn [filter find]; [reflexivity|].
  destruct (Z.eqb_spec (row_id r) review_id) as [Hr|Hr]; cbn [negb find];
    [exact IH|].
  destruct (Z.eqb_spec (row_id r) review_id); [contradiction|exact IH].
Qed.

(** What a successful [save_review] does to the state. *)
Lemma save_review_ok (filename file_type : str) (file_size : Z) (code_content : str)
    (review_report errors_found warnings_found suggestions_count quality_score : value)
    (w w' : world) (review_id : Z) :
  save_review filename file_type file_size code_content review_report
    errors_found warnings_found suggestions_count quality_score w
  = (Ok review_id, w') ->
  review_id = (last_rowid (db w) + 1)%Z
  /\ w' = {| db := {| rows := rows (db w) ++
                        [{| row_id := review_id;
                            row_filename := filename;
                            row_file_type := file_type;
                            row_file_size := file_size;
                            row_code_content := code_content;
                            row_review_report := review_report;
                            row_errors_found := integer_column errors_found;
                            row_warnings_found := integer_column warnings_found;
                            row_suggestions_count :=
                              integer_column suggestions_count;
                            row_code_quality_score :=
                              integer_column quality_score |}];
                      last_rowid := review_id |};
             llm_calls := llm_calls w |}.
Proof.
  unfold save_review. destruct (bind_parameters _); [|discriminate].
  intros H. injection H as <- <-. split; reflexivity.
Qed.

(** X4. A review that [save_review] stores, its counters and score being
    integers, is the one [get_review_by_id] returns for the identity it was
    given; the identity is one more than the largest given before, it was
    not in use, the other identities still lead to the rows they led to, and
    the table stays ordered. *)
Theorem saved_review_is_found (filename file_type : str) (file_size : Z)
    (code_content : str) (review_report : value)
    (errors_found warnings_found suggestions_count quality_score : Z)
    (w w' : world) (review_id : Z) :
  db_ordered (db w) ->
  save_review filename file_type file_size code_content review_report
    (VInt errors_found) (VInt warnings_found) (VInt suggestions_count)
    (VInt quality_score) w
  = (Ok review_id, w') ->
  review_id = (last_rowid (db w) + 1)%Z
  /\ get_review_by_id review_id (db w) = None
  /\ get_review_by_id review_id (db w')
     = Some {| row_id := review_id;
               row_filename := filename;
               row_file_type := file_type;
               row_file_size := file_size;
               row_code_content := code_content;
               row_review_report := review_report;
               row_errors_found := VInt errors_found;
               row_warnings_found := VInt warnings_found;
               row_suggestions_count := VInt suggestions_count;
               row_code_quality_score := VInt quality_score |}
  /\ (forall j, j <> review_id ->
        get_review_by_id j (db w') = get_review_by_id j (db w))
  /\ db_ordered (db w')
  /\ llm_calls w' = llm_calls w.
Proof.
  intros Hordered Hsave.
  destruct (save_review_ok _ _ _ _ _ _ _ _ _ _ Hsave) as [Hid ->].
  destruct Hordered as (Hsorted & Hrange & Hlast).
  unfold get_review_by_id. cbn [db rows last_rowid llm_calls integer_column].
  split; [exact Hid|]. split.
  { apply (find_above _ Hrange). lia. }
  split.
  { subst review_id. apply find_after_older.
    - unfold ids in Hrange. rewrite Forall_map in Hrange.
      eapply Forall_impl; [|exact Hrange]. cbv beta. intros; lia.
    - cbn [row_id]. apply Z.eqb_refl. }
  split.
  { intros j Hj. apply find_snoc_other. cbn [row_id]. congruence. }
  split; [|reflexivity].
  subst review_id. destruct (db w) as [older last] eqn:Hdb.
  apply ordered_after_insert; [|reflexivity].
  repeat split; assumption.
Qed.

End MoreStorage.

Section MoreDeleting.

Context {RT : Runtime}.

Lemma found_row_has_id (review_id : Z) (d : database) (row : review_row) :
  get_review_by_id review_id d = Some row ->
  In row (rows d) /\ row_id row = review_id.
Proof.
  unfold get_review_by_id. intros H. apply find_some in H as [Hin Hid].
  split; [exact Hin|]. apply Z.eqb_eq, Hid.
Qed.

(** The first facts of a deletion, for the proofs that delete twice. *)
Lemma delete_removes_the_review_facts (review_id : Z) (w w' : world) (deleted : bool) :
  delete_review_by_id review_id w = (Ok deleted, w') ->
  (deleted = true <-> get_review_by_id review_id (db w) <> None)
  /\ get_review_by_id review_id (db w') = None
  /\ (deleted = false -> w' = w).
Proof.
  unfold delete_review_by_id.
  destruct (sqlite_bind_error 1 (VInt review_id)); [discriminate|].
  destruct (get_review_by_id review_id (db w)) as [row|] eqn:Hfound.
  - intros H. injection H as <- <-. cbn [db rows].
    unfold get_review_by_id. cbn [rows].
    split; [split; [discriminate|reflexivity]|].
    split; [apply find_filter_same|discriminate].
  - intros H. injection H as <- <-.
    split; [split; [discriminate|intros Hno; contradiction]|].
    split; [exact Hfound|reflexivity].
Qed.

(** X5. [delete_review_by_id] answers [True] exactly when a row has the
    identity; afterwards no row has it, every other identity leads to the
    row it led to, and an identity that was missing leaves the state as it
    was. The largest identity given so far is kept, so on an ordered table a
    review stored later never gets the identity just deleted. *)
Theorem delete_removes_the_review (review_id : Z) (w w' : world) (deleted : bool) :
  delete_review_by_id review_id w = (Ok deleted, w') ->
  (deleted = true <-> get_review_by_id review_id (db w) <> None)
  /\ get_review_by_id review_id (db w') = None
  /\ (forall j, j <> review_id ->
        get_review_by_id j (db w') = get_review_by_id j (db w))
  /\ last_rowid (db w') = last_rowid (db w)
  /\ (deleted = false -> w' = w)
  /\ (db_ordered (db w) ->
      db_ordered (db w')
      /\ (deleted = true ->
          forall filename file_type file_size code_content review_report
                 errors_found warnings_found suggestions_count quality_score
                 next w'',
            save_review filename file_type file_size code_content review_report
              errors_found warnings_found suggestions_count quality_score w'
            = (Ok next, w'') ->
            (review_id < next)%Z)).
Proof.
  unfold delete_review_by_id.
  destruct (sqlite_bind_error 1 (VInt review_id)); [discriminate|].
  destruct (get_review_by_id review_id (db w)) as [row|] eqn:Hfound.
  - intros H. injection H as <- <-. cbn [db rows last_rowid].
    unfold get_review_by_id. cbn [rows].
    split; [split; [discriminate|reflexivity]|].
    split; [apply find_filter_same|].
    split; [intros j Hj; apply find_filter_other, Hj|].
    split; [reflexivity|]. split; [discriminate|].
    intros (Hsorted & Hrange & Hlast). split.
    + unfold db_ordered, ids. cbn [rows last_rowid].
      split; [apply sorted_filter, Hsorted|].
      split; [apply range_filter, Hrange|exact Hlast].
    + intros _ filename file_type file_size code_content review_report
        errors_found warnings_found suggestions_count quality_score next w'' Hsave.
      destruct (save_review_ok _ _ _ _ _ _ _ _ _ _ Hsave) as [-> _].
      cbn [db last_rowid].
      destruct (found_row_has_id _ _ Hfound) as [Hin Hid].
      unfold ids in Hrange. rewrite Forall_forall in Hrange.
      specialize (Hrange _ (in_map row_id _ _ Hin)). lia.
  - intros H. injection H as <- <-.
    split; [split; [discriminate|intros Hno; contradiction]|].
    split; [exact Hfound|]. split; [reflexivity|]. split; [reflexivity|].
    split; [reflexivity|].
    intros Hordered. split; [exact Hordered|discriminate].
Qed.

(** X6. [clear_all_reviews] answers 200 and leaves an empty, ordered table
    in which no identity is found; the sequence restarts, so the next review
    stored gets the identity 1, whatever identities were given before. *)
Theorem clear_restarts_identities (w : world) :
  answer_status (fst (clear_all_reviews w)) = 200
  /\ rows (db (snd (clear_all_reviews w))) = []
  /\ llm_calls (snd (clear_all_reviews w)) = llm_calls w
  /\ (forall j, get_review_by_id j (db (snd (clear_all_reviews w))) = None)
  /\ db_ordered (db (snd (clear_all_reviews w)))
  /\ (forall filename file_type file_size code_content review_report
             errors_found warnings_found suggestions_count quality_score
             next w'',
        save_review filename file_type file_size code_content review_report
          errors_found warnings_found suggestions_count quality_score
          (snd (clear_all_reviews w))
        = (Ok next, w'') ->
        next = 1%Z).
Proof.
  cbn. split; [reflexivity|]. split; [reflexivity|]. split; [reflexivity|].
  split; [reflexivity|]. split.
  - unfold db_ordered, ids. cbn. repeat split; [constructor|constructor|lia].
  - intros filename file_type file_size code_content review_report
      errors_found warnings_found suggestions_count quality_score next w'' Hsave.
    destruct (save_review_ok _ _ _ _ _ _ _ _ _ _ Hsave) as [-> _]. reflexivity.
Qed.

(** X7. [delete_review] answers 200, 404 or 500. It answers 200 only for an
    identity that was stored, and a second request for the same identity
    then answers 404 and changes nothing; on 404 and on 500 the state is the
    one before the request. *)
Theorem delete_review_twice (review_id : N) (w : world) :
  let first := delete_review review_id w in
  (answer_status (fst first) = 200
   \/ answer_status (fst first) = 404
   \/ answer_status (fst first) = 500)
  /\ (answer_status (fst first) = 200 ->
      get_review_by_id (Z.of_N review_id) (db w) <> None
      /\ get_review_by_id (Z.of_N review_id) (db (snd first)) = None
      /\ answer_status (fst (delete_review review_id (snd first))) = 404
      /\ snd (delete_review review_id (snd first)) = snd first)
  /\ (answer_status (fst first) <> 200 -> snd first = w)
  /\ (answer_status (fst first) = 404 ->
      get_review_by_id (Z.of_N review_id) (db w) = None).
Proof.
  cbv zeta. unfold delete_review.
  destruct (delete_review_by_id (Z.of_N review_id) w) as [[deleted|e] w'] eqn:Hfirst.
  - destruct (delete_removes_the_review_facts _ _ Hfirst)
      as (Hiff & Hgone & Hkept).
    destruct deleted; cbn [fst snd answer_status].
    + split; [left; reflexivity|]. split.
      * intros _. split; [apply Hiff; reflexivity|]. split; [exact Hgone|].
        unfold delete_review_by_id in *.
        destruct (sqlite_bind_error 1 (VInt (Z.of_N review_id))); [discriminate|].
        rewrite Hgone. split; reflexivity.
      * split; [intros H; contradiction|discriminate].
    + split; [right; left; reflexivity|]. split; [discriminate|].
      split; [intros _; apply Hkept; reflexivity|].
      intros _. destruct (get_review_by_id (Z.of_N review_id) (db w)) eqn:E;
        [|reflexivity].
      assert (false = true) by (apply Hiff; discriminate). discriminate.
  - cbn [fst snd answer_status].
    split; [right; right; reflexivity|]. split; [discriminate|].
    split; [|discriminate]. intros _.
    unfold delete_review_by_id in Hfirst.
    destruct (sqlite_bind_error 1 (VInt (Z.of_N review_id))).
    + injection Hfirst as _ <-. reflexivity.
    + destruct (get_review_by_id (Z.of_N review_id) (db w)); discriminate.
Qed.

End MoreDeleting.

Section MoreIngestion.

Context {RT : Runtime}.

Ltac run_step :=
  match goal with
  | |- context [match ?r with Ok _ => _ | Raise _ => _ end] =>
      destruct r eqn:?; cbn beta iota
  end.

(** The [try] block of [review_code] stores one row when it returns, and
    none when it raises. *)
Lemma review_try_outcome (file : upload) (w : world) :
  match review_code_try file w with
  | (Ok body, w') =>
      exists row,
        w' = {| db := {| rows := rows (db w) ++ [row];
                         last_rowid := (last_rowid (db w) + 1)%Z |};
                llm_calls := S (llm_calls w) |}
        /\ row_id row = (last_rowid (db w) + 1)%Z
        /\ row_filename row = saved_name file
        /\ row_code_content row = saved_text file
        /\ row_file_size row = Z.of_nat (List.length (up_stream file))
        /\ field_at body ["success"%string] = Ok (VBool true)
        /\ field_at body ["review_id"%string] = Ok (VInt (row_id row))
        /\ field_at body ["report"%string] = Ok (row_review_report row)
  | (Raise e, w') => db w' = db w
  end.
Proof.
  unfold review_code_try, mbind, lift, ret, call_analyze_code, save_review.
  fold (saved_name file). fold (saved_text file). cbn beta iota.
  repeat (run_step; [|reflexivity]).
  eexists. repeat split; reflexivity.
Qed.

(** The same for the [try] block of the batch loop. *)
Lemma batch_try_outcome (file : upload) (w : world) :
  match batch_review_try file w with
  | (Ok entry, w') =>
      exists row,
        w' = {| db := {| rows := rows (db w) ++ [row];
                         last_rowid := (last_rowid (db w) + 1)%Z |};
                llm_calls := S (llm_calls w) |}
        /\ row_id row = (last_rowid (db w) + 1)%Z
        /\ row_filename row = saved_name file
        /\ row_code_content row = saved_text file
        /\ names_row entry row
  | (Raise e, w') => db w' = db w
  end.
Proof.
  unfold batch_review_try, mbind, lift, ret, call_analyze_code, save_review.
  fold (saved_name file). fold (saved_text file). cbn beta iota.
  repeat (run_step; [|reflexivity]).
  eexists. unfold names_row. cbn [field_at py_getitem bind row_id row_filename
                                    row_code_quality_score].
  split; [reflexivity|]. split; [reflexivity|]. split; [reflexivity|].
  split; [reflexivity|]. split; [reflexivity|]. split; [reflexivity|].
  split; [|reflexivity].
  eexists. split; reflexivity.
Qed.

Lemma ordered_after_row (w : world) (row : review_row) :
  db_ordered (db w) ->
  row_id row = (last_rowid (db w) + 1)%Z ->
  db_ordered {| rows := rows (db w) ++ [row];
                last_rowid := (last_rowid (db w) + 1)%Z |}.
Proof.
  intros Hordered Hid. destruct (db w) as [older last].
  apply ordered_after_insert; assumption.
Qed.

(** X8. [review_code] stores a row exactly when it answers 200: the row is
    appended under the next identity, which is the [review_id] of the answer,
    and holds the report of the answer; on any other answer the table is the
    one before the request. An ordered table stays ordered. *)
Theorem single_ingestion_stores_one_row (file : option upload) (w : world) :
  match review_code file w with
  | (Completed body, w') =>
      exists row,
        rows (db w') = rows (db w) ++ [row]
        /\ last_rowid (db w') = (last_rowid (db w) + 1)%Z
        /\ row_id row = (last_rowid (db w) + 1)%Z
        /\ field_at body ["review_id"%string] = Ok (VInt (row_id row))
        /\ field_at body ["report"%string] = Ok (row_review_report row)
        /\ llm_calls w' = S (llm_calls w)
  | (_, w') => db w' = db w
  end
  /\ (db_ordered (db w) -> db_ordered (db (snd (review_code file w)))).
Proof.
  unfold review_code.
  destruct file as [file|]; [|split; [reflexivity|trivial]].
  destruct (str_eqb (up_filename file) []); [split; [reflexivity|trivial]|].
  destruct (negb (allowed_file (up_filename file)));
    [split; [reflexivity|trivial]|].
  pose proof (review_try_outcome file w) as Hout.
  destruct (review_code_try file w) as [[body|e] w'].
  - destruct Hout as (row & -> & Hid & _ & _ & _ & _ & Hbody & Hreport).
    cbn [db rows last_rowid llm_calls snd]. split.
    + exists row. repeat split; assumption.
    + intros Hordered. apply ordered_after_row; assumption.
  - cbn [snd]. split; [exact Hout|]. rewrite Hout. trivial.
Qed.

(** A turn of the batch loop adds a success that names the row it stored,
    or adds no success and stores nothing. *)
Lemma batch_step_outcome (file : upload) (w w' : world) (added failed : list value) :
  batch_step ([], [], w) file = (added, failed, w') ->
  (added = [] /\ db w' = db w)
  \/ (exists entry row,
        added = [entry]
        /\ db w' = {| rows := rows (db w) ++ [row];
                      last_rowid := (last_rowid (db w) + 1)%Z |}
        /\ row_id row = (last_rowid (db w) + 1)%Z
        /\ names_row entry row).
Proof.
  unfold batch_step.
  destruct (str_truthy (up_filename file) && allowed_file (up_filename file)).
  - pose proof (batch_try_outcome file w) as Hout.
    destruct (batch_review_try file w) as [[entry|e] w0];
      intros H; injection H as <- <- <-.
    + right. destruct Hout as (row & -> & Hid & _ & _ & Hnames).
      exists entry, row. repeat split; try assumption; apply Hnames.
    + left. split; [reflexivity|exact Hout].
  - intros H; injection H as <- <- <-. left. split; reflexivity.
Qed.

(** X9. The successes of a batch are the rows it stored: the table grows by
    one row for each entry of [results], in the same order, under
    consecutive identities that follow the largest given before, and each
    entry gives the identity and the filename of its row, and the score of
    which the row holds what its [INTEGER] column keeps: the same number
    when the score is an integer, the integer [85] for the text ["85"] or
    the float [85.0]. Files that fail store nothing, and an ordered table
    stays ordered. *)
Theorem batch_stores_what_it_reports (files : list upload) :
  forall (w w' : world) (results errors : list value),
    batch_loop files ([], [], w) = (results, errors, w') ->
    exists added,
      rows (db w') = rows (db w) ++ added
      /\ Forall2 names_row results added
      /\ consecutive_from (last_rowid (db w) + 1) (map row_id added)
      /\ last_rowid (db w') = (last_rowid (db w) + Z.of_nat (List.length results))%Z
      /\ (db_ordered (db w) -> db_ordered (db w')).
Proof.
  induction files as [|file files IH]; intros w w' results errors.
  - cbn. intros H; injection H as <- <- <-. exists [].
    rewrite app_nil_r. cbn.
    split; [reflexivity|]. split; [constructor|]. split; [exact I|].
    split; [lia|trivial].
  - rewrite batch_loop_cons.
    destruct (batch_step ([], [], w) file) as [[a1 f1] w1] eqn:Hstep.
    destruct (batch_loop files ([], [], w1)) as [[a2 f2] w2] eqn:Hrest.
    rewrite (@batch_loop_appends _ files w1 w2 a1 f1 a2 f2 Hrest).
    intros H; injection H as <- <- <-.
    destruct (IH _ _ _ _ Hrest) as (added2 & Hrows & Hnames & Hids & Hlast & Hord).
    destruct (batch_step_outcome _ _ Hstep)
      as [[-> Hdb]|(entry & row & -> & Hdb & Hid & Hrow)].
    + rewrite Hdb in *. exists added2. cbn [app].
      split; [exact Hrows|]. split; [exact Hnames|]. split; [exact Hids|].
      split; [exact Hlast|exact Hord].
    + rewrite Hdb in *. cbn [rows last_rowid] in *.
      exists (row :: added2). cbn [app map consecutive_from List.length].
      split; [rewrite Hrows, <- app_assoc; reflexivity|].
      split; [constructor; assumption|].
      split; [split; assumption|].
      split; [lia|].
      intros Hordered. apply Hord.
      apply (ordered_after_row w row Hordered Hid).
Qed.

(** X10. A reply that is JSON but not an object is not replaced by the
    fallback review: [analyze_code] returns it, [generate_report] has no
    [get] to call on it, and the single endpoint answers 500 with that
    message after one call to the service, storing nothing; the batch loop
    records the same message for the file. *)
Theorem non_object_reply_fails (file : upload) (w : world) (analysis : value) :
  allowed_file (up_filename file) = true ->
  str_contains dot (saved_name file) = true ->
  analyze_attempt (llm_calls w) (saved_text file) (saved_name file) = Ok analysis ->
  (forall d, analysis <> VDict d) ->
  let message :=
    py "'" ++ type_name analysis ++ py "' object has no attribute 'get'" in
  let after := {| db := db w; llm_calls := S (llm_calls w) |} in
  analyze_code (llm_calls w) (saved_text file) (saved_name file) = analysis
  /\ review_code (Some file) w = (Failed message, after)
  /\ (forall results errors,
        batch_step (results, errors, w) file
        = (results, errors ++ [error_entry (up_filename file) message], after))
  /\ field_at (error_entry (up_filename file) message) ["filename"%string]
     = Ok (VStr (up_filename file))
  /\ field_at (error_entry (up_filename file) message) ["error"%string]
     = Ok (VStr message).
Proof.
  intros Hallowed Hdot Hattempt Hnot. cbv zeta.
  assert (Hcode : analyze_code (llm_calls w) (saved_text file) (saved_name file)
                  = analysis)
    by (unfold analyze_code; rewrite Hattempt; reflexivity).
  destruct (rsplit1_of_dotted _ Hdot) as (before & ext & Hsplit).
  assert (Hreport : generate_report analysis (saved_name file)
                    = Raise (Exn AttributeError
                               (py "'" ++ type_name analysis
                                   ++ py "' object has no attribute 'get'"))).
  { destruct analysis; try reflexivity. destruct (Hnot items eq_refl). }
  split; [exact Hcode|]. split.
  - unfold review_code.
    rewrite (allowed_name_not_empty _ Hallowed), Hallowed. cbn [negb].
    unfold review_code_try, mbind, lift, call_analyze_code.
    fold (saved_name file). fold (saved_text file).
    rewrite Hsplit. cbn [item1]. rewrite calculate_code_metrics_eq. cbv zeta.
    rewrite Hcode, Hreport. reflexivity.
  - split; [|split; reflexivity].
    intros results errors. unfold batch_step.
    rewrite Hallowed.
    assert (Hname : str_truthy (up_filename file) = true).
    { pose proof (allowed_name_not_empty _ Hallowed) as H.
      destruct (up_filename file); [discriminate H|reflexivity]. }
    rewrite Hname. cbn [andb].
    unfold batch_review_try, mbind, lift, call_analyze_code.
    fold (saved_name file). fold (saved_text file).
    rewrite Hsplit. cbn [item1]. rewrite Hcode, Hreport. reflexivity.
Qed.

(** X11. An allowed filename that has no dot left once it is secured (such
    as ".py") makes the single endpoint answer 500 with the message of the
    [IndexError], before the service is called and with nothing stored; the
    batch loop records the same message for the file. *)
Theorem lost_dot_fails (file : upload) (w : world) :
  allowed_file (up_filename file) = true ->
  str_contains dot (saved_name file) = false ->
  review_code (Some file) w = (Failed (py "list index out of range"), w)
  /\ (forall results errors,
        batch_step (results, errors, w) file
        = (results,
           errors ++ [error_entry (up_filename file) (py "list index out of range")],
           w))
  /\ field_at (error_entry (up_filename file) (py "list index out of range"))
       ["filename"%string]
     = Ok (VStr (up_filename file))
  /\ field_at (error_entry (up_filename file) (py "list index out of range"))
       ["error"%string]
     = Ok (VStr (py "list index out of range")).
Proof.
  intros Hallowed Hdot.
  pose proof (rsplit1_no_sep _ _ Hdot) as Hsplit. split.
  - unfold review_code.
    rewrite (allowed_name_not_empty _ Hallowed), Hallowed. cbn [negb].
    unfold review_code_try, mbind, lift.
    fold (saved_name file). rewrite Hsplit. reflexivity.
  - split; [|split; reflexivity].
    intros results errors. unfold batch_step.
    rewrite Hallowed.
    assert (Hname : str_truthy (up_filename file) = true).
    { pose proof (allowed_name_not_empty _ Hallowed) as H.
      destruct (up_filename file); [discriminate H|reflexivity]. }
    rewrite Hname. cbn [andb].
    unfold batch_review_try, mbind, lift.
    fold (saved_name file). rewrite Hsplit. reflexivity.
Qed.

End MoreIngestion.

Section MoreListing.

Context {RT : Runtime}.

Lemma bound_is_not_zero (parameter : option Z) (n : Z) :
  bound_of parameter = Some n -> parameter = Some n /\ n <> 0%Z.
Proof.
  destruct parameter as [z|]; cbn; [|discriminate].
  destruct (Z.eqb_spec z 0); [discriminate|].
  intros H; injection H as <-. split; [reflexivity|assumption].
Qed.

(** On tuples whose scores are integers the loop of [get_reviews] keeps the
    tuples inside the bounds, in their order. *)
Lemma get_reviews_loop_filters (min_score max_score : option Z)
    (language : option str) (reviews : list listed_review) :
  Forall int_score reviews ->
  forall kept_so_far,
    get_reviews_loop min_score max_score language reviews kept_so_far
    = Ok (kept_so_far
            ++ map review_dict
                 (filter (score_within (bound_of min_score) (bound_of max_score))
                    reviews)).
Proof.
  induction 1 as [|review reviews [z Hz] _ IH]; intros kept_so_far;
    cbn [get_reviews_loop filter map].
  - rewrite app_nil_r. reflexivity.
  - unfold score_within at 1. rewrite Hz.
    assert (Hscore : py_getitem (review_dict review) (py "quality_score")
                     = Ok (VInt z)) by (rewrite <- Hz; reflexivity).
    rewrite Hscore. cbn [bind].
    destruct (bound_of min_score) as [lo|]; destruct (bound_of max_score) as [hi|];
      unfold py_lt_int, py_gt_int; cbn [py_compare_int bind];
      try (destruct (Z.compare_spec z lo); destruct (Z.leb_spec lo z); try lia);
      try (destruct (Z.compare_spec z hi); destruct (Z.leb_spec z hi); try lia);
      cbn [bind andb map]; rewrite IH, <- ?app_assoc; reflexivity.
Qed.

(** X12. When the scores of the tuples are integers, [get_reviews] answers
    200 with the tuples whose score lies inside the bounds, in the order
    they came, cut to the limit, and [total] is their number. The
    [language] parameter changes nothing, and a limit or a bound of 0 is no
    limit and no bound: with [limit=0] the whole list is returned. *)
Theorem listing_filters_by_score (limit min_score max_score : option Z)
    (language : option str) (reviews : list listed_review) :
  Forall int_score reviews ->
  let kept :=
    map review_dict
      (filter (score_within (bound_of min_score) (bound_of max_score)) reviews) in
  let listed :=
    match bound_of limit with
    | Some n => slice_to n kept
    | None => kept
    end in
  get_reviews limit min_score max_score language reviews
  = Answer 200
      (VDict [(py "success", VBool true);
              (py "total", VInt (Z.of_nat (List.length listed)));
              (py "reviews", VList listed)])
  /\ get_reviews limit min_score max_score None reviews
     = get_reviews limit min_score max_score language reviews
  /\ get_reviews (Some 0%Z) min_score max_score language reviews
     = get_reviews None min_score max_score language reviews
  /\ get_reviews limit (Some 0%Z) (Some 0%Z) language reviews
     = get_reviews limit None None language reviews
  /\ (forall n, (0 < n)%Z -> limit = Some n ->
        listed = firstn (Z.to_nat n) kept
        /\ List.length listed <= Z.to_nat n).
Proof.
  intros Hint. cbv zeta.
  assert (Hrun : forall lang lim lo hi,
             get_reviews lim lo hi lang reviews
             = Answer 200
                 (VDict [(py "success", VBool true);
                         (py "total",
                           VInt (Z.of_nat
                                   (List.length
                                      match bound_of lim with
                                      | Some n =>
                                          slice_to n
                                            (map review_dict
                                               (filter (score_within (bound_of lo)
                                                          (bound_of hi)) reviews))
                                      | None =>
                                          map review_dict
                                            (filter (score_within (bound_of lo)
                                                       (bound_of hi)) reviews)
                                      end)));
                         (py "reviews",
                           VList
                             match bound_of lim with
                             | Some n =>
                                 slice_to n
                                   (map review_dict
                                      (filter (score_within (bound_of lo)
                                                 (bound_of hi)) reviews))
                             | None =>
                                 map review_dict
                                   (filter (score_within (bound_of lo)
                                              (bound_of hi)) reviews)
                             end)])).
  { intros lang lim lo hi. unfold get_reviews.
    rewrite (get_reviews_loop_filters lo hi lang Hint []). reflexivity. }
  split; [apply Hrun|].
  split; [rewrite !Hrun; reflexivity|].
  split; [rewrite !Hrun; reflexivity|].
  split; [rewrite !Hrun; reflexivity|].
  intros n Hn ->. cbn [bound_of].
  destruct (Z.eqb_spec n 0); [lia|].
  unfold slice_to. destruct (Z.leb_spec 0 n); [|lia].
  split; [reflexivity|]. rewrite length_firstn. lia.
Qed.

(** X13. A tuple whose score is [None] makes [get_reviews] answer 500 for
    the whole list as soon as a lower bound is set: the comparison raises
    when the loop reaches it. Without bounds no score is compared, and the
    list is returned whatever the scores hold. *)
Theorem listing_fails_on_missing_score (limit min_score max_score : option Z)
    (language : option str) (before after : list listed_review)
    (bad : listed_review) (lo : Z) :
  bound_of min_score = Some lo ->
  Forall int_score before ->
  l_quality_score bad = VNone ->
  get_reviews limit min_score max_score language (before ++ bad :: after)
  = Answer 500
      (VDict [(py "error",
                VStr (py "'<' not supported between instances of 'NoneType' and 'int'"))])
  /\ answer_status
       (get_reviews limit None None language (before ++ bad :: after)) = 200.
Proof.
  intros Hlo Hint Hbad. split.
  - unfold get_reviews.
    assert (Hloop : forall kept_so_far,
               get_reviews_loop min_score max_score language
                 (before ++ bad :: after) kept_so_far
               = Raise (Exn TypeError
                          (py "'<' not supported between instances of 'NoneType' and 'int'"))).
    { induction Hint as [|review reviews [z Hz] _ IH]; intros kept_so_far;
        cbn [app get_reviews_loop]; rewrite Hlo.
      - assert (Hscore : py_getitem (review_dict bad) (py "quality_score")
                         = Ok VNone) by (rewrite <- Hbad; reflexivity).
        rewrite Hscore. reflexivity.
      - assert (Hscore : py_getitem (review_dict review) (py "quality_score")
                         = Ok (VInt z)) by (rewrite <- Hz; reflexivity).
        rewrite Hscore. cbn [bind]. unfold py_lt_int, py_gt_int.
        cbn [py_compare_int].
        destruct (z ?= lo)%Z; cbn [bind]; try apply IH;
          (destruct (bound_of max_score) as [hi|]; cbn [bind];
           [destruct (z ?= hi)%Z; cbn [bind]; apply IH|apply IH]). }
    rewrite Hloop. reflexivity.
  - unfold get_reviews.
    assert (Hloop : forall reviews kept_so_far,
               get_reviews_loop None None language reviews kept_so_far
               = Ok (kept_so_far ++ map review_dict reviews)).
    { induction reviews as [|review reviews IH]; intros kept_so_far;
        cbn [get_reviews_loop map bound_of bind].
      - rewrite app_nil_r. reflexivity.
      - rewrite IH, <- app_assoc. reflexivity. }
    rewrite Hloop. reflexivity.
Qed.

End MoreListing.

Section MoreSearch.

Context {RT : Runtime}.

Lemma search_loop_filters (query : str) (all_reviews : list listed_review) :
  forall results,
    search_loop query all_reviews results
    = results ++ map search_entry (filter (filename_matches query) all_reviews).
Proof.
  induction all_reviews as [|review rest IH]; intros results;
    cbn [search_loop filter map].
  - rewrite app_nil_r. reflexivity.
  - unfold filename_matches at 1.
    destruct (str_in_str (str_lower query) (str_lower (l_filename review)));
      cbn [map]; rewrite IH, <- ?app_assoc; reflexivity.
Qed.

Lemma has_prefix_refl (s : str) : has_prefix s s = true.
Proof.
  induction s as [|c s IH]; [reflexivity|].
  cbn. unfold char_eqb. rewrite N.eqb_refl. exact IH.
Qed.

Lemma str_in_itself (s : str) : str_in_str s s = true.
Proof. destruct s; cbn [str_in_str]; rewrite has_prefix_refl; reflexivity. Qed.

(** X14. [search_reviews] refuses an empty query with 400. Otherwise it
    answers 200 with the entries of the tuples whose filename holds the
    query, letter case apart, in the order they came, and [count] is their
    number; a tuple whose filename is the query, letter case apart, is among
    them; and two ASCII queries that differ by letter case only get the same
    results. *)
Theorem search_ignores_case (query : str) (all_reviews : list listed_review) :
  query <> [] ->
  let found := map search_entry (filter (filename_matches query) all_reviews) in
  search_reviews query all_reviews
  = Answer 200
      (VDict [(py "success", VBool true);
              (py "query", VStr query);
              (py "results", VList found);
              (py "count", VInt (Z.of_nat (List.length found)))])
  /\ answer_status (search_reviews [] all_reviews) = 400
  /\ (forall review,
         In review all_reviews ->
         str_lower (l_filename review) = str_lower query ->
         In (search_entry review) found)
  /\ (forall other,
         forallb is_ascii query = true ->
         forallb is_ascii other = true ->
         map ascii_lower other = map ascii_lower query ->
         map search_entry (filter (filename_matches other) all_reviews) = found).
Proof.
  intros Hquery. cbv zeta. split; [|split; [reflexivity|split]].
  - unfold search_reviews. destruct query; [contradiction|].
    cbn [str_truthy negb]. rewrite search_loop_filters. reflexivity.
  - intros review Hin Hname. apply in_map, filter_In. split; [exact Hin|].
    unfold filename_matches. rewrite Hname. apply str_in_itself.
  - intros other Hq Ho Hsame. f_equal. apply filter_ext. intros review.
    unfold filename_matches.
    rewrite (lower_ascii _ Hq), (lower_ascii _ Ho), Hsame. reflexivity.
Qed.

End MoreSearch.

Section MoreComparing.

Lemma named_body_is_true (d : dict) (k : str) (v : value) :
  dict_get k d = Some v -> py_truthy (VDict d) = true.
Proof. destruct d; [discriminate|reflexivity]. Qed.

Lemma compare_reviews_of_ints (select : value -> result (option review_row))
    (data a b : value) (r1 r2 : review_row) (q1 e1 w1 s1 q2 e2 w2 s2 : Z) :
  asks_for data a b ->
  select a = Ok (Some r1) -> select b = Ok (Some r2) ->
  int_columns r1 q1 e1 w1 s1 -> int_columns r2 q2 e2 w2 s2 ->
  compare_reviews select data
  = compared_answer r1 r2 (q2 - q1) (e2 - e1) (w2 - w1) (s2 - s1) (q1 <? q2)%Z.
Proof.
  intros (d & -> & Ha & Hb) H1 H2 (Hq1 & He1 & Hw1 & Hs1) (Hq2 & He2 & Hw2 & Hs2).
  unfold compare_reviews, compared_answer.
  rewrite (@named_body_is_true d _ _ Ha).
  unfold py_contains, py_index. rewrite Ha, Hb. cbn [bind negb].
  rewrite H1, H2. cbn [bind].
  rewrite Hq1, He1, Hw1, Hs1, Hq2, He2, Hw2, Hs2.
  reflexivity.
Qed.

(** X15. Comparing two stored reviews whose four counters are integers
    answers 200 with the differences second minus first, and [improvement]
    tells whether the second score is the greater; asking with the two
    identities exchanged negates every difference; a review compared with
    itself differs by [0] everywhere and shows no improvement. *)
Theorem comparison_swaps_sign (select : value -> result (option review_row))
    (data data' a b : value) (r1 r2 : review_row)
    (q1 e1 w1 s1 q2 e2 w2 s2 : Z) :
  asks_for data a b -> asks_for data' b a ->
  select a = Ok (Some r1) -> select b = Ok (Some r2) ->
  int_columns r1 q1 e1 w1 s1 -> int_columns r2 q2 e2 w2 s2 ->
  compare_reviews select data
  = compared_answer r1 r2 (q2 - q1) (e2 - e1) (w2 - w1) (s2 - s1) (q1 <? q2)%Z
  /\ compare_reviews select data'
     = compared_answer r2 r1 (- (q2 - q1)) (- (e2 - e1)) (- (w2 - w1))
         (- (s2 - s1)) (q2 <? q1)%Z
  /\ (a = b ->
      compare_reviews select data = compared_answer r1 r1 0 0 0 0 false).
Proof.
  intros Hd Hd' H1 H2 Hc1 Hc2. split; [|split].
  - eapply compare_reviews_of_ints; eassumption.
  - replace (- (q2 - q1))%Z with (q1 - q2)%Z by lia.
    replace (- (e2 - e1))%Z with (e1 - e2)%Z by lia.
    replace (- (w2 - w1))%Z with (w1 - w2)%Z by lia.
    replace (- (s2 - s1))%Z with (s1 - s2)%Z by lia.
    eapply compare_reviews_of_ints; eassumption.
  - intros ->. rewrite H1 in H2. injection H2 as <-.
    replace 0%Z with (q1 - q1)%Z at 1 by lia.
    replace 0%Z with (e1 - e1)%Z at 1 by lia.
    replace 0%Z with (w1 - w1)%Z at 1 by lia.
    replace 0%Z with (s1 - s1)%Z at 1 by lia.
    replace false with (q1 <? q1)%Z by apply Z.ltb_irrefl.
    eapply compare_reviews_of_ints; eassumption.
Qed.

(** X16. When one of the two reviews was stored without a score ([None]),
    the comparison is not made: the subtraction of the scores raises, and
    the answer is 500 with the [TypeError]'s message, which names the types
    of the second and of the first score. An identity that is not found
    answers 404 when both lookups return. *)
Theorem comparison_fails_on_missing_score
    (select : value -> result (option review_row))
    (data a b : value) (found1 found2 : option review_row) :
  asks_for data a b ->
  select a = Ok found1 -> select b = Ok found2 ->
  match found1, found2 with
  | Some r1, Some r2 =>
      row_code_quality_score r1 = VNone \/ row_code_quality_score r2 = VNone ->
      compare_reviews select data
      = Answer 500
          (VDict [(py "error",
                    VStr (py "unsupported operand type(s) for -: '"
                            ++ type_name (row_code_quality_score r2)
                            ++ py "' and '"
                            ++ type_name (row_code_quality_score r1)
                            ++ py "'"))])
  | _, _ =>
      compare_reviews select data
      = Answer 404 (VDict [(py "error", VStr (py "One or both reviews not found"))])
  end.
Proof.
  intros (d & -> & Ha & Hb) H1 H2.
  unfold compare_reviews.
  rewrite (@named_body_is_true d _ _ Ha).
  unfold py_contains, py_index. rewrite Ha, Hb. cbn [bind negb].
  rewrite H1, H2. cbn [bind].
  destruct found1 as [r1|], found2 as [r2|]; try reflexivity.
  intros [Hnone|Hnone]; unfold py_sub at 1; rewrite Hnone.
  - destruct (as_number (row_code_quality_score r2)) as [[x|f]|]; reflexivity.
  - reflexivity.
Qed.

End MoreComparing.

Section MoreTrends.

Lemma trends_get_set_same (d : str) (t : day_totals) (l : list (str * day_totals)) :
  trends_get d (trends_set d t l) = Some t.
Proof.
  induction l as [|[k t'] l IH]; cbn [trends_set trends_get].
  - rewrite str_eqb_refl. reflexivity.
  - destruct (str_eqb k d) eqn:E; cbn [trends_get]; rewrite E; [reflexivity|exact IH].
Qed.

Lemma trends_get_set_other (d d' : str) (t : day_totals)
    (l : list (str * day_totals)) :
  d <> d' -> trends_get d (trends_set d' t l) = trends_get d l.
Proof.
  intros Hd. induction l as [|[k t'] l IH]; cbn [trends_set trends_get].
  - destruct (str_eqb d' d) eqn:E; [|reflexivity].
    apply str_eqb_eq in E. congruence.
  - destruct (str_eqb k d') eqn:E; cbn [trends_get].
    + apply str_eqb_eq in E. subst k.
      destruct (str_eqb d' d) eqn:E'; [|reflexivity].
      apply str_eqb_eq in E'. congruence.
    + destruct (str_eqb k d); [reflexivity|exact IH].
Qed.

Lemma trends_set_keys (d : str) (t : day_totals) (l : list (str * day_totals))
    (k : str) :
  In k (map fst (trends_set d t l)) -> k = d \/ In k (map fst l).
Proof.
  induction l as [|[k' t'] l IH]; cbn [trends_set map fst In].
  - intros [<-|[]]. left; reflexivity.
  - destruct (str_eqb k' d) eqn:E; cbn [map fst In].
    + intros H; right; exact H.
    + intros [<-|H]; [right; left; reflexivity|].
      destruct (IH H) as [->|H']; [left; reflexivity|right; right; exact H'].
Qed.

Lemma trends_set_nodup (d : str) (t : day_totals) (l : list (str * day_totals)) :
  NoDup (map fst l) -> NoDup (map fst (trends_set d t l)).
Proof.
  induction l as [|[k' t'] l IH]; cbn [trends_set map fst]; intros Hnd.
  - constructor; [intros []|constructor].
  - destruct (str_eqb k' d) eqn:E; cbn [map fst]; [exact Hnd|].
    inversion Hnd as [|? ? Hnot Hrest]; subst.
    constructor; [|apply IH; exact Hrest].
    intros Hin. apply trends_set_keys in Hin as [->|Hin]; [|contradiction].
    rewrite str_eqb_refl in E. discriminate.
Qed.

Lemma trends_get_in (d : str) (l : list (str * day_totals)) :
  trends_get d l <> None <-> In d (map fst l).
Proof.
  induction l as [|[k t] l IH]; cbn [trends_get map fst In].
  - split; [congruence|intros []].
  - destruct (str_eqb k d) eqn:E.
    + apply str_eqb_eq in E. split; [left; exact E|discriminate].
    + rewrite IH. split; [right; assumption|].
      intros [->|H]; [|exact H]. rewrite str_eqb_refl in E. discriminate.
Qed.

Lemma trends_get_of_item (d : str) (data : day_totals) (l : list (str * day_totals)) :
  NoDup (map fst l) -> In (d, data) l -> trends_get d l = Some data.
Proof.
  induction l as [|[k t] l IH]; cbn [trends_get map fst In]; intros Hnd Hin.
  - destruct Hin.
  - inversion Hnd as [|? ? Hnot Hrest]; subst.
    destruct Hin as [Heq|Hin].
    + injection Heq as -> ->. rewrite str_eqb_refl. reflexivity.
    + destruct (str_eqb k d) eqn:E; [|apply IH; assumption].
      apply str_eqb_eq in E. subst k. exfalso. apply Hnot.
      apply (in_map fst) in Hin. exact Hin.
Qed.

Lemma score_total_app (xs ys : list listed_review) :
  score_total (xs ++ ys) = (score_total xs + score_total ys)%Z.
Proof.
  induction xs as [|x xs IH]; cbn [app score_total fold_right]; [reflexivity|].
  fold (score_total (xs ++ ys)). fold (score_total xs). rewrite IH.
  destruct (l_quality_score x); lia.
Qed.

Lemma errors_total_app (xs ys : list listed_review) :
  errors_total (xs ++ ys) = (errors_total xs + errors_total ys)%Z.
Proof.
  induction xs as [|x xs IH]; cbn [app errors_total fold_right]; [reflexivity|].
  fold (errors_total (xs ++ ys)). fold (errors_total xs). rewrite IH. lia.
Qed.

Lemma trends_step_grouped (seen : list listed_review)
    (trends : list (str * day_totals)) (review : listed_review) :
  grouped seen trends -> int_score review ->
  exists trends', trends_step trends review = Ok trends'
                  /\ grouped (seen ++ [review]) trends'.
Proof.
  intros [Hnd Hget] [z Hz]. unfold trends_step.
  set (date := date_part review).
  set (trends1 := match trends_get date trends with
                  | None => trends_set date _ trends
                  | Some _ => trends
                  end).
  assert (H1 : trends_get date trends1
               = Some (totals_of (filter (on_day date) seen))).
  { subst trends1. pose proof (Hget date) as Hd.
    destruct (filter (on_day date) seen) eqn:E; rewrite Hd.
    - rewrite trends_get_set_same. reflexivity.
    - exact Hd. }
  assert (H1o : forall d, d <> date -> trends_get d trends1 = trends_get d trends).
  { intros d Hd. subst trends1. destruct (trends_get date trends); [reflexivity|].
    apply trends_get_set_other. exact Hd. }
  assert (Hnd1 : NoDup (map fst trends1)).
  { subst trends1. destruct (trends_get date trends); [exact Hnd|].
    apply trends_set_nodup. exact Hnd. }
  rewrite H1. unfold py_iadd. cbn [t_total_score totals_of]. rewrite Hz.
  cbn [as_number bind]. eexists. split; [reflexivity|]. split.
  - apply trends_set_nodup. exact Hnd1.
  - intros d. rewrite filter_app.
    assert (Hon : filter (on_day d) [review]
                  = if str_eqb date d then [review] else []) by reflexivity.
    rewrite Hon. clear Hon.
    destruct (str_eqb date d) eqn:E.
    + apply str_eqb_eq in E. subst d. rewrite trends_get_set_same.
      destruct (filter (on_day date) seen ++ [review]) eqn:E2;
        [apply app_eq_nil in E2; destruct E2; discriminate|].
      rewrite <- E2. f_equal. unfold totals_of.
      rewrite length_app, score_total_app, errors_total_app.
      cbn [List.length score_total errors_total fold_right t_count t_total_errors].
      rewrite Hz. f_equal; [lia| |lia]. f_equal. lia.
    + rewrite trends_get_set_other, H1o, app_nil_r.
      * apply Hget.
      * intros ->. subst date. rewrite str_eqb_refl in E. discriminate.
      * intros ->. subst date. rewrite str_eqb_refl in E. discriminate.
Qed.

Lemma trends_loop_grouped (rest seen : list listed_review)
    (trends : list (str * day_totals)) :
  grouped seen trends -> Forall int_score rest ->
  exists trends', trends_loop rest trends = Ok trends'
                  /\ grouped (seen ++ rest) trends'.
Proof.
  revert seen trends. induction rest as [|review rest IH]; intros seen trends Hg Hint.
  - exists trends. rewrite app_nil_r. split; [reflexivity|exact Hg].
  - inversion Hint as [|? ? Hreview Hrest]; subst.
    destruct (@trends_step_grouped seen trends review Hg Hreview)
      as (trends1 & Hstep & Hg1).
    cbn [trends_loop]. rewrite Hstep. cbn [bind].
    destruct (IH (seen ++ [review]) trends1 Hg1 Hrest) as (trends' & Hloop & Hg').
    exists trends'. rewrite <- app_assoc in Hg'. split; assumption.
Qed.

Lemma str_ltb_trans (a b c : str) :
  str_ltb a b = true -> str_ltb b c = true -> str_ltb a c = true.
Proof.
  revert b c. induction a as [|x a IH]; intros [|y b] [|z c]; cbn [str_ltb];
    try discriminate; try reflexivity.
  intros Hab Hbc.
  apply orb_true_iff in Hab. apply orb_true_iff in Hbc. apply orb_true_iff.
  destruct Hab as [Hab|Hab], Hbc as [Hbc|Hbc].
  - left. apply N.ltb_lt in Hab, Hbc. apply N.ltb_lt. lia.
  - apply andb_true_iff in Hbc as [Hyz _]. apply N.eqb_eq in Hyz. subst z.
    left. exact Hab.
  - apply andb_true_iff in Hab as [Hxy _]. apply N.eqb_eq in Hxy. subst y.
    left. exact Hbc.
  - apply andb_true_iff in Hab as [Hxy Hab]. apply andb_true_iff in Hbc as [Hyz Hbc].
    apply N.eqb_eq in Hxy, Hyz. subst y z. right.
    rewrite N.eqb_refl. cbn [andb]. eapply IH; eassumption.
Qed.

Lemma str_ltb_total (a b : str) :
  str_ltb a b = false -> a <> b -> str_ltb b a = true.
Proof.
  revert b. induction a as [|x a IH]; intros [|y b]; cbn [str_ltb];
    try discriminate; try reflexivity; try congruence.
  intros Hab Hne.
  apply orb_false_iff in Hab as [Hlt Hrest].
  apply N.ltb_ge in Hlt.
  destruct (N.eqb x y) eqn:E.
  - apply N.eqb_eq in E. subst y. cbn [andb] in Hrest.
    rewrite N.ltb_irrefl, N.eqb_refl. cbn [orb andb].
    apply IH; [exact Hrest|congruence].
  - apply N.eqb_neq in E. apply orb_true_iff. left. apply N.ltb_lt. lia.
Qed.

Lemma insert_item_perm (item : str * day_totals) (items : list (str * day_totals)) :
  Permutation (insert_item item items) (item :: items).
Proof.
  induction items as [|other rest IH]; cbn [insert_item]; [reflexivity|].
  destruct (str_ltb (fst item) (fst other)); [reflexivity|].
  rewrite IH. apply perm_swap.
Qed.

Lemma insert_item_sorted (item : str * day_totals) (items : list (str * day_totals)) :
  StronglySorted by_date items -> ~ In (fst item) (map fst items) ->
  StronglySorted by_date (insert_item item items).
Proof.
  induction items as [|other rest IH]; cbn [insert_item map In]; intros Hs Hnot.
  - constructor; constructor.
  - inversion Hs as [|? ? Hrest Hall]; subst.
    destruct (str_ltb (fst item) (fst other)) eqn:E.
    + constructor; [exact Hs|]. constructor; [exact E|].
      eapply Forall_impl; [|exact Hall]. cbv beta. intros x Hx.
      unfold by_date, str_lt in *. eapply str_ltb_trans; eassumption.
    + constructor.
      * apply IH; [exact Hrest|]. intros H. apply Hnot. right. exact H.
      * apply Forall_forall. intros x Hx.
        apply (Permutation_in _ (insert_item_perm item rest)) in Hx.
        destruct Hx as [<-|Hx].
        -- apply str_ltb_total; [exact E|]. intros Heq. apply Hnot. left.
           symmetry. exact Heq.
        -- rewrite Forall_forall in Hall. apply Hall. exact Hx.
Qed.

Lemma insert_all_sorted (items done : list (str * day_totals)) :
  StronglySorted by_date done -> NoDup (map fst (done ++ items)) ->
  let all := fold_left (fun done item => insert_item item done) items done in
  StronglySorted by_date all /\ Permutation all (done ++ items).
Proof.
  revert done. induction items as [|item items IH]; intros done Hs Hnd;
    cbn [fold_left].
  - rewrite app_nil_r. split; [exact Hs|reflexivity].
  - assert (Hperm : Permutation (insert_item item done ++ items)
                      (done ++ item :: items)).
    { rewrite insert_item_perm. cbn [app]. apply Permutation_middle. }
    destruct (IH (insert_item item done)) as [Hsorted Hall].
    + apply insert_item_sorted; [exact Hs|].
      rewrite map_app in Hnd. cbn [map] in Hnd.
      apply NoDup_remove_2 in Hnd. intros H. apply Hnd.
      apply in_or_app. left. exact H.
    + eapply Permutation_NoDup; [|exact Hnd].
      apply Permutation_map. symmetry. exact Hperm.
    + split; [exact Hsorted|]. rewrite Hall. exact Hperm.
Qed.

Lemma sorted_by_date_keys (items : list (str * day_totals)) :
  StronglySorted by_date items -> StronglySorted str_lt (map fst items).
Proof.
  induction 1 as [|item items Hs IH Hall]; cbn [map]; constructor; [exact IH|].
  apply Forall_map. exact Hall.
Qed.

Lemma average_of_totals (reviews : list listed_review) :
  reviews <> [] ->
  average_quality (totals_of reviews)
  = Ok (float_round2 (float_of_quotient (score_total reviews)
                        (Z.of_nat (List.length reviews)))).
Proof.
  intros Hne. unfold average_quality, int_truediv. cbn [totals_of t_total_score t_count].
  destruct reviews as [|r rs]; [congruence|].
  replace (Z.of_nat (List.length (r :: rs)) =? 0)%Z with false; [reflexivity|].
  symmetry. apply Z.eqb_neq. cbn [List.length]. lia.
Qed.

Lemma trend_data_of_totals (reviews : list listed_review)
    (items : list (str * day_totals)) :
  (forall d data, In (d, data) items ->
     filter (on_day d) reviews <> []
     /\ data = totals_of (filter (on_day d) reviews)) ->
  trend_data_loop items
  = Ok (map (fun date => trend_entry date (filter (on_day date) reviews))
          (map fst items)).
Proof.
  induction items as [|[d data] items IH]; intros Hitems; cbn [trend_data_loop map fst].
  - reflexivity.
  - destruct (Hitems d data (or_introl eq_refl)) as [Hne ->].
    rewrite (@average_of_totals (filter (on_day d) reviews) Hne). cbn [bind].
    rewrite IH; [reflexivity|].
    intros d' data' Hin. apply Hitems. right. exact Hin.
Qed.

Lemma filter_on_day_nonempty (d : str) (reviews : list listed_review) :
  filter (on_day d) reviews <> []
  <-> exists review, In review reviews /\ date_part review = d.
Proof.
  split.
  - intros Hne. destruct (filter (on_day d) reviews) as [|r rs] eqn:E; [congruence|].
    assert (Hin : In r (filter (on_day d) reviews)) by (rewrite E; left; reflexivity).
    apply filter_In in Hin as [Hin Hon]. exists r. split; [exact Hin|].
    apply str_eqb_eq. exact Hon.
  - intros (r & Hin & Hd) E.
    assert (Hr : In r (filter (on_day d) reviews)).
    { apply filter_In. split; [exact Hin|]. apply str_eqb_eq. exact Hd. }
    rewrite E in Hr. destruct Hr.
Qed.

(** X17. When the reviews of the period are fetched and their scores are
    integers, the trends answer 200 with one entry for each date on which a
    review of the period was made, the dates in strictly ascending order;
    the entry of a date counts the reviews of that date, adds up their
    errors, and gives their mean score rounded to two decimals. A missing
    [days] stands for 7. *)
Theorem trends_group_by_day (fetch : Z -> result (list listed_review))
    (days : option Z) (reviews : list listed_review) :
  let asked := match days with Some n => n | None => 7%Z end in
  fetch asked = Ok reviews -> Forall int_score reviews ->
  exists dates,
    get_trends fetch days = trends_answer asked dates reviews
    /\ StronglySorted str_lt dates
    /\ (forall date, In date dates
                     <-> exists review, In review reviews
                                        /\ date_part review = date).
Proof.
  intros asked Hfetch Hint.
  assert (Hg0 : grouped [] []).
  { split; [constructor|]. intros d. reflexivity. }
  destruct (@trends_loop_grouped reviews [] [] Hg0 Hint)
    as (trends & Hloop & [Hnd Hget]).
  cbn [app] in Hget.
  destruct (@insert_all_sorted trends []) as [Hsorted Hperm].
  { constructor. }
  { exact Hnd. }
  cbn [app] in Hperm. fold (sorted_items trends) in Hsorted, Hperm.
  exists (map fst (sorted_items trends)). split; [|split].
  - unfold get_trends. fold asked. rewrite Hfetch. cbn [bind].
    rewrite Hloop. cbn [bind].
    rewrite (@trend_data_of_totals reviews (sorted_items trends)); [reflexivity|].
    intros d data Hin.
    apply (Permutation_in _ Hperm) in Hin.
    pose proof (@trends_get_of_item d data trends Hnd Hin) as Hfound.
    rewrite Hget in Hfound.
    destruct (filter (on_day d) reviews) eqn:E; [discriminate|].
    injection Hfound as <-. split; [discriminate|reflexivity].
  - apply sorted_by_date_keys. exact Hsorted.
  - intros date. rewrite <- filter_on_day_nonempty.
    assert (Hkeys : In date (map fst (sorted_items trends))
                    <-> In date (map fst trends)).
    { split; apply Permutation_in, Permutation_map;
        [exact Hperm|symmetry; exact Hperm]. }
    rewrite Hkeys, <- trends_get_in, Hget.
    destruct (filter (on_day date) reviews); split; congruence.
Qed.

End MoreTrends.

(** ** The further properties, run on the reference runtime *)

Lemma empty_world_ordered : db_ordered (db empty_world).
Proof. unfold db_ordered, ids. cbn. repeat split; [constructor|constructor|lia]. Qed.

Lemma one_review_world_ordered : db_ordered (db one_review_world).
Proof.
  unfold db_ordered, ids. cbn. repeat split; try lia.
  - constructor; constructor.
  - constructor; [lia|constructor].
Qed.

(** X2 at work: [main.PY] is a Python file. *)
Lemma allowed_file_has_language_witness :
  detect_language (RT := reference_runtime service_down) (py "main.PY")
  <> py "Unknown"
  /\ lookup (file_type_of (RT := reference_runtime service_down) (py "main.PY"))
       ext_to_lang
     = Some (py "Python")
  /\ str_in (file_type_of (RT := reference_runtime service_down) (py "main.PY"))
       ALLOWED_EXTENSIONS
     = true.
Proof.
  exact (@allowed_file_has_language (reference_runtime service_down)
           (py "main.PY") eq_refl).
Defined.

(** X4 at work: a review stored in the empty table is review 1 and is found
    under 1. *)
Lemma saved_review_is_found_witness :
  exists w' row,
    save_review (RT := reference_runtime service_down) (py "a.py") (py "py") 6
      (py "x = 1") (VDict []) (VInt 2) (VInt 1) (VInt 0) (VInt 75) empty_world
    = (Ok 1%Z, w')
    /\ get_review_by_id 1 (db w') = Some row
    /\ row_filename row = py "a.py"
    /\ row_code_quality_score row = VInt 75
    /\ get_review_by_id 2 (db w') = None.
Proof.
  eexists. eexists.
  assert (Hsave : save_review (RT := reference_runtime service_down) (py "a.py")
                    (py "py") 6 (py "x = 1") (VDict []) (VInt 2) (VInt 1) (VInt 0)
                    (VInt 75) empty_world
                  = (Ok 1%Z, _)) by reflexivity.
  destruct (@saved_review_is_found (reference_runtime service_down) _ _ _ _ _ _ _
              _ _ _ _ _ empty_world_ordered Hsave)
    as (_ & _ & Hfound & Hothers & _).
  split; [exact Hsave|]. split; [exact Hfound|].
  split; [reflexivity|]. split; [reflexivity|].
  rewrite Hothers by discriminate. reflexivity.
Defined.

(** X5 at work: deleting review 1 of a table that holds only it. *)
Lemma delete_removes_the_review_witness :
  exists w',
    delete_review_by_id (RT := reference_runtime service_down) 1 one_review_world
    = (Ok true, w')
    /\ get_review_by_id 1 (db w') = None
    /\ last_rowid (db w') = 1%Z
    /\ db_ordered (db w').
Proof.
  eexists.
  assert (Hdelete : delete_review_by_id (RT := reference_runtime service_down) 1
                      one_review_world
                    = (Ok true, _)) by reflexivity.
  destruct (@delete_removes_the_review (reference_runtime service_down) _ _ _ _
              Hdelete) as (_ & Hgone & _ & Hlast & _ & Hordered).
  split; [exact Hdelete|]. split; [exact Hgone|]. split; [exact Hlast|].
  apply Hordered, one_review_world_ordered.
Defined.

(** X9 at work: the batch of three files stores two rows, 1 and 2, which
    its two successes name. *)
Lemma batch_stores_what_it_reports_witness :
  exists results errors w' first second,
    batch_loop (RT := reference_runtime (service_saying partial_reply))
      three_files ([], [], empty_world)
    = (results, errors, w')
    /\ rows (db w') = [first; second]
    /\ Forall2 (names_row (RT := reference_runtime (service_saying partial_reply)))
         results [first; second]
    /\ row_id first = 1%Z /\ row_id second = 2%Z
    /\ row_filename first = py "one.py" /\ row_filename second = py "two.js"
    /\ last_rowid (db w') = 2%Z.
Proof.
  pose (rt := reference_runtime (service_saying partial_reply)).
  let st := eval vm_compute in
              (batch_loop (RT := rt) three_files ([], [], empty_world)) in
  lazymatch st with
  | (?results, ?errors, ?w') =>
      assert (Hloop : batch_loop (RT := rt) three_files ([], [], empty_world)
                      = (results, errors, w'))
        by (vm_compute; reflexivity);
      destruct (@batch_stores_what_it_reports rt three_files empty_world w'
                  results errors Hloop)
        as (added & Hrows & Hnames & Hids & Hlast & _);
      exists results, errors, w'
  end.
  cbn [db rows empty_world app] in Hrows.
  destruct added as [|first [|second [|third added]]]; try discriminate Hrows.
  exists first, second.
  split; [exact Hloop|]. split; [exact Hrows|]. split; [exact Hnames|].
  cbn in Hids. destruct Hids as (Hfirst & Hsecond & _).
  split; [exact Hfirst|]. split; [exact Hsecond|].
  injection Hrows as <- <-.
  split; [reflexivity|]. split; [reflexivity|exact Hlast].
Defined.

(** What the columns declared [INTEGER] keep, on the reference runtime. *)
Lemma integer_column_keeps :
  let kept := integer_column (RT := reference_runtime service_down) in
  (forall z, kept (VInt z) = VInt z)
  /\ kept (VStr (py "85")) = VInt 85
  /\ kept (VFloat (float_of_Z 80)) = VInt 80
  /\ kept (VFloat (float_of_quotient 161 2)) = VFloat (float_of_quotient 161 2)
  /\ kept (VBool true) = VInt 1
  /\ kept (VFloat S754_nan) = VNone
  /\ kept VNone = VNone
  /\ kept (VStr (py "high")) = VStr (py "high").
Proof.
  cbv zeta. split; [reflexivity|].
  repeat split; vm_compute; reflexivity.
Qed.

(** A score the service gives as the text ["85"] is reported as that text
    and stored as the integer 85. *)
Lemma text_score_is_stored_as_integer :
  exists entry row w',
    batch_loop (RT := reference_runtime (service_saying text_score_reply))
      [one_liner] ([], [], empty_world)
    = ([entry], [], w')
    /\ rows (db w') = [row]
    /\ field_at entry ["quality_score"%string] = Ok (VStr (py "85"))
    /\ row_code_quality_score row = VInt 85.
Proof.
  do 3 eexists. split; [vm_compute; reflexivity|].
  split; [reflexivity|]. split; reflexivity.
Qed.

(** X10 at work: the service answers with a JSON array; the upload is
    refused with 500 and the table stays empty. *)
Lemma non_object_reply_fails_witness :
  review_code (RT := reference_runtime (service_saying array_reply))
    (Some one_liner) empty_world
  = (Failed (py "'list' object has no attribute 'get'"),
     {| db := db empty_world; llm_calls := 1 |}).
Proof.
  refine (proj1 (proj2 (@non_object_reply_fails
                          (reference_runtime (service_saying array_reply))
                          one_liner empty_world (VList [VInt 1; VInt 2])
                          eq_refl eq_refl _ _))).
  - vm_compute. reflexivity.
  - intros d H. discriminate H.
Defined.

(** X11 at work: the upload named [.py] is allowed, is saved as [py] and
    is refused with 500. *)
Lemma lost_dot_fails_witness :
  allowed_file (RT := reference_runtime service_down) (py ".py") = true
  /\ saved_name (RT := reference_runtime service_down) dot_py = py "py"
  /\ review_code (RT := reference_runtime service_down) (Some dot_py) empty_world
     = (Failed (py "list index out of range"), empty_world).
Proof.
  split; [reflexivity|]. split; [reflexivity|].
  exact (proj1 (@lost_dot_fails (reference_runtime service_down) dot_py
                  empty_world eq_refl eq_refl)).
Defined.

Lemma scored_reviews_are_int : Forall int_score scored_reviews.
Proof. repeat constructor; eexists; reflexivity. Qed.

(** X12 at work: with [min_score=50] and [limit=1] only the first tuple
    above 50 is listed. *)
Lemma listing_filters_by_score_witness :
  get_reviews (Some 1%Z) (Some 50%Z) None None scored_reviews
  = Answer 200
      (VDict [(py "success", VBool true);
              (py "total", VInt 1);
              (py "reviews", VList [review_dict (listed_of 3 "App.py" (VInt 90))])]).
Proof.
  exact (proj1 (@listing_filters_by_score (Some 1%Z) (Some 50%Z) None None
                  scored_reviews scored_reviews_are_int)).
Defined.

(** X13 at work: one tuple without a score, behind a scored one, and
    [min_score=50]. *)
Lemma listing_fails_on_missing_score_witness :
  answer_status
    (get_reviews None (Some 50%Z) None None
       ([listed_of 2 "util.py" (VInt 40)] ++ listed_of 1 "a.py" VNone :: []))
  = 500.
Proof.
  assert (Hint : Forall int_score [listed_of 2 "util.py" (VInt 40)])
    by (repeat constructor; eexists; reflexivity).
  rewrite (proj1 (@listing_fails_on_missing_score None (Some 50%Z) None None
                    [listed_of 2 "util.py" (VInt 40)] [] (listed_of 1 "a.py" VNone)
                    50 eq_refl Hint eq_refl)).
  reflexivity.
Defined.

(** X14 at work: the query [APP] finds [App.py] and [app_test.py]. *)
Lemma search_ignores_case_witness :
  search_reviews (RT := reference_runtime service_down) (py "APP") scored_reviews
  = Answer 200
      (VDict [(py "success", VBool true);
              (py "query", VStr (py "APP"));
              (py "results",
                VList [search_entry (listed_of 3 "App.py" (VInt 90));
                       search_entry (listed_of 1 "app_test.py" (VInt 70))]);
              (py "count", VInt 2)]).
Proof.
  refine (proj1 (@search_ignores_case (reference_runtime service_down) (py "APP")
                   scored_reviews _)).
  discriminate.
Defined.

Lemma compare_body_asks (first second : Z) :
  asks_for (compare_body first second) (VInt first) (VInt second).
Proof. eexists. split; [reflexivity|]. split; reflexivity. Qed.

(** X15 at work: the second draft against the first, and the other way
    round. *)
Lemma comparison_swaps_sign_witness :
  compare_reviews (select_in three_reviews) (compare_body 1 2)
  = compared_answer first_draft second_draft 50 (-3) (-1) 3 true
  /\ compare_reviews (select_in three_reviews) (compare_body 2 1)
     = compared_answer second_draft first_draft (-50) 3 1 (-3) false.
Proof.
  destruct (@comparison_swaps_sign (select_in three_reviews)
              (compare_body 1 2) (compare_body 2 1) (VInt 1) (VInt 2)
              first_draft second_draft 40 3 2 1 90 0 1 4
              (compare_body_asks 1 2) (compare_body_asks 2 1) eq_refl eq_refl
              (conj eq_refl (conj eq_refl (conj eq_refl eq_refl)))
              (conj eq_refl (conj eq_refl (conj eq_refl eq_refl))))
    as (Hthere & Hback & _).
  split; [exact Hthere|exact Hback].
Defined.

(** X16 at work: the second draft against the review without a score. *)
Lemma comparison_fails_on_missing_score_witness :
  compare_reviews (select_in three_reviews) (compare_body 3 2)
  = Answer 500
      (VDict [(py "error",
                VStr (py "unsupported operand type(s) for -: 'int' and 'NoneType'"))]).
Proof.
  exact (@comparison_fails_on_missing_score (select_in three_reviews)
           (compare_body 3 2) (VInt 3) (VInt 2) (Some unscored) (Some second_draft)
           (compare_body_asks 3 2) eq_refl eq_refl (or_introl eq_refl)).
Defined.

Lemma dated_reviews_are_int : Forall int_score dated_reviews.
Proof. repeat constructor; eexists; reflexivity. Qed.

(** X17 at work: three reviews of two days, and no [days] in the request. *)
Lemma trends_group_by_day_witness :
  exists dates,
    get_trends (fun _ => Ok dated_reviews) None
    = trends_answer 7 dates dated_reviews
    /\ StronglySorted str_lt dates
    /\ (forall date, In date dates
                     <-> exists review, In review dated_reviews
                                        /\ date_part review = date).
Proof.
  exact (@trends_group_by_day (fun _ => Ok dated_reviews) None dated_reviews
           eq_refl dated_reviews_are_int).
Defined.
